(** * lightningutil: preprocessing and case-study plotting of GEOS / GLM fields

    A shallow embedding of [lightningutil.py]: the module constant
    [variables], [open_and_preprocess] and [case_study_plotting], together
    with the fragment of the Python, pandas, xarray and pyplot behaviour that
    the two functions rely on. *)

From Stdlib Require Import List String Ascii ZArith Lia Bool Arith.
From Stdlib Require Import Floats.SpecFloat.
Import ListNotations.

Local Open Scope string_scope.
Local Open Scope list_scope.

(** ** Exceptions and the result monad *)

(** The causes for which the modelled xarray calls raise [ValueError]. *)
Inductive value_error : Type :=
  | CannotBeFound (names : list string)   (* drop_vars: names not in the dataset *)
  | ConflictingSizes (dim : string)       (* a dimension with two lengths *)
  | DimensionExists (dim : string)        (* stack: the new dimension already exists *)
  | NameIsCoordinate (name : string).     (* to_dataset: name clashes with a coordinate *)

Inductive exn : Type :=
  | FileNotFoundError (path : string)
  | KeyError (key : string)
  | AttributeError (attr : string)
  | TypeError
  | UnboundLocalError (local : string)
  | ParserError (text : string)
  | ValueError (why : value_error)
  | RenderError
  | OSError (path : string).

Inductive result (A : Type) : Type :=
  | Ok (a : A)
  | Raise (e : exn).

Arguments Ok {A} a.
Arguments Raise {A} e.

Definition bind {A B : Type} (m : result A) (k : A -> result B) : result B :=
  match m with
  | Ok a => k a
  | Raise e => Raise e
  end.

Notation "x <- m ;; k" := (bind m (fun x => k))
  (at level 61, m at next level, right associativity).

Definition is_ok {A : Type} (r : result A) : bool :=
  match r with Ok _ => true | Raise _ => false end.

Fixpoint mapM {A B : Type} (f : A -> result B) (l : list A) : result (list B) :=
  match l with
  | [] => Ok []
  | a :: l' => b <- f a ;; bs <- mapM f l' ;; Ok (b :: bs)
  end.

(** ** Dictionaries with string keys, in insertion order *)

Section Dict.
Context {A : Type}.

Fixpoint lookup (k : string) (d : list (string * A)) : option A :=
  match d with
  | [] => None
  | (k', a) :: d' => if String.eqb k k' then Some a else lookup k d'
  end.

Definition mem (k : string) (ks : list string) : bool :=
  existsb (String.eqb k) ks.

(** [d[k] = a]: an existing key keeps its place. *)
Fixpoint update (k : string) (a : A) (d : list (string * A)) : list (string * A) :=
  match d with
  | [] => [(k, a)]
  | (k', a') :: d' =>
      if String.eqb k k' then (k, a) :: d' else (k', a') :: update k a d'
  end.

Definition remove (ks : list string) (d : list (string * A)) : list (string * A) :=
  filter (fun p => negb (mem (fst p) ks)) d.

Definition keys (d : list (string * A)) : list string := map fst d.
End Dict.

(** ** Python strings *)

Module Py.

(** [s.split(sep)[0]]: the text before the first occurrence of [sep], the
    whole of [s] when [sep] does not occur. *)
Fixpoint before_first (sep s : string) : string :=
  match s with
  | EmptyString => EmptyString
  | String c s' =>
      if prefix sep s then EmptyString else String c (before_first sep s')
  end.

(** A slice bound: negative bounds count from the end, and every bound is
    clamped to the string. *)
Definition clamp (n i : Z) : Z :=
  if (i <? 0)%Z then Z.max 0 (i + n) else Z.min i n.

(** [s[lo:hi]] with an optional bound on either side. *)
Definition slice (lo hi : option Z) (s : string) : string :=
  let n := Z.of_nat (String.length s) in
  let a := match lo with Some i => clamp n i | None => 0%Z end in
  let b := match hi with Some i => clamp n i | None => n end in
  substring (Z.to_nat a) (Z.to_nat (b - a)) s.

(** Whether [sep] occurs in [s]. *)
Fixpoint occurs (sep s : string) : bool :=
  prefix sep s ||
  match s with
  | EmptyString => false
  | String _ s' => occurs sep s'
  end.

End Py.

(** ** Timestamps *)

Module Clock.

(** A timestamp is a number of seconds since 1970-01-01T00:00:00. *)
Definition Timestamp : Type := Z.

Definition hour : Z := 3600.
Definition day : Z := 86400.

(** Days between 1970-01-01 and the civil date [y]-[m]-[d] of the
    proleptic Gregorian calendar. *)
Definition days_from_civil (y m d : Z) : Z :=
  let y' := (if m <=? 2 then y - 1 else y)%Z in
  let era := (y' / 400)%Z in
  let yoe := (y' - era * 400)%Z in
  let mp := ((m + 9) mod 12)%Z in
  let doy := ((153 * mp + 2) / 5 + d - 1)%Z in
  let doe := (yoe * 365 + yoe / 4 - yoe / 100 + doy)%Z in
  (era * 146097 + doe - 719468)%Z.

(** The inverse: the civil date of a day number. *)
Definition civil_from_days (z : Z) : Z * Z * Z :=
  let z' := (z + 719468)%Z in
  let era := (z' / 146097)%Z in
  let doe := (z' - era * 146097)%Z in
  let yoe := ((doe - doe / 1460 + doe / 36524 - doe / 146096) / 365)%Z in
  let doy := (doe - (365 * yoe + yoe / 4 - yoe / 100))%Z in
  let mp := ((5 * doy + 2) / 153)%Z in
  let d := (doy - (153 * mp + 2) / 5 + 1)%Z in
  let m := (if mp <? 10 then mp + 3 else mp - 9)%Z in
  ((if m <=? 2 then yoe + era * 400 + 1 else yoe + era * 400)%Z, m, d).

Definition datetime (y m d hh mm ss : Z) : Timestamp :=
  (days_from_civil y m d * day + hh * hour + mm * 60 + ss)%Z.

Definition digit (n : Z) : ascii :=
  ascii_of_nat (48 + Z.to_nat (n mod 10)).

Definition pad2 (n : Z) : string :=
  String (digit (n / 10)) (String (digit n) EmptyString).

Definition pad4 (n : Z) : string :=
  String (digit (n / 1000)) (String (digit (n / 100)) (pad2 n)).

(** The ISO 8601 rendering [YYYY-MM-DDTHH:MM:SS] of a timestamp. *)
Definition isoformat (t : Timestamp) : string :=
  let '(y, m, d) := civil_from_days (t / day) in
  let s := (t mod day)%Z in
  pad4 y ++ "-" ++ pad2 m ++ "-" ++ pad2 d ++ "T"
    ++ pad2 (s / hour) ++ ":" ++ pad2 (s mod hour / 60) ++ ":" ++ pad2 (s mod 60).

Definition digit_value (c : ascii) : option Z :=
  let n := nat_of_ascii c in
  if (48 <=? n)%nat && (n <=? 57)%nat then Some (Z.of_nat (n - 48)) else None.

Definition number2 (a b : ascii) : option Z :=
  match digit_value a, digit_value b with
  | Some x, Some y => Some (10 * x + y)%Z
  | _, _ => None
  end.

Definition number4 (a b c d : ascii) : option Z :=
  match number2 a b, number2 c d with
  | Some x, Some y => Some (100 * x + y)%Z
  | _, _ => None
  end.

Definition is_leap (y : Z) : bool :=
  ((y mod 4 =? 0) && (negb (y mod 100 =? 0) || (y mod 400 =? 0)))%Z.

Definition days_in_month (y m : Z) : Z :=
  if (m =? 2)%Z then (if is_leap y then 29 else 28)%Z
  else if ((m =? 4) || (m =? 6) || (m =? 9) || (m =? 11))%Z then 30%Z
  else 31%Z.

(** The calendar dates of ISO 8601 in extended format: exactly
    [YYYY-MM-DD], with a month of the year and a day of that month. The
    value is midnight of that date. *)
Definition iso_date (s : string) : option Timestamp :=
  match s with
  | String y1 (String y2 (String y3 (String y4 (String "-"
      (String m1 (String m2 (String "-"
      (String d1 (String d2 EmptyString))))))))) =>
      match number4 y1 y2 y3 y4, number2 m1 m2, number2 d1 d2 with
      | Some y, Some m, Some d =>
          if ((1 <=? m) && (m <=? 12) && (1 <=? d) && (d <=? days_in_month y m))%Z
          then Some (datetime y m d 0 0 0)
          else None
      | _, _, _ => None
      end
  | _ => None
  end.



(** The instants pandas has a timestamp for: a timestamp counts
    nanoseconds in 64 bits, which reaches from 1677-09-21T00:12:44 to
    2262-04-11T23:47:16 in whole seconds. *)
Definition in_bounds (t : Timestamp) : bool :=
  ((-9223372036 <=? t) && (t <=? 9223372036))%Z.


(** [pd.date_range(start, freq="1H", periods=n)] once [start] is parsed. *)
Definition hourly (start : Timestamp) (periods : nat) : list Timestamp :=
  map (fun i => (start + hour * Z.of_nat i)%Z) (seq 0 periods).

(** [index + timedelta(hours=h)]. *)
Definition shift_hours (h : Z) (index : list Timestamp) : list Timestamp :=
  map (fun t => (t + h * hour)%Z) index.

End Clock.

(** ** Labelled arrays: the fragment of xarray the module uses *)

(** Arrays are held by position: a variable gives a cell for every index
    along its named dimensions, which makes broadcasting and stacking plain
    re-indexing. A float cell carries the width of its array, float64 or
    float32, in canonical form for that width; an integer cell is taken at
    its value, and a missing cell is [NaN] in an array of either width.
    Left out: the global attributes of a dataset, names of the form
    [time.year], indexes over several coordinates, and the range of the
    nanosecond timestamps of pandas in [date_range], which is a condition
    of the statements that need it ([Clock.in_bounds]); a datetime64 cell
    compares unequal to every float. The calls behave as in xarray since
    2022.06, where [stack] makes the levels of its MultiIndex coordinates
    of their own. *)

Module Xr.

(** The values an array cell can hold. *)
Inductive scalar : Type :=
| Num (x : spec_float)        (* a float64 *)
| Num32 (x : spec_float)      (* a float32 *)
| Idx (i : Z)                 (* an integer, as in a default range index *)
| Stamp (t : Clock.Timestamp) (* a datetime64 *)
| Tup (a b : scalar).         (* an entry of a two-level MultiIndex *)

Definition NaN : scalar := Num S754_nan.

(** A position in an array: an index along each named dimension. *)
Definition index : Type := string -> nat.

Definition upd (ix : index) (d : string) (k : nat) : index :=
  fun d' => if String.eqb d' d then k else ix d'.

(** [xarray.Variable]: named dimensions with their lengths, the values and
    the attributes. *)
Record Var : Type := mkVar {
  dims : list (string * nat);
  values : index -> scalar;
  attrs : list (string * scalar)
}.

(** [xarray.DataArray]: one named variable and the coordinates on its
    dimensions. *)
Record DataArray : Type := mkDataArray {
  name : string;
  variable : Var;
  coords : list (string * Var)
}.

(** [xarray.Dataset]: data variables and coordinates. *)
Record Dataset : Type := mkDataset {
  data_vars : list (string * Var);
  ds_coords : list (string * Var)
}.

(** The result of an elementwise comparison: a boolean array. *)
Record Mask : Type := mkMask {
  mask_dims : list (string * nat);
  test : index -> bool
}.

Definition variables (ds : Dataset) : list (string * Var) :=
  data_vars ds ++ ds_coords ds.

Definition dim_names (v : Var) : list string := keys (dims v).

Definition has_dim (d : string) (v : Var) : bool := mem d (dim_names v).

(** [Dataset.sizes]: the length of every dimension of every variable. *)
Definition sizes (vars : list (string * Var)) : list (string * nat) :=
  List.concat (map (fun p => dims (snd p)) vars).

Definition subset (a b : list string) : bool :=
  forallb (fun d => mem d b) a.

(** No dimension of the dataset has two lengths, as in every dataset
    xarray builds. *)
Definition consistent (ds : Dataset) : bool :=
  let sz := sizes (variables ds) in
  forallb (fun p => match lookup (fst p) sz with
                    | Some n => Nat.eqb n (snd p)
                    | None => false
                    end) sz.

(** The index xarray supplies for a dimension without coordinate. *)
Definition range_index (d : string) (n : nat) : Var :=
  {| dims := [(d, n)]; values := fun ix => Idx (Z.of_nat (ix d)); attrs := [] |}.

(** A one-dimensional coordinate holding a pandas DatetimeIndex. *)
Definition datetime_index (d : string) (ts : list Clock.Timestamp) : Var :=
  {| dims := [(d, List.length ts)];
     values := fun ix => Stamp (nth (ix d) ts 0%Z);
     attrs := [] |}.

(** A data array of the dataset carries the coordinates whose dimensions
    are among its own. *)
Definition construct_dataarray (ds : Dataset) (k : string) (v : Var)
  : DataArray :=
  {| name := k;
     variable := v;
     coords := filter (fun p => subset (dim_names (snd p)) (dim_names v))
                      (ds_coords ds) |}.

(** [ds[k]]: a data variable, a coordinate, or the default index of a
    dimension; [KeyError] otherwise. *)
Definition getitem (ds : Dataset) (k : string) : result DataArray :=
  match lookup k (variables ds) with
  | Some v => Ok (construct_dataarray ds k v)
  | None =>
      match lookup k (sizes (variables ds)) with
      | Some n => Ok (construct_dataarray ds k (range_index k n))
      | None => Raise (KeyError k)
      end
  end.

(** [ds.k]: attribute access goes through [ds[k]] and turns a failed
    lookup into [AttributeError]. *)
Definition getattr (ds : Dataset) (k : string) : result DataArray :=
  match getitem ds k with
  | Ok a => Ok a
  | Raise (KeyError _) => Raise (AttributeError k)
  | Raise e => Raise e
  end.

(** [len(array)]: the length of the first dimension. *)
Definition len (a : DataArray) : result nat :=
  match dims (variable a) with
  | [] => Raise TypeError
  | (_, n) :: _ => Ok n
  end.

(** Whether the float [y] is the integer [i]. *)
Definition float_is_int (y : spec_float) (i : Z) : bool :=
  match y with
  | S754_zero _ => Z.eqb i 0
  | S754_finite s m e =>
      let v := if s then Zneg m else Zpos m in
      if (0 <=? e)%Z then Z.eqb i (v * 2 ^ e) else Z.eqb (i * 2 ^ (- e)) v
  | _ => false
  end.

(** The float32 nearest to a float64, ties to even: the cast numpy applies
    to a Python float that meets a float32 array. *)
Definition to_float32 (y : spec_float) : spec_float :=
  match y with
  | S754_finite s m e => binary_normalize 24 128 (if s then Zneg m else Zpos m) e s
  | _ => y
  end.

(** A float32 as the float64 of the same value. *)
Definition to_float64 (x : spec_float) : spec_float :=
  match x with
  | S754_finite s m e => binary_normalize 53 1024 (if s then Zneg m else Zpos m) e s
  | _ => x
  end.

(** The comparison [c != y] of a cell with the Python float [y]: a float64
    cell is compared with [y], a float32 cell with [y] cast to float32, an
    integer cell at its value; a cell that is not a number differs from
    every number. *)
Definition ne_scalar (c : scalar) (y : spec_float) : bool :=
  match c with
  | Num x => negb (SFeqb x y)
  | Num32 x => negb (SFeqb x (to_float32 y))
  | Idx i => negb (float_is_int y i)
  | Stamp _ => true
  | Tup _ _ => true
  end.

(** [array != y]. *)
Definition ne (a : DataArray) (y : spec_float) : Mask :=
  {| mask_dims := dims (variable a);
     test := fun ix => ne_scalar (values (variable a) ix) y |}.

Definition union_dims (a b : list (string * nat)) : list (string * nat) :=
  a ++ filter (fun p => negb (mem (fst p) (keys a))) b.

(** [where] on one variable, broadcast against the condition. *)
Definition where_var (cond : Mask) (other : scalar) (v : Var) : Var :=
  {| dims := union_dims (dims v) (mask_dims cond);
     values := fun ix => if test cond ix then values v ix else other;
     attrs := attrs v |}.

(** [ds.where(cond, other)]: every data variable is masked, coordinates
    are kept. The data variables are taken to be numeric: on a datetime64
    data variable xarray raises [TypeError] for a NaN [other]. *)
Definition where_ (ds : Dataset) (cond : Mask) (other : scalar) : Dataset :=
  {| data_vars := map (fun p => (fst p, where_var cond other (snd p))) (data_vars ds);
     ds_coords := ds_coords ds |}.

(** The first of the dimensions [ds] whose length differs from the one it
    has in [sz]. *)
Fixpoint conflicting (sz : list (string * nat)) (ds : list (string * nat))
  : option string :=
  match ds with
  | [] => None
  | (d, n) :: ds' =>
      match lookup d sz with
      | Some m => if Nat.eqb m n then conflicting sz ds' else Some d
      | None => conflicting sz ds'
      end
  end.

(** One entry of [ds.assign_coords(...)]: the variable becomes the
    coordinate [k], replacing a variable of that name. *)
Definition assign_coord (ds : Dataset) (k : string) (v : Var)
  : result Dataset :=
  let others := remove [k] (variables ds) in
  match conflicting (sizes others) (dims v) with
  | Some d => Raise (ValueError (ConflictingSizes d))
  | None =>
      Ok {| data_vars := remove [k] (data_vars ds);
            ds_coords := update k v (ds_coords ds) |}
  end.

Fixpoint assign_coords (ds : Dataset) (new : list (string * Var))
  : result Dataset :=
  match new with
  | [] => Ok ds
  | (k, v) :: new' => ds' <- assign_coord ds k v ;; assign_coords ds' new'
  end.

(** [ds.drop_vars(names)]: every name must be a variable of the dataset. *)
Definition drop_vars (ds : Dataset) (names : list string) : result Dataset :=
  match filter (fun k => negb (mem k (keys (variables ds)))) names with
  | [] => Ok {| data_vars := remove names (data_vars ds);
                ds_coords := remove names (ds_coords ds) |}
  | missing => Raise (ValueError (CannotBeFound missing))
  end.

(** Stacking dimensions [d1] and [d2] (of lengths [n1] and [n2]) of one
    variable into [new_dim]: a variable without either is left alone, a
    missing one is broadcast, and the new dimension comes last. *)
Definition stack_var (new_dim d1 d2 : string) (n1 n2 : nat) (v : Var)
  : result Var :=
  if has_dim d1 v || has_dim d2 v then
    if has_dim new_dim v then Raise (ValueError (DimensionExists new_dim))
    else
      Ok {| dims := remove [d1; d2] (dims v) ++ [(new_dim, n1 * n2)];
            values := fun ix =>
              values v (upd (upd ix d1 (ix new_dim / n2)) d2 (ix new_dim mod n2));
            attrs := attrs v |}
  else Ok v.

Definition stack_entry (new_dim d1 d2 : string) (n1 n2 : nat)
  (p : string * Var) : result (string * Var) :=
  v <- stack_var new_dim d1 d2 n1 n2 (snd p) ;; Ok (fst p, v).

(** The level of the MultiIndex for dimension [d]: its coordinate when it
    has one, its default index otherwise. *)
Definition level (ds : Dataset) (d : string) (n : nat) : index -> scalar :=
  match lookup d (ds_coords ds) with
  | Some c => values c
  | None => values (range_index d n)
  end.

(** [ds.stack(new_dim=[d1, d2])]: every variable on [d1] or [d2] is
    stacked, and the product MultiIndex [new_dim] with its levels [d1] and
    [d2] replaces the variables of those names. Stacking a name that is not
    a dimension of the dataset is rejected. *)
Definition stack (ds : Dataset) (new_dim d1 d2 : string) : result Dataset :=
  let sz := sizes (variables ds) in
  match lookup d1 sz, lookup d2 sz with
  | None, _ => Raise (KeyError d1)
  | _, None => Raise (KeyError d2)
  | Some n1, Some n2 =>
      dv <- mapM (stack_entry new_dim d1 d2 n1 n2) (data_vars ds) ;;
      cs <- mapM (stack_entry new_dim d1 d2 n1 n2) (ds_coords ds) ;;
      let at1 := fun ix : index => level ds d1 n1 (upd ix d1 (ix new_dim / n2)) in
      let at2 := fun ix : index => level ds d2 n2 (upd ix d2 (ix new_dim mod n2)) in
      let shape := [(new_dim, n1 * n2)] in
      Ok {| data_vars := remove [new_dim; d1; d2] dv;
            ds_coords := remove [new_dim; d1; d2] cs ++
              [ (new_dim, {| dims := shape; values := fun ix => Tup (at1 ix) (at2 ix);
                             attrs := [] |});
                (d1, {| dims := shape; values := at1; attrs := [] |});
                (d2, {| dims := shape; values := at2; attrs := [] |}) ] |}
  end.

(** [array.assign_attrs(k=c)]. *)
Definition assign_attrs (a : DataArray) (k : string) (c : scalar) : DataArray :=
  {| name := name a;
     variable := {| dims := dims (variable a);
                    values := values (variable a);
                    attrs := update k c (attrs (variable a)) |};
     coords := coords a |}.

(** [array.to_dataset(name=k)]. *)
Definition to_dataset (a : DataArray) (k : string) : result Dataset :=
  if mem k (keys (coords a)) then Raise (ValueError (NameIsCoordinate k))
  else Ok {| data_vars := [(k, variable a)]; ds_coords := coords a |}.

(** *** Selection by label *)

(** A label-based indexer: [slice(lo, hi)] of floats, or one timestamp. *)
Inductive indexer : Type :=
| Slice (lo hi : spec_float)
| Label (t : Clock.Timestamp).

(** The labels of a one-dimensional coordinate along [d]. *)
Definition labels (c : Var) (d : string) (n : nat) : list scalar :=
  map (fun k => values c (upd (fun _ => 0) d k)) (seq 0 n).

Definition float_of (c : scalar) : result spec_float :=
  match c with
  | Num x => Ok x
  | Num32 x => Ok (to_float64 x)
  | _ => Raise TypeError
  end.

Fixpoint monotonic (le : spec_float -> spec_float -> bool) (xs : list spec_float)
  : bool :=
  match xs with
  | x :: (y :: _) as xs' => le x y && monotonic le xs'
  | _ => true
  end.

Definition count (p : spec_float -> bool) (xs : list spec_float) : nat :=
  List.length (filter p xs).

Fixpoint position {A : Type} (p : A -> bool) (xs : list A) : option nat :=
  match xs with
  | [] => None
  | x :: xs' => if p x then Some 0 else option_map S (position p xs')
  end.

(** The positions [start, stop) that [slice(lo, hi)] selects in a float
    index: both ends are included; an increasing or decreasing index is
    searched, any other index must contain both bounds. *)
Definition slice_bounds (xs : list spec_float) (lo hi : spec_float)
  : result (nat * nat) :=
  if monotonic SFleb xs then
    Ok (count (fun x => SFltb x lo) xs, count (fun x => SFleb x hi) xs)
  else if monotonic (fun x y => SFleb y x) xs then
    Ok (count (fun x => SFltb lo x) xs, count (fun x => SFleb hi x) xs)
  else
    match position (fun x => SFeqb x lo) xs, position (fun x => SFeqb x hi) xs with
    | Some a, Some b => Ok (a, S b)
    | _, _ => Raise (KeyError "slice bound")
    end.

Definition is_stamp (t : Clock.Timestamp) (c : scalar) : bool :=
  match c with
  | Stamp t' => Z.eqb t t'
  | _ => false
  end.

(** Positional selection of [size] entries from [start] along [d]. *)
Definition take (d : string) (start size : nat) (v : Var) : Var :=
  if has_dim d v then
    {| dims := map (fun p => if String.eqb (fst p) d then (d, size) else p) (dims v);
       values := fun ix => values v (upd ix d (start + ix d));
       attrs := attrs v |}
  else v.

(** Positional selection of the single entry [k] along [d], which drops
    the dimension. *)
Definition pick (d : string) (k : nat) (v : Var) : Var :=
  if has_dim d v then
    {| dims := remove [d] (dims v);
       values := fun ix => values v (upd ix d k);
       attrs := attrs v |}
  else v.

Definition on_array (f : Var -> Var) (a : DataArray) : DataArray :=
  {| name := name a;
     variable := f (variable a);
     coords := map (fun p => (fst p, f (snd p))) (coords a) |}.

(** One indexer of [array.sel(d=i)]: [d] must be a dimension with its
    coordinate; a label that is not in the index raises [KeyError]. *)
Definition sel_dim (a : DataArray) (d : string) (i : indexer) : result DataArray :=
  match lookup d (coords a) with
  | Some c =>
      match dims c with
      | [(d', n)] =>
          if String.eqb d' d then
            match i with
            | Label t =>
                match position (is_stamp t) (labels c d n) with
                | Some k => Ok (on_array (pick d k) a)
                | None => Raise (KeyError (Clock.isoformat t))
                end
            | Slice lo hi =>
                xs <- mapM float_of (labels c d n) ;;
                b <- slice_bounds xs lo hi ;;
                Ok (on_array (take d (fst b) (snd b - fst b)) a)
            end
          else Raise (KeyError d)
      | _ => Raise (KeyError d)
      end
  | None => Raise (KeyError d)
  end.

(** [array.sel(d1=i1, d2=i2, ...)]. *)
Fixpoint sel (a : DataArray) (indexers : list (string * indexer))
  : result DataArray :=
  match indexers with
  | [] => Ok a
  | (d, i) :: rest => a' <- sel_dim a d i ;; sel a' rest
  end.

(** [array.k] for a coordinate [k]. *)
Definition coord (a : DataArray) (k : string) : result Var :=
  match lookup k (coords a) with
  | Some c => Ok c
  | None => Raise (AttributeError k)
  end.

End Xr.

(** ** The module *)

(** The module constant [variables], entry by entry. *)
Definition variables : list string :=
  [ "precon";
    "energy_f";
    "energy_g";
    "flashes";
    "groups";
    "cape";
    "mf_cbase";
    "flashes";
    "pretot";
    "iwc_440";
    "pblh";
    "p_ctop";
    "p_cbase";
    "cnv_mfc_440";
    "z_cbase";
    "cldht";
    "t_sfc";
    "cldfrac_conv_440";
    "cldfrac_ls_440";
    "l_cbase" ].

(** The float64 literal [1.e+15]: 8000000000000000 * 2^-3, a 53-bit mantissa. *)
Definition fill_value : spec_float := S754_finite false 8000000000000000 (-3).

(** The delimiter of the file names. *)
Definition token : string := ".r180W".

(** [f"{s[-6:-2]}-{s[-2:]}-01"] for [s = filename.split('.r180W')[0]]. *)
Definition start_string (filename : string) : string :=
  let s := Py.before_first token filename in
  Py.slice (Some (-6)%Z) (Some (-2)%Z) s ++ "-" ++ Py.slice (Some (-2)%Z) None s ++ "-01".

(** The [for var in variables: try: ds[var]; break; except KeyError:
    continue] loop. [var] is the binding of the loop variable so far ([None]:
    not bound yet); the result is its binding when the loop is left. *)
Fixpoint scan (ds : Xr.Dataset) (candidates : list string) (var : option string)
  : result (option string) :=
  match candidates with
  | [] => Ok var
  | c :: rest =>
      match Xr.getitem ds c with
      | Ok _ => Ok (Some c)
      | Raise (KeyError _) => scan ds rest (Some c)
      | Raise e => Raise e
      end
  end.

(** Reading a local variable. *)
Definition local (x : string) (binding : option string) : result string :=
  match binding with
  | Some v => Ok v
  | None => Raise (UnboundLocalError x)
  end.

Section Preprocessor.

(** [xr.open_dataset(filename, mask_and_scale=True)]: what the file system
    holds under each path. *)
Variable open_dataset : string -> result Xr.Dataset.

(** How pandas reads the [start] text of [pd.date_range]. *)
Variable to_datetime : string -> option Clock.Timestamp.

(** [pd.date_range(start=start, freq="1H", periods=periods)]. *)
Definition date_range (start : string) (periods : nat)
  : result (list Clock.Timestamp) :=
  match to_datetime start with
  | Some t => Ok (Clock.hourly t periods)
  | None => Raise (ParserError start)
  end.

(** Lines 50-57: the hourly range of the month of the file, one hour on. *)
Definition datetime_range (filename : string) (ds : Xr.Dataset)
  : result (list Clock.Timestamp) :=
  let start := start_string filename in
  days <- Xr.getattr ds "Days" ;;
  ndays <- Xr.len days ;;
  hours <- Xr.getattr ds "Hours" ;;
  nhours <- Xr.len hours ;;
  range <- date_range start (ndays * nhours) ;;
  Ok (Clock.shift_hours 1 range).

(** Lines 62-68: the fill values of [ds[var]] become NaN, and the
    longitudes, the latitudes and the range become coordinates. *)
Definition mask_and_label (ds : Xr.Dataset) (v : string)
  (range : list Clock.Timestamp) : result Xr.Dataset :=
  active <- Xr.getitem ds v ;;
  let masked := Xr.where_ ds (Xr.ne active fill_value) Xr.NaN in
  lon <- Xr.getattr ds "longitude" ;;
  lat <- Xr.getattr ds "latitude" ;;
  Xr.assign_coords masked
    [ ("Longitudes", Xr.variable lon);
      ("Latitudes", Xr.variable lat);
      ("Datetime", Xr.datetime_index "Datetime" range) ].

(** Lines 62-80: masking, re-keying and stacking for the name [var]. *)
Definition rekey (ds : Xr.Dataset) (var : option string)
  (range : list Clock.Timestamp) : result Xr.DataArray :=
  v <- local "var" var ;;
  ds1 <- mask_and_label ds v range ;;
  ds2 <- Xr.drop_vars ds1 ["longitude"; "latitude"; "time"] ;;
  ds3 <- Xr.stack ds2 "Datetime" "Days" "Hours" ;;
  a <- Xr.getitem ds3 v ;;
  ds4 <- Xr.to_dataset (Xr.assign_attrs a "missing_value" Xr.NaN) v ;;
  ds5 <- Xr.drop_vars ds4 ["Datetime"; "Days"; "Hours"] ;;
  newds <- Xr.assign_coords ds5
             [ ("Datetime", Xr.datetime_index "Datetime" range) ] ;;
  Xr.getitem newds v.

Definition open_and_preprocess (filename : string) (candidates : list string)
  : result Xr.DataArray :=
  ds <- open_dataset filename ;;
  var <- scan ds candidates None ;;
  range <- datetime_range filename ds ;;
  rekey ds var range.

End Preprocessor.

(** ** Plotting *)

(** pyplot keeps a registry of open figures, the last one made being the
    current figure. A figure is held as the list of what has been drawn on
    its axes; the disk and the display are held as the list of what has
    been written and shown, in order. The library is taken at its plain
    behaviour: making the figure succeeds, the display returns and leaves
    the registry to [plt.close()] (a display that blocks hands back an
    empty registry, on which [plt.close()] does nothing), and a write that
    fails leaves no file. *)

Module Plt.

Inductive projection : Type := Mercator | PlateCarree.

(** What the calls on the axes and on the figure add to the figure. *)
Inductive artist : Type :=
| Pcolormesh (x y c : Xr.Var) (vmin vmax : option spec_float) (cmap : string)
    (transform : projection)
| Gridliner (crs : projection) (draw_labels top bottom left right ylines xlines : bool)
| Colorbar (extend : string) (label : option string)
| Contour (x y z : Xr.Var) (levels : option (list spec_float)) (colors : string)
    (linestyles : option string) (transform : projection)
| Clabel (inline : option bool) (fontsize : spec_float)
| Coastlines
| Feature (what : string)
| Legend (handles : list (string * string)) (texts : list (option string))
    (framealpha : spec_float) (facecolor : string)
| Title (text : option string).

Record Figure : Type := mkFigure {
  num : nat;
  axes_projection : projection;
  artists : list artist
}.

Inductive event : Type :=
| Saved (fname : string) (dpi : nat) (fig : Figure)
| Shown (figs : list Figure).

(** The state of pyplot and of its surroundings: the registry of open
    figures (the current figure first), and what has been written to disk
    and put on display, in order. *)
Record World : Type := mkWorld {
  figures : list Figure;
  events : list event
}.

(** A call that may change the world and may raise. *)
Definition M (A : Type) : Type := World -> result A * World.

Definition ret {A : Type} (a : A) : M A := fun w => (Ok a, w).

Definition raise {A : Type} (e : exn) : M A := fun w => (Raise e, w).

Definition bindM {A B : Type} (m : M A) (k : A -> M B) : M B :=
  fun w =>
    match m w with
    | (Ok a, w') => k a w'
    | (Raise e, w') => (Raise e, w')
    end.

(** A computation on arrays, which leaves the world alone. *)
Definition lift {A : Type} (r : result A) : M A := fun w => (r, w).

End Plt.

Notation "x <~ m ;; k" := (Plt.bindM m (fun x => k))
  (at level 61, m at next level, right associativity).
Notation "m ;;; k" := (Plt.bindM m (fun _ => k))
  (at level 61, right associativity).

(** The keyword arguments of [case_study_plotting]. *)
Record options : Type := mkOptions {
  vmin : option spec_float;
  vmax : option spec_float;
  cmap : string;
  cnt_levels_1 : option (list spec_float);
  color_1 : string;
  legend_label_1 : option string;
  cnt_levels_2 : option (list spec_float);
  color_2 : string;
  legend_label_2 : option string;
  cbar_label : option string;
  legend_facecolor : string;
  fig_title : option string;
  save_string : option string
  }.

(** Their default values. *)
Definition defaults : options :=
  {| vmin := None; vmax := None; cmap := "plasma";
     cnt_levels_1 := None; color_1 := "white"; legend_label_1 := None;
     cnt_levels_2 := None; color_2 := "blue"; legend_label_2 := None;
     cbar_label := None; legend_facecolor := "red"; fig_title := None;
     save_string := None |}.

(** The float64 literals [7.5] and [1.]. *)
Definition seven_and_a_half : spec_float := S754_finite false 8444249301319680 (-50).
Definition one : spec_float := S754_finite false 4503599627370496 (-52).

Section Plotter.

(** Whether the plotting libraries accept a drawing call on this figure
    (a call they do not accept raises). *)
Variable accepts : Plt.Figure -> Plt.artist -> bool.

(** Whether a file can be written at a path. *)
Variable writable : string -> bool.

Definition next_num (figs : list Plt.Figure) : nat :=
  S (fold_right Nat.max 0 (map Plt.num figs)).

(** [plt.subplots(1, 1, subplot_kw=dict(projection=p))]: a new figure,
    registered as the current one; the result stands for its axes. *)
Definition subplots (p : Plt.projection) : Plt.M nat :=
  fun w =>
    let n := next_num (Plt.figures w) in
    (Ok n, {| Plt.figures := Plt.mkFigure n p [] :: Plt.figures w;
              Plt.events := Plt.events w |}).

Definition add_artist (a : Plt.artist) (f : Plt.Figure) : Plt.Figure :=
  {| Plt.num := Plt.num f;
     Plt.axes_projection := Plt.axes_projection f;
     Plt.artists := Plt.artists f ++ [a] |}.

(** A drawing call on the axes [axis]: the artist is added to the figure
    of these axes, unless the library raises. *)
Definition draw (axis : nat) (a : Plt.artist) : Plt.M unit :=
  fun w =>
    match find (fun f => Nat.eqb (Plt.num f) axis) (Plt.figures w) with
    | Some fig =>
        if accepts fig a
        then (Ok tt,
              {| Plt.figures :=
                   map (fun f => if Nat.eqb (Plt.num f) axis then add_artist a f else f)
                       (Plt.figures w);
                 Plt.events := Plt.events w |})
        else (Raise RenderError, w)
    | None => (Ok tt, w)
    end.

(** [plt.gcf()]: the current figure; a new one when none is open. *)
Definition gcf : Plt.M Plt.Figure :=
  fun w =>
    match Plt.figures w with
    | fig :: _ => (Ok fig, w)
    | [] => let fig := Plt.mkFigure 1 Plt.PlateCarree [] in
            (Ok fig, {| Plt.figures := [fig]; Plt.events := Plt.events w |})
    end.

(** [plt.savefig(fname=fname, dpi=dpi)]: the current figure goes to disk. *)
Definition savefig (fname : string) (dpi : nat) : Plt.M unit :=
  Plt.bindM gcf (fun fig => fun w =>
    if writable fname
    then (Ok tt, {| Plt.figures := Plt.figures w;
                    Plt.events := Plt.events w ++ [Plt.Saved fname dpi fig] |})
    else (Raise (OSError fname), w)).

(** [plt.show()]: every open figure is displayed. *)
Definition show : Plt.M unit :=
  fun w => (Ok tt, {| Plt.figures := Plt.figures w;
                      Plt.events := Plt.events w ++ [Plt.Shown (Plt.figures w)] |}).

(** [plt.close()]: the current figure leaves the registry. *)
Definition close : Plt.M unit :=
  fun w => (Ok tt, {| Plt.figures := tl (Plt.figures w);
                      Plt.events := Plt.events w |}).

Definition gridlines (axis : nat) : Plt.M unit :=
  draw axis (Plt.Gridliner Plt.PlateCarree true false true true false false false).

Definition case_study_plotting
  (ds_tmp CS1_tmp CS2_tmp : Xr.DataArray)
  (lon_range lat_range date_time : Xr.indexer) (o : options) : Plt.M unit :=
  (* figure creation *)
  axis <~ subplots Plt.Mercator ;;
  (* plotting *)
  ds <~ Plt.lift (Xr.sel ds_tmp [ ("Latitudes", lat_range);
                                  ("Longitudes", lon_range);
                                  ("Datetime", date_time) ]) ;;
  x <~ Plt.lift (Xr.coord ds "Longitudes") ;;
  y <~ Plt.lift (Xr.coord ds "Latitudes") ;;
  draw axis (Plt.Pcolormesh x y (Xr.variable ds) (vmin o) (vmax o) (cmap o)
               Plt.PlateCarree) ;;;
  gridlines axis ;;;
  draw axis (Plt.Colorbar "max" (cbar_label o)) ;;;
  (* plotting the group flashes *)
  CS <~ Plt.lift (Xr.sel CS1_tmp [ ("Latitudes", lat_range);
                                   ("Longitudes", lon_range);
                                   ("Datetime", date_time) ]) ;;
  x <~ Plt.lift (Xr.coord CS "Longitudes") ;;
  y <~ Plt.lift (Xr.coord CS "Latitudes") ;;
  draw axis (Plt.Contour x y (Xr.variable CS) (cnt_levels_1 o) (color_1 o) None
               Plt.PlateCarree) ;;;
  (* labeling the contour *)
  draw axis (Plt.Clabel None seven_and_a_half) ;;;
  (* plotting the individual flashes *)
  CS <~ Plt.lift (Xr.sel CS2_tmp [ ("Latitudes", lat_range);
                                   ("Longitudes", lon_range);
                                   ("Datetime", date_time) ]) ;;
  x <~ Plt.lift (Xr.coord CS "Longitudes") ;;
  y <~ Plt.lift (Xr.coord CS "Latitudes") ;;
  draw axis (Plt.Contour x y (Xr.variable CS) (cnt_levels_2 o) (color_2 o)
               (Some "dashed") Plt.PlateCarree) ;;;
  draw axis (Plt.Clabel (Some true) seven_and_a_half) ;;;
  draw axis Plt.Coastlines ;;;
  draw axis (Plt.Feature "STATES") ;;;
  draw axis (Plt.Legend [ (color_1 o, "-"); (color_2 o, "--") ]
               [ legend_label_1 o; legend_label_2 o ] one (legend_facecolor o)) ;;;
  draw axis (Plt.Title (fig_title o)) ;;;
  match save_string o with
  | Some fname => savefig fname 200
  | None => Plt.ret tt
  end ;;;
  show ;;;
  close ;;;
  Plt.ret tt.

End Plotter.

(** ** Notions of the statements *)

(** The names the specification lists as the known variables. *)
Definition documented_variables : list string :=
  [ "precon"; "energy_f"; "energy_g"; "flashes"; "groups"; "cape"; "mf_cbase";
    "pretot"; "iwc_440"; "pblh"; "p_ctop"; "p_cbase"; "cnv_mfc_440"; "z_cbase";
    "cldht"; "t_sfc"; "cldfrac_conv_440"; "cldfrac_ls_440"; "l_cbase" ].

(** The entries of a list without their repetitions, in order of first
    occurrence. *)
Fixpoint dedup (l : list string) : list string :=
  match l with
  | [] => []
  | x :: l' => x :: filter (fun y => negb (String.eqb x y)) (dedup l')
  end.

(** A field of the dataset: a data variable, a coordinate or a dimension. *)
Definition present (ds : Xr.Dataset) (k : string) : bool :=
  mem k (keys (Xr.variables ds)) || mem k (keys (Xr.sizes (Xr.variables ds))).

(** The names that [open_and_preprocess] reads, drops or creates itself. *)
Definition reserved : list string :=
  [ "longitude"; "latitude"; "time"; "Days"; "Hours";
    "Longitudes"; "Latitudes"; "Datetime" ].

(** A cell that holds the fill value as its array has it: 1e15 in a
    float64 array, 10^15 in an integer array, and in a float32 array the
    float32 of 1e15, which is 999999986991104. *)
Definition is_fill (c : Xr.scalar) : Prop :=
  c = Xr.Num fill_value \/ c = Xr.Idx (10 ^ 15) \/
  c = Xr.Num32 (Xr.to_float32 fill_value).


(** [len(ds.k)]. *)
Definition length_of (ds : Xr.Dataset) (k : string) : result nat :=
  a <- Xr.getattr ds k ;; Xr.len a.

(** [pre] is the text before the first occurrence of [sep] in [s]. *)
Definition first_occurrence (sep s pre : string) : Prop :=
  (exists post, s = (pre ++ sep ++ post)%string) /\
  (forall p q, s = (p ++ sep ++ q)%string -> String.length pre <= String.length p).

(** The files written during a call. *)
Definition saved (evs : list Plt.event) : list (string * nat) :=
  flat_map (fun e => match e with
                     | Plt.Saved fname dpi _ => [(fname, dpi)]
                     | Plt.Shown _ => []
                     end) evs.

(** The states of a call of [case_study_plotting] that starts in [w0]. *)
Section PlotterStates.
Variable w0 : Plt.World.

Let n := next_num (Plt.figures w0).

(** The state of a call in progress: the figure of the call is the
    current one, above the figures that were open before, and nothing has
    been written or displayed. *)
Definition in_progress (w : Plt.World) : Prop :=
  Plt.events w = Plt.events w0 /\
  exists fig, Plt.figures w = fig :: Plt.figures w0 /\ Plt.num fig = n.

(** A step that keeps the call in progress, whether it returns or raises. *)
Definition keeps {A : Type} (m : Plt.M A) : Prop :=
  forall w, in_progress w -> in_progress (snd (m w)).

(** A remainder of the call after which the call is over: on return the
    registry is as before the call, the events are the optional write
    followed by the display; on an exception the call is still in progress. *)
Definition finishes (save : option string) {A : Type} (m : Plt.M A) : Prop :=
  forall w, in_progress w ->
    match m w with
    | (Ok _, w') =>
        Plt.figures w' = Plt.figures w0 /\
        exists fig,
          Plt.num fig = n /\
          Plt.events w' =
            Plt.events w0
            ++ match save with Some fname => [Plt.Saved fname 200 fig] | None => [] end
            ++ [Plt.Shown (fig :: Plt.figures w0)]
    | (Raise _, w') => in_progress w'
    end.

End PlotterStates.

(** ** A sample month of flashes, for the examples *)

Module Sample.

Definition unit_value : spec_float := one.

(** Flash counts on 2 days x 3 hours x 2 latitudes x 2 longitudes, with
    the fill value where day + hour + latitude = 1. *)
Definition flashes : Xr.Var :=
  {| Xr.dims := [("Days", 2); ("Hours", 3); ("Latitudes", 2); ("Longitudes", 2)];
     Xr.values := fun ix =>
       if Nat.eqb (ix "Days" + ix "Hours" + ix "Latitudes") 1
       then Xr.Num fill_value else Xr.Num unit_value;
     Xr.attrs := [("scale", Xr.Num unit_value)] |}.

Definition axis_values (d : string) (n : nat) : Xr.Var :=
  {| Xr.dims := [(d, n)];
     Xr.values := fun ix => Xr.Num (if Nat.eqb (ix d) 0 then S754_zero false else one);
     Xr.attrs := [] |}.

Definition data : list (string * Xr.Var) :=
  [ ("flashes", flashes);
    ("longitude", axis_values "Longitudes" 2);
    ("latitude", axis_values "Latitudes" 2);
    ("time", {| Xr.dims := [("Days", 2); ("Hours", 3)];
                Xr.values := fun ix => Xr.Idx (Z.of_nat (3 * ix "Days" + ix "Hours"));
                Xr.attrs := [] |}) ].

(** The file as the naming convention and the input contract have it. *)
Definition file : Xr.Dataset :=
  {| Xr.data_vars := data; Xr.ds_coords := [] |}.

(** The same file with a scalar coordinate [lev]. *)
Definition file_with_level : Xr.Dataset :=
  {| Xr.data_vars := data;
     Xr.ds_coords := [("lev", {| Xr.dims := []; Xr.values := fun _ => Xr.Idx 440;
                                 Xr.attrs := [] |})] |}.

(** The same file without the field [time]. *)
Definition file_without_time : Xr.Dataset :=
  {| Xr.data_vars := remove ["time"] data; Xr.ds_coords := [] |}.

Definition disk (path : string) : result Xr.Dataset :=
  if String.eqb path "GEOS/201907.r180W.nc" then Ok file
  else if String.eqb path "GEOS/201907" then Ok file
  else if String.eqb path "GEOS/level/201907.r180W.nc" then Ok file_with_level
  else if String.eqb path "GEOS/notime/201907.r180W.nc" then Ok file_without_time
  else if String.eqb path "GEOS/2019-7.r180W.nc" then Ok file
  else Raise (FileNotFoundError path).

(** A preprocessed field on 2 latitudes x 2 longitudes x 6 hours. *)
Definition field : Xr.DataArray :=
  {| Xr.name := "flashes";
     Xr.variable := {| Xr.dims := [("Latitudes", 2); ("Longitudes", 2); ("Datetime", 6)];
                       Xr.values := fun ix => Xr.Num unit_value;
                       Xr.attrs := [("missing_value", Xr.NaN)] |};
     Xr.coords :=
       [ ("Longitudes", axis_values "Longitudes" 2);
         ("Latitudes", axis_values "Latitudes" 2);
         ("Datetime",
          Xr.datetime_index "Datetime"
            (Clock.shift_hours 1 (Clock.hourly (Clock.datetime 2019 7 1 0 0 0) 6))) ] |}.

(** The array [open_and_preprocess] makes of a file, [field] when it
    raises. *)
Definition processed (path : string) : Xr.DataArray :=
  match open_and_preprocess disk Clock.iso_date path variables with
  | Ok a => a
  | Raise _ => field
  end.

Definition window : Xr.indexer := Xr.Slice (S754_zero false) one.

Definition inside : Xr.indexer := Xr.Label (Clock.datetime 2019 7 1 3 0 0).
Definition outside : Xr.indexer := Xr.Label (Clock.datetime 2019 7 5 20 0 0).

Definition empty_world : Plt.World := {| Plt.figures := []; Plt.events := [] |}.

Definition to_file (o : options) (fname : string) : options :=
  {| vmin := vmin o; vmax := vmax o; cmap := cmap o;
     cnt_levels_1 := cnt_levels_1 o; color_1 := color_1 o;
     legend_label_1 := legend_label_1 o;
     cnt_levels_2 := cnt_levels_2 o; color_2 := color_2 o;
     legend_label_2 := legend_label_2 o;
     cbar_label := cbar_label o; legend_facecolor := legend_facecolor o;
     fig_title := fig_title o; save_string := Some fname |}.

End Sample.

(** [d] is a dimension of the dataset, of length [n], and what [ds.d] gives
    lies along it: a variable called [d], if there is one, is
    one-dimensional along [d]. *)
Definition axis (ds : Xr.Dataset) (d : string) (n : nat) : Prop :=
  lookup d (Xr.sizes (Xr.variables ds)) = Some n /\
  forall c, lookup d (Xr.variables ds) = Some c -> Xr.dim_names c = [d].

(** A variable without datetimes: numbers, which [where] can mask with
    NaN. *)
Definition numeric (x : Xr.Var) : Prop :=
  forall ix t, Xr.values x ix <> Xr.Stamp t.

(** A one-dimensional coordinate along [d] whose labels are floats in
    increasing order. *)
Definition float_axis (c : Xr.Var) (d : string) : Prop :=
  exists n xs,
    Xr.dims c = [(d, n)] /\
    mapM Xr.float_of (Xr.labels c d n) = Ok xs /\
    Xr.monotonic SFleb xs = true.

(** What a call of [case_study_plotting] draws, in order, when no call
    raises. *)
Definition planned_artists
  (ds_tmp CS1_tmp CS2_tmp : Xr.DataArray)
  (lon_range lat_range date_time : Xr.indexer) (o : options)
  : result (list Plt.artist) :=
  let window := [ ("Latitudes", lat_range);
                  ("Longitudes", lon_range);
                  ("Datetime", date_time) ] in
  ds <- Xr.sel ds_tmp window ;;
  x <- Xr.coord ds "Longitudes" ;;
  y <- Xr.coord ds "Latitudes" ;;
  CS1 <- Xr.sel CS1_tmp window ;;
  x1 <- Xr.coord CS1 "Longitudes" ;;
  y1 <- Xr.coord CS1 "Latitudes" ;;
  CS2 <- Xr.sel CS2_tmp window ;;
  x2 <- Xr.coord CS2 "Longitudes" ;;
  y2 <- Xr.coord CS2 "Latitudes" ;;
  Ok [ Plt.Pcolormesh x y (Xr.variable ds) (vmin o) (vmax o) (cmap o) Plt.PlateCarree;
       Plt.Gridliner Plt.PlateCarree true false true true false false false;
       Plt.Colorbar "max" (cbar_label o);
       Plt.Contour x1 y1 (Xr.variable CS1) (cnt_levels_1 o) (color_1 o) None
         Plt.PlateCarree;
       Plt.Clabel None seven_and_a_half;
       Plt.Contour x2 y2 (Xr.variable CS2) (cnt_levels_2 o) (color_2 o) (Some "dashed")
         Plt.PlateCarree;
       Plt.Clabel (Some true) seven_and_a_half;
       Plt.Coastlines;
       Plt.Feature "STATES";
       Plt.Legend [ (color_1 o, "-"); (color_2 o, "--") ]
         [ legend_label_1 o; legend_label_2 o ] one (legend_facecolor o);
       Plt.Title (fig_title o) ].

(** ** Further sample files *)

Module Cases.

Definition month : string := "GEOS/201907.r180W.nc".

(** The hours of the sample month: six of them, from 01:00:00 on. *)
Definition hours : list Clock.Timestamp :=
  Clock.shift_hours 1 (Clock.hourly (Clock.datetime 2019 7 1 0 0 0) 6).

(** A file whose variables lie on the two position axes only. *)
Definition no_axes : Xr.Dataset :=
  {| Xr.data_vars :=
       [ ("flashes", {| Xr.dims := [("Latitudes", 2); ("Longitudes", 2)];
                        Xr.values := fun _ => Xr.Num one;
                        Xr.attrs := [] |});
         ("longitude", Sample.axis_values "Longitudes" 2);
         ("latitude", Sample.axis_values "Latitudes" 2) ];
     Xr.ds_coords := [] |}.


(** The sample file with position axes called [lat] and [lon]. *)
Definition other_names : Xr.Dataset :=
  {| Xr.data_vars :=
       [ ("flashes", {| Xr.dims := [("Days", 2); ("Hours", 3); ("lat", 2); ("lon", 2)];
                        Xr.values := Xr.values Sample.flashes;
                        Xr.attrs := [] |});
         ("longitude", Sample.axis_values "lon" 2);
         ("latitude", Sample.axis_values "lat" 2);
         ("time", {| Xr.dims := [("Days", 2); ("Hours", 3)];
                     Xr.values := fun ix => Xr.Idx (Z.of_nat (3 * ix "Days" + ix "Hours"));
                     Xr.attrs := [] |}) ];
     Xr.ds_coords := [] |}.



(** What [open_and_preprocess] makes of a file, [Sample.field] when it
    raises. *)
Definition processed (ds : Xr.Dataset) : Xr.DataArray :=
  match open_and_preprocess (fun _ => Ok ds) Clock.iso_date month variables with
  | Ok a => a
  | Raise _ => Sample.field
  end.

(** The array [open_and_preprocess] makes of it, [Sample.field] when it
    raises. *)
Definition processed_other_names : Xr.DataArray :=
  match open_and_preprocess (fun _ => Ok other_names) Clock.iso_date month variables with
  | Ok a => a
  | Raise _ => Sample.field
  end.

End Cases.

(** * Properties *)

(** ** Dictionaries *)

Section DictFacts.
Context {A : Type}.
Implicit Types (d : list (string * A)) (k : string).

Lemma mem_In k ks : mem k ks = true <-> In k ks.
Proof.
  unfold mem. rewrite existsb_exists. split.
  - intros [x [Hx E]]. apply String.eqb_eq in E. now subst.
  - intros H. exists k. split; [assumption | apply String.eqb_refl].
Qed.

Lemma mem_cons k k' ks : mem k (k' :: ks) = String.eqb k k' || mem k ks.
Proof. reflexivity. Qed.

Lemma lookup_app k d d' :
  lookup k (d ++ d') = match lookup k d with Some a => Some a | None => lookup k d' end.
Proof.
  induction d as [|[k' a] d IH]; simpl; [reflexivity|].
  destruct (String.eqb k k'); [reflexivity | apply IH].
Qed.

Lemma lookup_In k d a : lookup k d = Some a -> In (k, a) d.
Proof.
  induction d as [|[k' a'] d IH]; simpl; [discriminate|].
  destruct (String.eqb k k') eqn:E.
  - apply String.eqb_eq in E. intros [= ->]. subst. now left.
  - intros H. right. now apply IH.
Qed.

Lemma lookup_keys k d : mem k (keys d) = true <-> exists a, lookup k d = Some a.
Proof.
  induction d as [|[k' a'] d IH]; simpl.
  - split; [discriminate | intros [a H]; discriminate].
  - destruct (String.eqb k k'); simpl.
    + split; [intros _; now exists a' | reflexivity].
    + exact IH.
Qed.

Lemma lookup_None_keys k d : lookup k d = None <-> mem k (keys d) = false.
Proof.
  destruct (mem k (keys d)) eqn:E.
  - apply lookup_keys in E as [a ->]. split; discriminate.
  - split; [reflexivity|]. intros _. destruct (lookup k d) eqn:L; [|reflexivity].
    assert (mem k (keys d) = true) by (apply lookup_keys; eauto). congruence.
Qed.

Lemma lookup_remove k ks d :
  lookup k (remove ks d) = if mem k ks then None else lookup k d.
Proof.
  unfold remove. induction d as [|[k' a] d IH]; simpl.
  - now destruct (mem k ks).
  - destruct (mem k' ks) eqn:M; simpl.
    + rewrite IH. destruct (String.eqb k k') eqn:E; [|reflexivity].
      apply String.eqb_eq in E. subst. now rewrite M.
    + destruct (String.eqb k k') eqn:E.
      * apply String.eqb_eq in E. subst. now rewrite M.
      * apply IH.
Qed.

Lemma keys_remove k ks d :
  In k (keys (remove ks d)) <-> In k (keys d) /\ mem k ks = false.
Proof.
  unfold keys, remove. rewrite !in_map_iff. split.
  - intros [[k' a] [E H]]. simpl in E. subst. apply filter_In in H as [H M].
    simpl in M. split; [exists (k, a); auto | now apply negb_true_iff in M].
  - intros [[[k' a] [E H]] M]. simpl in E. subst. exists (k, a). split; [reflexivity|].
    apply filter_In. split; [assumption | simpl; now rewrite M].
Qed.

Lemma lookup_update k k' a d :
  lookup k (update k' a d) = if String.eqb k k' then Some a else lookup k d.
Proof.
  induction d as [|[k0 a0] d IH]; simpl.
  - reflexivity.
  - destruct (String.eqb k' k0) eqn:E0; simpl.
    + apply String.eqb_eq in E0. subst. now destruct (String.eqb k k0).
    + rewrite IH. destruct (String.eqb k k0) eqn:E1; [|reflexivity].
      apply String.eqb_eq in E1. subst.
      rewrite String.eqb_sym in E0. now rewrite E0.
Qed.

Lemma keys_update k k' a d :
  In k (keys (update k' a d)) <-> k = k' \/ In k (keys d).
Proof.
  unfold keys. induction d as [|[k0 a0] d IH]; simpl.
  - intuition congruence.
  - destruct (String.eqb k' k0) eqn:E0; simpl.
    + apply String.eqb_eq in E0. subst. intuition congruence.
    + rewrite IH. intuition congruence.
Qed.

Lemma keys_filter k (p : string * A -> bool) d :
  In k (keys (filter p d)) -> In k (keys d).
Proof.
  unfold keys. rewrite !in_map_iff. intros [x [E H]]. apply filter_In in H as [H _].
  now exists x.
Qed.

Lemma lookup_filter k (p : string * A -> bool) d a :
  lookup k d = Some a -> p (k, a) = true -> lookup k (filter p d) = Some a.
Proof.
  induction d as [|[k' a'] d IH]; simpl; [discriminate|].
  destruct (String.eqb k k') eqn:E.
  - apply String.eqb_eq in E. subst. intros [= ->] P. rewrite P. simpl.
    now rewrite String.eqb_refl.
  - intros L P. destruct (p (k', a')); simpl; [rewrite E|]; now apply IH.
Qed.

Lemma lookup_filter_inv k (p : string * A -> bool) d a :
  lookup k (filter p d) = Some a -> In (k, a) d /\ p (k, a) = true.
Proof.
  intros H. apply lookup_In in H. now apply filter_In in H.
Qed.

End DictFacts.

Lemma lookup_map {A B : Type} (f : A -> B) k (d : list (string * A)) :
  lookup k (map (fun p => (fst p, f (snd p))) d) = option_map f (lookup k d).
Proof.
  induction d as [|[k' a] d IH]; simpl; [reflexivity|].
  destruct (String.eqb k k'); [reflexivity | apply IH].
Qed.

Lemma keys_map {A B : Type} (f : A -> B) (d : list (string * A)) :
  keys (map (fun p => (fst p, f (snd p))) d) = keys d.
Proof. unfold keys. rewrite map_map. reflexivity. Qed.

(** ** The known-variable list *)

(** C9: the list [variables] does not hold nineteen names once each: it has
    twenty entries, and its entries 3 and 7 (counting from 0) are both
    [flashes]; without that repetition it is the documented list, in the
    documented order. *)
Theorem variables_lists_flashes_twice :
  List.length variables = 20 /\
  nth 3 variables "" = "flashes" /\
  nth 7 variables "" = "flashes" /\
  count_occ string_dec variables "flashes" = 2 /\
  variables <> documented_variables /\
  dedup variables = documented_variables.
Proof.
  repeat split; try reflexivity.
  intros E. apply (f_equal (@List.length string)) in E. discriminate E.
Qed.

Lemma variables_not_reserved v :
  In v variables -> mem v reserved = false.
Proof.
  intros H.
  assert (F : forallb (fun k => negb (mem k reserved)) variables = true) by reflexivity.
  rewrite forallb_forall in F. apply F in H. now apply negb_true_iff in H.
Qed.

(** ** Looking a name up in a dataset *)

Lemma getitem_present ds k : is_ok (Xr.getitem ds k) = present ds k.
Proof.
  unfold Xr.getitem, present.
  destruct (lookup k (Xr.variables ds)) eqn:L.
  - assert (M : mem k (keys (Xr.variables ds)) = true) by (apply lookup_keys; eauto).
    now rewrite M.
  - apply lookup_None_keys in L. rewrite L. simpl.
    destruct (lookup k (Xr.sizes (Xr.variables ds))) eqn:S.
    + assert (M : mem k (keys (Xr.sizes (Xr.variables ds))) = true)
        by (apply lookup_keys; eauto).
      now rewrite M.
    + apply lookup_None_keys in S. now rewrite S.
Qed.

Lemma getitem_absent ds k :
  present ds k = false -> Xr.getitem ds k = Raise (KeyError k).
Proof.
  unfold present, Xr.getitem. intros H. apply orb_false_elim in H as [H1 H2].
  apply lookup_None_keys in H1, H2. now rewrite H1, H2.
Qed.

Lemma getitem_raises ds k e : Xr.getitem ds k = Raise e -> e = KeyError k.
Proof.
  unfold Xr.getitem.
  destruct (lookup k (Xr.variables ds)); [discriminate|].
  destruct (lookup k (Xr.sizes (Xr.variables ds))); [discriminate|].
  now intros [= <-].
Qed.


(** ** The scan of the candidates *)

Section Scan.
Variable ds : Xr.Dataset.

Lemma scan_absent candidates var :
  (forall c, In c candidates -> present ds c = false) ->
  scan ds candidates var
  = Ok (match candidates with [] => var | _ :: _ => Some (last candidates "") end).
Proof.
  revert var. induction candidates as [|c rest IH]; intros var H; simpl scan.
  - reflexivity.
  - rewrite getitem_absent by (apply H; now left).
    rewrite IH by (intros; apply H; now right).
    destruct rest; reflexivity.
Qed.



End Scan.

Ltac bind_inv H :=
  match type of H with
  | bind ?m _ = Ok _ =>
      let E := fresh "E" in
      destruct m eqn:E; simpl in H; [|discriminate H]
  end.




(** C6: when no candidate is a field of the dataset, the scan does not
    raise: it ends with the loop variable bound to the last candidate, the
    timestamps are built next, and the masking step then looks that name up,
    which raises [KeyError] for it. *)
Theorem scan_falls_through_to_last ds candidates :
  candidates <> [] ->
  (forall c, In c candidates -> present ds c = false) ->
  scan ds candidates None = Ok (Some (last candidates "")) /\
  (forall range, rekey ds (Some (last candidates "")) range
                 = Raise (KeyError (last candidates ""))) /\
  (forall open_dataset to_datetime filename,
      open_dataset filename = Ok ds ->
      open_and_preprocess open_dataset to_datetime filename candidates
      = match datetime_range to_datetime filename ds with
        | Ok _ => Raise (KeyError (last candidates ""))
        | Raise e => Raise e
        end).
Proof.
  intros NE A.
  assert (S : scan ds candidates None = Ok (Some (last candidates ""))).
  { rewrite scan_absent by assumption. now destruct candidates. }
  assert (L : present ds (last candidates "") = false).
  { apply A. destruct candidates as [|c rest]; [congruence|].
    clear - rest. revert c. induction rest as [|c' rest IH]; intros c; [now left|].
    right. apply (IH c'). }
  assert (R : forall range, rekey ds (Some (last candidates "")) range
                            = Raise (KeyError (last candidates ""))).
  { intros range. unfold rekey, mask_and_label. simpl.
    now rewrite (getitem_absent _ _ L). }
  repeat split; try assumption.
  intros od td filename O. unfold open_and_preprocess. rewrite O. simpl.
  rewrite S. simpl. destruct (datetime_range td filename ds); simpl; [apply R | reflexivity].
Qed.

Lemma scan_falls_through_to_last_witness :
  scan Sample.file ["lwi"; "snomas"] None = Ok (Some "snomas") /\
  (forall range, rekey Sample.file (Some "snomas") range = Raise (KeyError "snomas")) /\
  (forall open_dataset to_datetime filename,
      open_dataset filename = Ok Sample.file ->
      open_and_preprocess open_dataset to_datetime filename ["lwi"; "snomas"]
      = match datetime_range to_datetime filename Sample.file with
        | Ok _ => Raise (KeyError "snomas")
        | Raise e => Raise e
        end).
Proof.
  apply (scan_falls_through_to_last Sample.file ["lwi"; "snomas"]).
  - discriminate.
  - intros c [<- | [<- | []]]; reflexivity.
Defined.

(** ** The plotter *)

Section PlotterFacts.
Variable accepts : Plt.Figure -> Plt.artist -> bool.
Variable writable : string -> bool.
Variable w0 : Plt.World.

Let n := next_num (Plt.figures w0).
Let in_progress := in_progress w0.
Let keeps {A : Type} := @keeps w0 A.
Let finishes save {A : Type} := @finishes w0 save A.

Lemma num_fresh f : In f (Plt.figures w0) -> Nat.eqb (Plt.num f) n = false.
Proof.
  intros H. apply Nat.eqb_neq. unfold n, next_num.
  assert (Plt.num f <= fold_right Nat.max 0 (map Plt.num (Plt.figures w0))); [|lia].
  induction (Plt.figures w0) as [|g gs IH]; [destruct H|]. simpl.
  destruct H as [-> | H]; [lia | specialize (IH H); lia].
Qed.

Lemma keeps_lift {A : Type} (r : result A) : keeps (Plt.lift r).
Proof. intros w H. exact H. Qed.

Lemma keeps_draw a : keeps (draw accepts n a).
Proof.
  intros w [E [fig [F N]]]. unfold draw. rewrite F. simpl. rewrite N, Nat.eqb_refl.
  destruct (accepts fig a); simpl.
  - split; [assumption|]. exists (add_artist a fig). split; [|assumption].
    cbn [Plt.figures]. f_equal.
    transitivity (map (fun f : Plt.Figure => f) (Plt.figures w0)); [|apply map_id].
    apply map_ext_in. intros f I. now rewrite (num_fresh f I).
  - split; [assumption|]. now exists fig.
Qed.

Lemma keeps_gridlines : keeps (gridlines accepts n).
Proof. apply keeps_draw. Qed.

Lemma finishes_bind save {A B : Type} (m : Plt.M A) (k : A -> Plt.M B) :
  keeps m -> (forall a, finishes save (k a)) -> finishes save (Plt.bindM m k).
Proof.
  intros K F w I. unfold Plt.bindM. specialize (K w I).
  destruct (m w) as [[a|e] w']; simpl in K; [apply F|]; assumption.
Qed.

Lemma finishes_end save :
  finishes save
    (match save with Some fname => savefig writable fname 200 | None => Plt.ret tt end ;;;
     show ;;; close ;;; Plt.ret tt).
Proof.
  intros w [E [fig [F N]]]. unfold Plt.bindM, savefig, gcf, show, close, Plt.ret.
  destruct save as [fname|]; simpl.
  - unfold Plt.bindM. rewrite F. simpl. destruct (writable fname); simpl.
    + rewrite F. simpl. split; [reflexivity|]. exists fig. split; [assumption|].
      rewrite E, <- app_assoc. reflexivity.
    + split; [assumption|]. now exists fig.
  - rewrite F. simpl. split; [reflexivity|]. exists fig. split; [assumption|].
    now rewrite E.
Qed.

Lemma in_progress_subplots p : in_progress (snd (subplots p w0)).
Proof. simpl. split; [reflexivity|]. now eexists. Qed.

(** What a call does to the registry and to the disk and display. *)
Lemma plotting_outcome ds_tmp CS1_tmp CS2_tmp lon_range lat_range date_time o :
  match case_study_plotting accepts writable ds_tmp CS1_tmp CS2_tmp
          lon_range lat_range date_time o w0 with
  | (Ok _, w') =>
      Plt.figures w' = Plt.figures w0 /\
      exists fig,
        Plt.num fig = n /\
        Plt.events w' =
          Plt.events w0
          ++ match save_string o with
             | Some fname => [Plt.Saved fname 200 fig]
             | None => []
             end
          ++ [Plt.Shown (fig :: Plt.figures w0)]
  | (Raise _, w') => in_progress w'
  end.
Proof.
  unfold case_study_plotting.
  unfold Plt.bindM at 1. change (subplots Plt.Mercator w0) with
    (Ok n, snd (subplots Plt.Mercator w0)). cbv iota beta.
  generalize (in_progress_subplots Plt.Mercator).
  generalize (snd (subplots Plt.Mercator w0)). intros w I. revert w I.
  change (finishes (save_string o)
    (ds <~ Plt.lift (Xr.sel ds_tmp [ ("Latitudes", lat_range);
                                    ("Longitudes", lon_range);
                                    ("Datetime", date_time) ]) ;;
     x <~ Plt.lift (Xr.coord ds "Longitudes") ;;
     y <~ Plt.lift (Xr.coord ds "Latitudes") ;;
     draw accepts n (Plt.Pcolormesh x y (Xr.variable ds) (vmin o) (vmax o) (cmap o)
                  Plt.PlateCarree) ;;;
     gridlines accepts n ;;;
     draw accepts n (Plt.Colorbar "max" (cbar_label o)) ;;;
     CS <~ Plt.lift (Xr.sel CS1_tmp [ ("Latitudes", lat_range);
                                      ("Longitudes", lon_range);
                                      ("Datetime", date_time) ]) ;;
     x <~ Plt.lift (Xr.coord CS "Longitudes") ;;
     y <~ Plt.lift (Xr.coord CS "Latitudes") ;;
     draw accepts n (Plt.Contour x y (Xr.variable CS) (cnt_levels_1 o) (color_1 o) None
                  Plt.PlateCarree) ;;;
     draw accepts n (Plt.Clabel None seven_and_a_half) ;;;
     CS <~ Plt.lift (Xr.sel CS2_tmp [ ("Latitudes", lat_range);
                                      ("Longitudes", lon_range);
                                      ("Datetime", date_time) ]) ;;
     x <~ Plt.lift (Xr.coord CS "Longitudes") ;;
     y <~ Plt.lift (Xr.coord CS "Latitudes") ;;
     draw accepts n (Plt.Contour x y (Xr.variable CS) (cnt_levels_2 o) (color_2 o)
                  (Some "dashed") Plt.PlateCarree) ;;;
     draw accepts n (Plt.Clabel (Some true) seven_and_a_half) ;;;
     draw accepts n Plt.Coastlines ;;;
     draw accepts n (Plt.Feature "STATES") ;;;
     draw accepts n (Plt.Legend [ (color_1 o, "-"); (color_2 o, "--") ]
                  [ legend_label_1 o; legend_label_2 o ] one (legend_facecolor o)) ;;;
     draw accepts n (Plt.Title (fig_title o)) ;;;
     match save_string o with
     | Some fname => savefig writable fname 200
     | None => Plt.ret tt
     end ;;;
     show ;;;
     close ;;;
     Plt.ret tt)).
  repeat (apply finishes_bind;
          [first [apply keeps_lift | apply keeps_draw | apply keeps_gridlines] | intros]).
  apply finishes_end.
Qed.

End PlotterFacts.

(** A call on the sample fields, in a world where every drawing call is
    accepted and every path can be written. *)
Example plotting_sample_call :
  let run := case_study_plotting (fun _ _ => true) (fun _ => true)
               Sample.field Sample.field Sample.field
               Sample.window Sample.window Sample.inside
               (Sample.to_file defaults "case.png") Sample.empty_world in
  fst run = Ok tt /\
  Plt.figures (snd run) = [] /\
  saved (Plt.events (snd run)) = [("case.png", 200)] /\
  List.length (Plt.events (snd run)) = 2.
Proof. vm_compute. repeat split. Qed.

(** C5, as the code has it: the figure of the call is closed when the call
    returns; when a selection, a drawing call or the write raises, the
    exception leaves the call with the figure still registered as the
    current figure. The number of that figure is not the number of any
    figure that was open before the call. *)
Theorem figure_closed_on_return_only
  accepts writable ds_tmp CS1_tmp CS2_tmp lon_range lat_range date_time o w :
  ~ In (next_num (Plt.figures w)) (map Plt.num (Plt.figures w)) /\
  match case_study_plotting accepts writable ds_tmp CS1_tmp CS2_tmp
          lon_range lat_range date_time o w with
  | (Ok _, w') => ~ In (next_num (Plt.figures w)) (map Plt.num (Plt.figures w'))
  | (Raise _, w') =>
      exists fig, Plt.figures w' = fig :: Plt.figures w /\
                  Plt.num fig = next_num (Plt.figures w)
  end.
Proof.
  assert (Fresh : ~ In (next_num (Plt.figures w)) (map Plt.num (Plt.figures w))).
  { intros H. apply in_map_iff in H as [f [E I]].
    apply (num_fresh w) in I. rewrite E, Nat.eqb_refl in I. discriminate. }
  split; [exact Fresh|].
  pose proof (plotting_outcome accepts writable w ds_tmp CS1_tmp CS2_tmp
                lon_range lat_range date_time o) as H.
  destruct (case_study_plotting accepts writable ds_tmp CS1_tmp CS2_tmp
              lon_range lat_range date_time o w) as [[[]|e] w'].
  - destruct H as [-> _]. exact Fresh.
  - apply H.
Qed.

(** C5, as stated, fails: a call whose timestamp is not in the field raises
    [KeyError] at the first selection and leaves figure 1 open. *)
Lemma figure_left_open_when_selection_raises :
  let run := case_study_plotting (fun _ _ => true) (fun _ => true)
               Sample.field Sample.field Sample.field
               Sample.window Sample.window Sample.outside
               defaults Sample.empty_world in
  fst run = Raise (KeyError "2019-07-05T20:00:00") /\
  map Plt.num (Plt.figures (snd run)) = [1].
Proof. vm_compute. split; reflexivity. Qed.

(** ** File names *)

Lemma prefix_app sep q : prefix sep (sep ++ q) = true.
Proof.
  induction sep as [|c sep IH]; simpl; [now destruct q|].
  destruct (ascii_dec c c); [assumption | congruence].
Qed.

Lemma prefix_true sep s : prefix sep s = true -> exists q, s = (sep ++ q)%string.
Proof.
  revert s. induction sep as [|c sep IH]; intros s H.
  - now exists s.
  - destruct s as [|c' s]; [discriminate|]. simpl in H.
    destruct (ascii_dec c c'); [|discriminate]. subst c'. simpl.
    destruct (IH s H) as [q ->]. now exists q.
Qed.


Lemma before_first_spec sep s pre :
  first_occurrence sep s pre -> Py.before_first sep s = pre.
Proof.
  revert s. induction pre as [|c pre IH]; intros s [[post E] M].
  - simpl in E. subst s. destruct (sep ++ post)%string as [|c s'] eqn:S; [reflexivity|].
    cbn [Py.before_first]. rewrite <- S, prefix_app. reflexivity.
  - simpl in E. subst s. cbn [Py.before_first].
    destruct (prefix sep (String c (pre ++ sep ++ post))) eqn:P.
    + apply prefix_true in P as [q Q].
      specialize (M EmptyString q Q). simpl in M. lia.
    + f_equal. apply IH. split; [now exists post|].
      intros p q Q. specialize (M (String c p) q). simpl in M.
      rewrite Q in M. specialize (M eq_refl). lia.
Qed.

Lemma length_app (a b : string) :
  String.length (a ++ b) = String.length a + String.length b.
Proof. induction a as [|c a IH]; simpl; [reflexivity | now rewrite IH]. Qed.

Lemma substring_skip (a b : string) k m :
  substring (String.length a + k) m (a ++ b) = substring k m b.
Proof. induction a as [|c a IH]; simpl; [reflexivity | apply IH]. Qed.

Lemma slice_year dir ym :
  String.length ym = 6 ->
  Py.slice (Some (-6)%Z) (Some (-2)%Z) (dir ++ ym) = substring 0 4 ym.
Proof.
  intros L. unfold Py.slice, Py.clamp. rewrite length_app, L.
  change (-6 <? 0)%Z with true. change (-2 <? 0)%Z with true. cbv iota.
  set (n := String.length dir).
  replace (Z.to_nat (Z.max 0 (-2 + Z.of_nat (n + 6)) - Z.max 0 (-6 + Z.of_nat (n + 6))))
    with 4 by lia.
  replace (Z.to_nat (Z.max 0 (-6 + Z.of_nat (n + 6)))) with (n + 0) by lia.
  apply substring_skip.
Qed.

Lemma slice_month dir ym :
  String.length ym = 6 ->
  Py.slice (Some (-2)%Z) None (dir ++ ym) = substring 4 2 ym.
Proof.
  intros L. unfold Py.slice, Py.clamp. rewrite length_app, L.
  change (-6 <? 0)%Z with true. change (-2 <? 0)%Z with true. cbv iota.
  set (n := String.length dir).
  replace (Z.to_nat (Z.of_nat (n + 6) - Z.max 0 (-2 + Z.of_nat (n + 6))))
    with 2 by lia.
  replace (Z.to_nat (Z.max 0 (-2 + Z.of_nat (n + 6)))) with (n + 4) by lia.
  apply substring_skip.
Qed.



(** ** The calendar *)






(** ** The timestamps *)

Lemma hourly_length t n : List.length (Clock.hourly t n) = n.
Proof. unfold Clock.hourly. now rewrite length_map, length_seq. Qed.

Lemma shift_hours_length h l : List.length (Clock.shift_hours h l) = List.length l.
Proof. unfold Clock.shift_hours. apply length_map. Qed.

Lemma nth_map_in {A B : Type} (f : A -> B) l i d d' :
  i < List.length l -> nth i (map f l) d = f (nth i l d').
Proof.
  revert i. induction l as [|a l IH]; intros [|i] H; simpl in *; try lia; auto.
  apply IH. lia.
Qed.

Lemma hourly_nth t n i :
  i < n -> nth i (Clock.hourly t n) 0%Z = (t + Clock.hour * Z.of_nat i)%Z.
Proof.
  intros H. unfold Clock.hourly.
  rewrite (nth_map_in _ _ _ _ 0) by (now rewrite length_seq).
  now rewrite seq_nth.
Qed.

Lemma shifted_nth t n i :
  i < n ->
  nth i (Clock.shift_hours 1 (Clock.hourly t n)) 0%Z
  = (t + Clock.hour + Clock.hour * Z.of_nat i)%Z.
Proof.
  intros H. unfold Clock.shift_hours.
  rewrite (nth_map_in _ _ _ _ 0%Z) by (now rewrite hourly_length).
  rewrite hourly_nth by assumption. lia.
Qed.

Lemma datetime_range_steps to_datetime filename ds :
  datetime_range to_datetime filename ds
  = (ndays <- length_of ds "Days" ;;
     nhours <- length_of ds "Hours" ;;
     range <- date_range to_datetime (start_string filename) (ndays * nhours) ;;
     Ok (Clock.shift_hours 1 range)).
Proof.
  unfold datetime_range, length_of.
  destruct (Xr.getattr ds "Days") as [days|]; simpl; [|reflexivity].
  destruct (Xr.len days); simpl; [|reflexivity].
  destruct (Xr.getattr ds "Hours") as [hours|]; simpl; reflexivity.
Qed.

(** ** The steps of the re-keying *)

Lemma assign_coord_inv ds k v ds' :
  Xr.assign_coord ds k v = Ok ds' ->
  ds' = {| Xr.data_vars := remove [k] (Xr.data_vars ds);
           Xr.ds_coords := update k v (Xr.ds_coords ds) |}.
Proof.
  unfold Xr.assign_coord.
  destruct (Xr.conflicting _ _); [discriminate | now intros [= <-]].
Qed.

Lemma drop_vars_inv ds names ds' :
  Xr.drop_vars ds names = Ok ds' ->
  ds' = {| Xr.data_vars := remove names (Xr.data_vars ds);
           Xr.ds_coords := remove names (Xr.ds_coords ds) |} /\
  forall k, In k names -> mem k (keys (Xr.variables ds)) = true.
Proof.
  unfold Xr.drop_vars.
  destruct (filter _ names) as [|x l] eqn:F; [|discriminate].
  intros [= <-]. split; [reflexivity|]. intros k I.
  destruct (mem k (keys (Xr.variables ds))) eqn:M; [reflexivity|].
  assert (In k (filter (fun k => negb (mem k (keys (Xr.variables ds)))) names)).
  { apply filter_In. split; [assumption | now rewrite M]. }
  rewrite F in H. destruct H.
Qed.

Lemma drop_vars_missing ds names k :
  In k names -> mem k (keys (Xr.variables ds)) = false ->
  exists missing, In k missing /\
                  Xr.drop_vars ds names = Raise (ValueError (CannotBeFound missing)).
Proof.
  intros I M. unfold Xr.drop_vars.
  assert (H : In k (filter (fun k => negb (mem k (keys (Xr.variables ds)))) names)).
  { apply filter_In. split; [assumption | now rewrite M]. }
  destruct (filter _ names) as [|x l]; [destruct H|].
  exists (x :: l). split; [assumption | reflexivity].
Qed.

Section Stacking.
Variables new_dim d1 d2 : string.
Variables n1 n2 : nat.

Lemma stack_entries_lookup l l' k v :
  mapM (Xr.stack_entry new_dim d1 d2 n1 n2) l = Ok l' ->
  lookup k l = Some v ->
  exists v', Xr.stack_var new_dim d1 d2 n1 n2 v = Ok v' /\ lookup k l' = Some v'.
Proof.
  revert l'. induction l as [|[k0 v0] l IH]; intros l' H L; [discriminate|].
  simpl in H. unfold Xr.stack_entry at 1 in H. simpl in H.
  destruct (Xr.stack_var new_dim d1 d2 n1 n2 v0) as [v0'|] eqn:S; [|discriminate].
  simpl in H. destruct (mapM _ l) as [l0|]; [|discriminate]. simpl in H.
  injection H as <-. simpl in *. destruct (String.eqb k k0).
  - injection L as <-. now exists v0'.
  - now apply IH.
Qed.

Lemma stack_entries_keys l l' :
  mapM (Xr.stack_entry new_dim d1 d2 n1 n2) l = Ok l' -> keys l' = keys l.
Proof.
  revert l'. induction l as [|[k0 v0] l IH]; intros l' H.
  - now injection H as <-.
  - simpl in H. unfold Xr.stack_entry at 1 in H. simpl in H.
    destruct (Xr.stack_var new_dim d1 d2 n1 n2 v0) as [v0'|]; [|discriminate].
    simpl in H. destruct (mapM _ l) as [l0|]; [|discriminate]. simpl in H.
    injection H as <-. simpl. f_equal. now apply IH.
Qed.

Lemma stack_entries_In l l' k v' :
  mapM (Xr.stack_entry new_dim d1 d2 n1 n2) l = Ok l' ->
  In (k, v') l' ->
  exists v, In (k, v) l /\ Xr.stack_var new_dim d1 d2 n1 n2 v = Ok v'.
Proof.
  revert l'. induction l as [|[k0 v0] l IH]; intros l' H I.
  - injection H as <-. destruct I.
  - simpl in H. unfold Xr.stack_entry at 1 in H. simpl in H.
    destruct (Xr.stack_var new_dim d1 d2 n1 n2 v0) as [v0'|] eqn:S; [|discriminate].
    simpl in H. destruct (mapM _ l) as [l0|]; [|discriminate]. simpl in H.
    injection H as <-. destruct I as [[= <- <-] | I].
    + exists v0. split; [now left | assumption].
    + destruct (IH l0 eq_refl I) as [v [Iv Sv]]. exists v. split; [now right | assumption].
Qed.
End Stacking.

Lemma stack_inv ds new_dim d1 d2 ds' :
  Xr.stack ds new_dim d1 d2 = Ok ds' ->
  exists n1 n2 dv cs levels,
    lookup d1 (Xr.sizes (Xr.variables ds)) = Some n1 /\
    lookup d2 (Xr.sizes (Xr.variables ds)) = Some n2 /\
    mapM (Xr.stack_entry new_dim d1 d2 n1 n2) (Xr.data_vars ds) = Ok dv /\
    mapM (Xr.stack_entry new_dim d1 d2 n1 n2) (Xr.ds_coords ds) = Ok cs /\
    keys levels = [new_dim; d1; d2] /\
    (forall k c, In (k, c) levels -> Xr.dims c = [(new_dim, n1 * n2)]) /\
    ds' = {| Xr.data_vars := remove [new_dim; d1; d2] dv;
             Xr.ds_coords := remove [new_dim; d1; d2] cs ++ levels |}.
Proof.
  unfold Xr.stack.
  destruct (lookup d1 _) as [n1|] eqn:L1; [|discriminate].
  destruct (lookup d2 _) as [n2|] eqn:L2; [|discriminate].
  destruct (mapM _ (Xr.data_vars ds)) as [dv|] eqn:M1; [|discriminate]. simpl.
  destruct (mapM _ (Xr.ds_coords ds)) as [cs|] eqn:M2; [|discriminate]. simpl.
  intros [= <-]. eexists n1, n2, dv, cs, _.
  do 4 (split; [first [reflexivity | assumption]|]).
  split; [|split; [|reflexivity]].
  - reflexivity.
  - intros k c [[= <- <-] | [[= <- <-] | [[= <- <-] | []]]]; reflexivity.
Qed.

Lemma to_dataset_inv a k ds :
  Xr.to_dataset a k = Ok ds ->
  mem k (keys (Xr.coords a)) = false /\
  ds = {| Xr.data_vars := [(k, Xr.variable a)]; Xr.ds_coords := Xr.coords a |}.
Proof.
  unfold Xr.to_dataset. destruct (mem k (keys (Xr.coords a))); [discriminate|].
  now intros [= <-].
Qed.

Lemma getitem_inv ds k a :
  Xr.getitem ds k = Ok a ->
  a = Xr.construct_dataarray ds k (Xr.variable a) /\
  (lookup k (Xr.variables ds) = Some (Xr.variable a) \/
   lookup k (Xr.variables ds) = None /\
   exists n, lookup k (Xr.sizes (Xr.variables ds)) = Some n /\
             Xr.variable a = Xr.range_index k n).
Proof.
  unfold Xr.getitem. destruct (lookup k (Xr.variables ds)) as [v|].
  - intros [= <-]. split; [reflexivity | now left].
  - destruct (lookup k (Xr.sizes (Xr.variables ds))) as [n|]; [|discriminate].
    intros [= <-]. split; [reflexivity|]. right. split; [reflexivity|]. now exists n.
Qed.

Lemma getattr_inv ds k a : Xr.getattr ds k = Ok a -> Xr.getitem ds k = Ok a.
Proof.
  unfold Xr.getattr. destruct (Xr.getitem ds k) as [|e]; [auto|].
  destruct e; discriminate.
Qed.

(** The dataset after lines 62-68. *)
Lemma mask_and_label_inv ds v range ds1 :
  mask_and_label ds v range = Ok ds1 ->
  exists active lon lat,
    Xr.getitem ds v = Ok active /\
    Xr.getitem ds "longitude" = Ok lon /\
    Xr.getitem ds "latitude" = Ok lat /\
    Xr.data_vars ds1 =
      remove ["Datetime"] (remove ["Latitudes"] (remove ["Longitudes"]
        (map (fun p => (fst p, Xr.where_var (Xr.ne active fill_value) Xr.NaN (snd p)))
             (Xr.data_vars ds)))) /\
    Xr.ds_coords ds1 =
      update "Datetime" (Xr.datetime_index "Datetime" range)
        (update "Latitudes" (Xr.variable lat)
           (update "Longitudes" (Xr.variable lon) (Xr.ds_coords ds))).
Proof.
  unfold mask_and_label. intros H. bind_inv H. rename a into active.
  bind_inv H. rename a into lon. bind_inv H. rename a into lat.
  simpl in H. repeat bind_inv H. injection H as <-.
  apply assign_coord_inv in E2, E3, E4. subst.
  exists active, lon, lat. repeat split; auto using getattr_inv.
Qed.

(** Every dataset and array on the way of a successful re-keying. *)
Lemma rekey_inv ds var range arr :
  rekey ds var range = Ok arr ->
  exists v ds1 ds2 ds3 a ds4 ds5,
    var = Some v /\
    mask_and_label ds v range = Ok ds1 /\
    Xr.drop_vars ds1 ["longitude"; "latitude"; "time"] = Ok ds2 /\
    Xr.stack ds2 "Datetime" "Days" "Hours" = Ok ds3 /\
    Xr.getitem ds3 v = Ok a /\
    Xr.to_dataset (Xr.assign_attrs a "missing_value" Xr.NaN) v = Ok ds4 /\
    Xr.drop_vars ds4 ["Datetime"; "Days"; "Hours"] = Ok ds5 /\
    Xr.getitem
      {| Xr.data_vars := remove ["Datetime"] (Xr.data_vars ds5);
         Xr.ds_coords := update "Datetime" (Xr.datetime_index "Datetime" range)
                           (Xr.ds_coords ds5) |} v = Ok arr.
Proof.
  unfold rekey. intros H. destruct var as [v|]; [|discriminate]. simpl in H.
  bind_inv H. rename a into ds1. bind_inv H. rename a into ds2.
  bind_inv H. rename a into ds3. bind_inv H. bind_inv H. rename a0 into ds4.
  bind_inv H. rename a0 into ds5. bind_inv H. simpl in E5. bind_inv E5.
  injection E5 as <-. apply assign_coord_inv in E6. subst.
  exists v, ds1, ds2, ds3, a, ds4, ds5. repeat split; assumption.
Qed.

Lemma preprocess_inv open_dataset to_datetime filename candidates arr :
  open_and_preprocess open_dataset to_datetime filename candidates = Ok arr ->
  exists ds var range,
    open_dataset filename = Ok ds /\
    scan ds candidates None = Ok var /\
    datetime_range to_datetime filename ds = Ok range /\
    rekey ds var range = Ok arr.
Proof.
  unfold open_and_preprocess. intros H. bind_inv H. bind_inv H. bind_inv H.
  eexists _, _, _. repeat split; eassumption.
Qed.

Lemma subset_refl l : Xr.subset l l = true.
Proof.
  unfold Xr.subset. apply forallb_forall. intros x I. now apply mem_In.
Qed.

Lemma getitem_coords ds k a :
  Xr.getitem ds k = Ok a ->
  Xr.coords a
  = filter (fun p => Xr.subset (Xr.dim_names (snd p)) (Xr.dim_names (Xr.variable a)))
           (Xr.ds_coords ds).
Proof.
  unfold Xr.getitem. destruct (lookup k (Xr.variables ds)); [now intros [= <-]|].
  destruct (lookup k (Xr.sizes (Xr.variables ds))); [now intros [= <-] | discriminate].
Qed.

Lemma getitem_lookup ds k v :
  lookup k (Xr.variables ds) = Some v ->
  Xr.getitem ds k = Ok (Xr.construct_dataarray ds k v).
Proof. unfold Xr.getitem. now intros ->. Qed.

(** In a stacked dataset, the new dimension and the two levels are
    coordinates of themselves. *)
Lemma stacked_level_is_own_coordinate ds2 ds3 v a :
  Xr.stack ds2 "Datetime" "Days" "Hours" = Ok ds3 ->
  mem v ["Datetime"; "Days"; "Hours"] = true ->
  Xr.getitem ds3 v = Ok a ->
  mem v (keys (Xr.coords a)) = true.
Proof.
  intros S M G.
  destruct (stack_inv _ _ _ _ _ S) as (n1 & n2 & dv & cs & levels & _ & _ & _ & _ & K & D & ->).
  assert (L : exists c, lookup v levels = Some c).
  { apply lookup_keys. now rewrite K. }
  destruct L as [c L].
  assert (V : lookup v (Xr.variables
                {| Xr.data_vars := remove ["Datetime"; "Days"; "Hours"] dv;
                   Xr.ds_coords := remove ["Datetime"; "Days"; "Hours"] cs ++ levels |})
              = Some c).
  { unfold Xr.variables. cbn [Xr.data_vars Xr.ds_coords].
    rewrite !lookup_app, !lookup_remove, M. exact L. }
  rewrite (getitem_lookup _ _ _ V) in G. injection G as <-.
  apply mem_In. cbn [Xr.construct_dataarray Xr.coords Xr.ds_coords].
  unfold keys. apply in_map_iff. exists (v, c). split; [reflexivity|].
  apply filter_In. split.
  - apply in_or_app. right. now apply lookup_In.
  - apply subset_refl.
Qed.

Lemma single_entry_kept {A : Type} (v : string) (x : A) ks :
  mem v ks = false -> remove ks [(v, x)] = [(v, x)].
Proof. intros M. unfold remove. simpl. now rewrite M. Qed.

(** The array a successful re-keying returns, in terms of the array taken
    from the stacked dataset. *)
Lemma rekey_shape ds var range arr :
  rekey ds var range = Ok arr ->
  exists v ds1 ds2 ds3 a,
    var = Some v /\
    mask_and_label ds v range = Ok ds1 /\
    Xr.drop_vars ds1 ["longitude"; "latitude"; "time"] = Ok ds2 /\
    Xr.stack ds2 "Datetime" "Days" "Hours" = Ok ds3 /\
    Xr.getitem ds3 v = Ok a /\
    mem v ["Datetime"; "Days"; "Hours"] = false /\
    Xr.has_dim "Datetime" (Xr.variable a) = true /\
    Xr.name arr = v /\
    Xr.variable arr = Xr.variable (Xr.assign_attrs a "missing_value" Xr.NaN) /\
    Xr.coords arr
    = filter (fun p => Xr.subset (Xr.dim_names (snd p)) (Xr.dim_names (Xr.variable a)))
        (update "Datetime" (Xr.datetime_index "Datetime" range)
           (remove ["Datetime"; "Days"; "Hours"] (Xr.coords a))).
Proof.
  intros H.
  destruct (rekey_inv _ _ _ _ H)
    as (v & ds1 & ds2 & ds3 & a & ds4 & ds5 & -> & M & D & S & G & T & D' & F).
  exists v, ds1, ds2, ds3, a.
  apply to_dataset_inv in T as [NC ->]. cbn [Xr.assign_attrs Xr.coords] in NC.
  apply drop_vars_inv in D' as [-> P].
  cbn [Xr.data_vars Xr.ds_coords Xr.assign_attrs Xr.coords Xr.variable] in *.
  assert (R : mem v ["Datetime"; "Days"; "Hours"] = false).
  { destruct (mem v ["Datetime"; "Days"; "Hours"]) eqn:R; [|reflexivity].
    rewrite (stacked_level_is_own_coordinate _ _ _ _ S R G) in NC. discriminate. }
  assert (HD : Xr.has_dim "Datetime" (Xr.variable a) = true).
  { specialize (P "Datetime" (or_introl eq_refl)).
    unfold Xr.variables in P. cbn [Xr.data_vars Xr.ds_coords app keys map fst] in P.
    rewrite mem_cons in P.
    assert (E : String.eqb "Datetime" v = false).
    { rewrite mem_cons in R. apply orb_false_elim in R as [R _].
      now rewrite String.eqb_sym. }
    rewrite E in P. simpl in P. apply lookup_keys in P as [c L].
    rewrite (getitem_coords _ _ _ G) in L. apply lookup_filter_inv in L as [I Sub].
    destruct (stack_inv _ _ _ _ _ S)
      as (n1 & n2 & dv & cs & levels & _ & _ & _ & _ & K & Dm & ->).
    cbn [Xr.ds_coords] in I. apply in_app_or in I as [I | I].
    - apply filter_In in I as [_ I]. discriminate.
    - apply Dm in I. cbn [snd] in Sub. unfold Xr.dim_names in Sub at 1.
      rewrite I in Sub.
      simpl in Sub. now rewrite andb_true_r in Sub. }
  rewrite (single_entry_kept _ _ _ R) in F.
  rewrite single_entry_kept in F
    by (rewrite mem_cons in R; apply orb_false_elim in R as [R _];
        simpl; now rewrite R).
  rewrite getitem_lookup with (v := {|
      Xr.dims := Xr.dims (Xr.variable a);
      Xr.values := Xr.values (Xr.variable a);
      Xr.attrs := update "missing_value" Xr.NaN (Xr.attrs (Xr.variable a)) |}) in F
    by (unfold Xr.variables; simpl; now rewrite String.eqb_refl).
  injection F as <-. repeat split; assumption.
Qed.

Lemma first_occurrence_computed sep s :
  Py.occurs sep s = true -> first_occurrence sep s (Py.before_first sep s).
Proof.
  induction s as [|c s IH]; intros O; cbn [Py.occurs] in O.
  - rewrite orb_false_r in O. apply prefix_true in O as [q Q]. simpl. split.
    + now exists q.
    + intros. simpl. lia.
  - cbn [Py.before_first]. destruct (prefix sep (String c s)) eqn:P.
    + apply prefix_true in P as [q Q]. split; [now exists q | intros; simpl; lia].
    + simpl in O. destruct (IH O) as [[post E] M]. split.
      * exists post. simpl. now rewrite <- E.
      * intros [|c' p] q Q.
        -- simpl in Q. rewrite Q, prefix_app in P. discriminate.
        -- simpl in Q. injection Q as -> Q. specialize (M p q Q). simpl. lia.
Qed.

(** ** The timestamp coordinate *)




Example bounds_of_pandas_timestamps :
  Clock.in_bounds (Clock.datetime 1677 9 21 0 12 44) = true /\
  Clock.in_bounds (Clock.datetime 1677 9 21 0 12 43) = false /\
  Clock.in_bounds (Clock.datetime 2262 4 11 23 47 16) = true /\
  Clock.in_bounds (Clock.datetime 2262 4 11 23 47 17) = false.
Proof. vm_compute. repeat split. Qed.

(** ** The file name *)




Example malformed_month_is_a_parse_error :
  open_and_preprocess Sample.disk Clock.iso_date "GEOS/2019-7.r180W.nc" variables
  = Raise (ParserError "2019--7-01").
Proof. reflexivity. Qed.

(** ** The fields the re-keying drops *)

(** Masking and labelling neither adds nor removes a field, the three new
    coordinates apart. *)
Lemma labelled_lookup_None ds v range ds1 k :
  mask_and_label ds v range = Ok ds1 ->
  mem k ["Longitudes"; "Latitudes"; "Datetime"] = false ->
  lookup k (Xr.variables ds) = None ->
  lookup k (Xr.variables ds1) = None.
Proof.
  intros M R L.
  destruct (mask_and_label_inv _ _ _ _ M) as (active & lon & lat & _ & _ & _ & D & C).
  unfold Xr.variables in *. rewrite lookup_app in L.
  destruct (lookup k (Xr.data_vars ds)) eqn:L1; [discriminate|].
  rewrite lookup_app, D, C, !lookup_remove, lookup_map, L1, !lookup_update.
  simpl in R. rewrite orb_false_r in R.
  apply orb_false_elim in R as [R1 R]. apply orb_false_elim in R as [R2 R3].
  unfold mem. simpl existsb. rewrite !orb_false_r, R1, R2, R3. simpl. exact L.
Qed.

(** C10: [open_and_preprocess] returns an array only for datasets that have
    the fields [longitude], [latitude] and [time]; on a dataset without a
    field [time], [drop_vars] raises for the names it cannot find, [time]
    among them, whenever the masking and labelling before it went
    through. *)
Theorem time_field_required open_dataset to_datetime filename candidates ds :
  open_dataset filename = Ok ds ->
  (forall arr,
     open_and_preprocess open_dataset to_datetime filename candidates = Ok arr ->
     forall k, In k ["longitude"; "latitude"; "time"] ->
               In k (keys (Xr.variables ds))) /\
  (lookup "time" (Xr.variables ds) = None ->
   is_ok (open_and_preprocess open_dataset to_datetime filename candidates) = false /\
   forall v range ds1,
     mask_and_label ds v range = Ok ds1 ->
     exists missing,
       In "time" missing /\
       Xr.drop_vars ds1 ["longitude"; "latitude"; "time"]
       = Raise (ValueError (CannotBeFound missing)) /\
       rekey ds (Some v) range = Raise (ValueError (CannotBeFound missing))).
Proof.
  intros O.
  assert (A : forall arr,
             open_and_preprocess open_dataset to_datetime filename candidates = Ok arr ->
             forall k, In k ["longitude"; "latitude"; "time"] ->
                       In k (keys (Xr.variables ds))).
  { intros arr H k I.
    destruct (preprocess_inv _ _ _ _ _ H) as (ds' & var & range & O' & _ & _ & K).
    rewrite O in O'. injection O' as <-.
    destruct (rekey_inv _ _ _ _ K) as (v & ds1 & ds2 & _ & _ & _ & _ & _ & M & D & _).
    apply drop_vars_inv in D as [_ P]. specialize (P k I).
    destruct (lookup k (Xr.variables ds)) eqn:L.
    - apply mem_In, lookup_keys. eauto.
    - assert (R : mem k ["Longitudes"; "Latitudes"; "Datetime"] = false).
      { destruct I as [<- | [<- | [<- | []]]]; reflexivity. }
      pose proof (labelled_lookup_None _ _ _ _ _ M R L) as N.
      apply lookup_None_keys in N. congruence. }
  split; [exact A|]. intros L. split.
  - destruct (open_and_preprocess open_dataset to_datetime filename candidates)
      as [arr|] eqn:H; [|reflexivity].
    specialize (A arr eq_refl "time"). apply lookup_None_keys in L.
    assert (I : In "time" (keys (Xr.variables ds))) by (apply A; simpl; tauto).
    apply mem_In in I. congruence.
  - intros v range ds1 M.
    assert (N : mem "time" (keys (Xr.variables ds1)) = false).
    { apply lookup_None_keys. eapply labelled_lookup_None; [eassumption | reflexivity | exact L]. }
    destruct (drop_vars_missing ds1 ["longitude"; "latitude"; "time"] "time")
      as [missing [I D]]; [simpl; tauto | exact N |].
    exists missing. repeat split; [assumption | assumption |].
    unfold rekey. simpl. rewrite M. simpl. now rewrite D.
Qed.

Lemma time_field_required_witness :
  (forall arr,
     open_and_preprocess Sample.disk Clock.iso_date "GEOS/notime/201907.r180W.nc"
       variables = Ok arr ->
     forall k, In k ["longitude"; "latitude"; "time"] ->
               In k (keys (Xr.variables Sample.file_without_time))) /\
  (lookup "time" (Xr.variables Sample.file_without_time) = None ->
   is_ok (open_and_preprocess Sample.disk Clock.iso_date
            "GEOS/notime/201907.r180W.nc" variables) = false /\
   forall v range ds1,
     mask_and_label Sample.file_without_time v range = Ok ds1 ->
     exists missing,
       In "time" missing /\
       Xr.drop_vars ds1 ["longitude"; "latitude"; "time"]
       = Raise (ValueError (CannotBeFound missing)) /\
       rekey Sample.file_without_time (Some v) range
       = Raise (ValueError (CannotBeFound missing))).
Proof.
  apply (time_field_required Sample.disk Clock.iso_date
           "GEOS/notime/201907.r180W.nc" variables Sample.file_without_time).
  reflexivity.
Defined.

Example file_without_time_is_rejected :
  open_and_preprocess Sample.disk Clock.iso_date "GEOS/notime/201907.r180W.nc" variables
  = Raise (ValueError (CannotBeFound ["time"])).
Proof. reflexivity. Qed.

(** ** The values of the returned array *)

Lemma SFeqb_fill x : SFeqb x fill_value = true <-> x = fill_value.
Proof.
  split; [|intros ->; reflexivity].
  unfold SFeqb, SFcompare, fill_value. destruct x as [s| s| |s m e]; try discriminate.
  - destruct s; discriminate.
  - destruct s; [discriminate|].
    destruct (Z.compare_spec e (-3)) as [-> | |]; try discriminate.
    intros H.
    match type of H with
    | match ?c with _ => _ end = _ => destruct c eqn:C; try discriminate H
    end.
    apply Pos.compare_eq in C. now subst.
Qed.

Lemma fill_value_as_float32 :
  Xr.to_float32 fill_value = S754_finite false 14901161 26.
Proof. reflexivity. Qed.

Lemma SFeqb_fill32 x :
  SFeqb x (Xr.to_float32 fill_value) = true <-> x = Xr.to_float32 fill_value.
Proof.
  rewrite fill_value_as_float32. split; [|intros ->; reflexivity].
  unfold SFeqb, SFcompare. destruct x as [s| s| |s m e]; try discriminate.
  - destruct s; discriminate.
  - destruct s; [discriminate|].
    destruct (Z.compare_spec e 26) as [-> | |]; try discriminate.
    intros H.
    match type of H with
    | match ?c with _ => _ end = _ => destruct c eqn:C; try discriminate H
    end.
    apply Pos.compare_eq in C. now subst.
Qed.

Lemma ne_scalar_fill c : Xr.ne_scalar c fill_value = false <-> is_fill c.
Proof.
  unfold is_fill. destruct c as [x|x|i|t|a b]; cbn [Xr.ne_scalar].
  - rewrite negb_false_iff, SFeqb_fill. split.
    + intros ->. now left.
    + intros [[= ->] | [H | H]]; [reflexivity | discriminate | discriminate].
  - rewrite negb_false_iff, SFeqb_fill32. split.
    + intros ->. right. now right.
    + intros [H | [H | [= ->]]]; [discriminate | discriminate | reflexivity].
  - rewrite negb_false_iff. unfold Xr.float_is_int, fill_value.
    change (0 <=? -3)%Z with false. cbv iota. change (2 ^ (- -3))%Z with 8%Z.
    rewrite Z.eqb_eq. change (10 ^ 15)%Z with 1000000000000000%Z. split.
    + intros H. right. left. f_equal. lia.
    + intros [H | [[= ->] | H]]; [discriminate | reflexivity | discriminate].
  - split; [discriminate | intros [H | [H | H]]; discriminate].
  - split; [discriminate | intros [H | [H | H]]; discriminate].
Qed.

Lemma mem_union d a b :
  mem d (keys (Xr.union_dims a b)) = mem d (keys a) || mem d (keys b).
Proof.
  unfold Xr.union_dims, keys. rewrite map_app. unfold mem at 1. rewrite existsb_app.
  fold (mem d (map fst a)).
  destruct (mem d (map fst a)) eqn:A; [reflexivity|]. simpl.
  induction b as [|[k n] b IH]; [reflexivity|]. simpl.
  destruct (mem k (map fst a)) eqn:K; simpl.
  - rewrite IH. destruct (String.eqb d k) eqn:E; [|reflexivity].
    apply String.eqb_eq in E. subst. fold (@keys nat a) in *. congruence.
  - now rewrite IH.
Qed.

Lemma has_dim_where d cond other v :
  Xr.has_dim d (Xr.where_var cond other v)
  = Xr.has_dim d v || mem d (keys (Xr.mask_dims cond)).
Proof. unfold Xr.has_dim, Xr.dim_names. simpl. apply mem_union. Qed.

Lemma not_reserved v :
  mem v reserved = false ->
  mem v ["longitude"; "latitude"; "time"] = false /\
  mem v ["Longitudes"] = false /\ mem v ["Latitudes"] = false /\
  mem v ["Datetime"] = false /\
  mem v ["Datetime"; "Days"; "Hours"] = false.
Proof.
  unfold reserved, mem. simpl. intros H.
  repeat (apply orb_false_elim in H as [?E H]).
  rewrite E, E0, E1, E2, E3, E4, E5, E6. repeat split.
Qed.

(** The variable of the array taken from the stacked dataset is the masked
    and stacked variable of the file. *)
Lemma active_variable ds v src range ds1 ds2 ds3 a :
  lookup v (Xr.data_vars ds) = Some src ->
  mem v reserved = false ->
  mask_and_label ds v range = Ok ds1 ->
  Xr.drop_vars ds1 ["longitude"; "latitude"; "time"] = Ok ds2 ->
  Xr.stack ds2 "Datetime" "Days" "Hours" = Ok ds3 ->
  Xr.getitem ds3 v = Ok a ->
  exists active n1 n2,
    Xr.getitem ds v = Ok active /\
    Xr.variable active = src /\
    lookup "Days" (Xr.sizes (Xr.variables ds2)) = Some n1 /\
    lookup "Hours" (Xr.sizes (Xr.variables ds2)) = Some n2 /\
    Xr.stack_var "Datetime" "Days" "Hours" n1 n2
      (Xr.where_var (Xr.ne active fill_value) Xr.NaN src) = Ok (Xr.variable a).
Proof.
  intros L R M D S G.
  destruct (not_reserved _ R) as (R1 & R2 & R3 & R4 & R5).
  destruct (mask_and_label_inv _ _ _ _ M) as (active & lon & lat & GA & _ & _ & DV & _).
  apply drop_vars_inv in D as [-> _].
  destruct (stack_inv _ _ _ _ _ S)
    as (n1 & n2 & dv & cs & levels & L1 & L2 & MD & _ & _ & _ & ->).
  exists active, n1, n2.
  assert (VA : Xr.variable active = src).
  { rewrite getitem_lookup with (v := src) in GA
      by (unfold Xr.variables; now rewrite lookup_app, L).
    now injection GA as <-. }
  repeat split; try assumption.
  cbn [Xr.data_vars] in MD.
  assert (L' : lookup v (remove ["longitude"; "latitude"; "time"] (Xr.data_vars ds1))
               = Some (Xr.where_var (Xr.ne active fill_value) Xr.NaN src)).
  { now rewrite DV, !lookup_remove, R1, R2, R3, R4, lookup_map, L. }
  destruct (stack_entries_lookup _ _ _ _ _ _ _ _ _ MD L') as [v' [SV LV]].
  rewrite getitem_lookup with (v := v') in G
    by (unfold Xr.variables; cbn [Xr.data_vars];
        now rewrite lookup_app, lookup_remove, R5, LV).
  injection G as <-. exact SV.
Qed.

Lemma in_sizes vars d n :
  In (d, n) (Xr.sizes vars) <-> exists k v, In (k, v) vars /\ In (d, n) (Xr.dims v).
Proof.
  unfold Xr.sizes. rewrite in_concat. split.
  - intros [l [I J]]. apply in_map_iff in I as [[k v] [<- I]]. now exists k, v.
  - intros [k [v [I J]]]. exists (Xr.dims v). split; [|assumption].
    apply in_map_iff. now exists (k, v).
Qed.

Lemma consistent_lookup ds d n :
  Xr.consistent ds = true ->
  In (d, n) (Xr.sizes (Xr.variables ds)) ->
  lookup d (Xr.sizes (Xr.variables ds)) = Some n.
Proof.
  unfold Xr.consistent. intros C I. rewrite forallb_forall in C.
  specialize (C _ I). simpl in C.
  destruct (lookup d (Xr.sizes (Xr.variables ds))) as [m|]; [|discriminate].
  apply Nat.eqb_eq in C. now subst.
Qed.

Lemma getitem_dims ds k a d n :
  Xr.getitem ds k = Ok a ->
  In (d, n) (Xr.dims (Xr.variable a)) ->
  In (d, n) (Xr.sizes (Xr.variables ds)).
Proof.
  intros G I. destruct (getitem_inv _ _ _ G) as [_ [L | [_ [m [L E]]]]].
  - apply in_sizes. exists k, (Xr.variable a). split; [now apply lookup_In | assumption].
  - rewrite E in I. simpl in I. destruct I as [[= <- <-] | []]. now apply lookup_In.
Qed.

Lemma In_update {A : Type} k (x : A) k' x' d :
  In (k, x) (update k' x' d) -> (k, x) = (k', x') \/ In (k, x) d.
Proof.
  induction d as [|[k0 x0] d IH]; simpl.
  - intros [H | []]. now left.
  - destruct (String.eqb k' k0); simpl.
    + intros [H | H]; [now left | right; now right].
    + intros [H | H]; [right; now left|]. destruct (IH H); [now left | right; now right].
Qed.

Lemma In_union (p : string * nat) a b :
  In p (Xr.union_dims a b) -> In p a \/ In p b.
Proof.
  unfold Xr.union_dims. intros H. apply in_app_or in H as [H | H]; [now left|].
  apply filter_In in H as [H _]. now right.
Qed.

(** Apart from [Datetime], the dataset that is stacked has no dimension
    that the file does not have, with the same length. *)
Lemma dropped_sizes ds v range ds1 ds2 d n :
  mask_and_label ds v range = Ok ds1 ->
  Xr.drop_vars ds1 ["longitude"; "latitude"; "time"] = Ok ds2 ->
  In (d, n) (Xr.sizes (Xr.variables ds2)) ->
  d <> "Datetime" ->
  In (d, n) (Xr.sizes (Xr.variables ds)).
Proof.
  intros M D I ND.
  destruct (mask_and_label_inv _ _ _ _ M) as (active & lon & lat & GA & GO & GL & DV & CS).
  apply drop_vars_inv in D as [-> _].
  apply in_sizes in I as (k & x & I & J). unfold Xr.variables in I.
  cbn [Xr.data_vars Xr.ds_coords] in I. apply in_app_or in I as [I | I];
    apply filter_In in I as [I _].
  - rewrite DV in I. do 3 apply filter_In in I as [I _].
    apply in_map_iff in I as [[k0 x0] [[= <- <-] I]]. simpl in J.
    apply In_union in J as [J | J].
    + apply in_sizes. exists k0, x0. split; [|assumption].
      unfold Xr.variables. apply in_or_app. now left.
    + simpl in J. now apply (getitem_dims _ _ _ _ _ GA).
  - rewrite CS in I.
    apply In_update in I as [[= -> ->] | I];
      [simpl in J; destruct J as [[= <- <-] | []]; congruence|].
    apply In_update in I as [[= -> ->] | I]; [now apply (getitem_dims _ _ _ _ _ GL)|].
    apply In_update in I as [[= -> ->] | I]; [now apply (getitem_dims _ _ _ _ _ GO)|].
    apply in_sizes. exists k, x. split; [|assumption].
    unfold Xr.variables. apply in_or_app. now right.
Qed.



Example sample_cells_after_preprocessing :
  map (fun k => Xr.values (Xr.variable (Sample.processed "GEOS/201907.r180W.nc"))
                  (fun d => if String.eqb d "Datetime" then k else 0))
      [0; 1; 2; 3; 4; 5]
  = [Xr.Num one; Xr.NaN; Xr.Num one; Xr.NaN; Xr.Num one; Xr.Num one].
Proof. reflexivity. Qed.


(** ** The coordinates of the returned array *)

Lemma subset_spec a b : Xr.subset a b = true <-> forall d, In d a -> In d b.
Proof.
  unfold Xr.subset. rewrite forallb_forall. split; intros H d I.
  - now apply mem_In, H.
  - now apply mem_In, H.
Qed.

Lemma has_dim_In d v : Xr.has_dim d v = true <-> In d (Xr.dim_names v).
Proof. apply mem_In. Qed.

(** Stacking keeps the dimensions of one variable among those of another. *)
Lemma stack_var_subset new_dim d1 d2 n1 n2 x y x' y' :
  Xr.stack_var new_dim d1 d2 n1 n2 x = Ok x' ->
  Xr.stack_var new_dim d1 d2 n1 n2 y = Ok y' ->
  (forall d, In d (Xr.dim_names x) -> In d (Xr.dim_names y)) ->
  forall d, In d (Xr.dim_names x') -> In d (Xr.dim_names y').
Proof.
  unfold Xr.stack_var. intros X Y S d I.
  assert (Stacked : forall z, In d (keys (remove [d1; d2] (Xr.dims z) ++ [(new_dim, n1 * n2)]))
                    <-> d = new_dim \/ In d (Xr.dim_names z) /\ mem d [d1; d2] = false).
  { intros z. unfold keys. rewrite map_app, in_app_iff. fold (keys (remove [d1; d2] (Xr.dims z))).
    rewrite keys_remove. simpl. unfold Xr.dim_names. intuition. }
  destruct (Xr.has_dim d1 x || Xr.has_dim d2 x) eqn:HX.
  - destruct (Xr.has_dim new_dim x); [discriminate|]. injection X as <-.
    assert (HY : Xr.has_dim d1 y || Xr.has_dim d2 y = true).
    { apply orb_true_iff in HX. apply orb_true_iff.
      destruct HX as [HX | HX]; [left | right]; apply has_dim_In, S, has_dim_In, HX. }
    rewrite HY in Y. destruct (Xr.has_dim new_dim y); [discriminate|]. injection Y as <-.
    unfold Xr.dim_names in *. cbn [Xr.dims] in *. apply Stacked. apply Stacked in I.
    destruct I as [-> | [I M]]; [now left | right]. split; [now apply S | assumption].
  - injection X as <-. apply orb_false_elim in HX as [H1 H2].
    assert (M : mem d [d1; d2] = false).
    { simpl. rewrite orb_false_r. apply orb_false_intro.
      - destruct (String.eqb d d1) eqn:E; [|reflexivity]. apply String.eqb_eq in E.
        subst. apply has_dim_In in I. congruence.
      - destruct (String.eqb d d2) eqn:E; [|reflexivity]. apply String.eqb_eq in E.
        subst. apply has_dim_In in I. congruence. }
    destruct (Xr.has_dim d1 y || Xr.has_dim d2 y).
    + destruct (Xr.has_dim new_dim y); [discriminate|]. injection Y as <-.
      unfold Xr.dim_names at 1. cbn [Xr.dims]. apply Stacked. right.
      split; [now apply S | assumption].
    + injection Y as <-. now apply S.
Qed.

(** Where a coordinate of the returned array comes from. *)
Lemma returned_coordinate_origin ds var range arr k :
  rekey ds var range = Ok arr ->
  In k (keys (Xr.coords arr)) ->
  k = "Datetime" \/
  mem k ["Datetime"; "Days"; "Hours"] = false /\
  mem k ["longitude"; "latitude"; "time"] = false /\
  (k = "Latitudes" \/ k = "Longitudes" \/ In k (keys (Xr.ds_coords ds))).
Proof.
  intros K I.
  destruct (rekey_shape _ _ _ _ K)
    as (v & ds1 & ds2 & ds3 & a & _ & M & D & T & G & _ & _ & _ & _ & C).
  rewrite C in I. apply keys_filter, keys_update in I as [-> | I]; [now left | right].
  apply keys_remove in I as [I R]. split; [assumption|].
  rewrite (getitem_coords _ _ _ G) in I. apply keys_filter in I.
  destruct (stack_inv _ _ _ _ _ T)
    as (n1 & n2 & dv & cs & levels & _ & _ & _ & MC & KL & _ & ->).
  cbn [Xr.ds_coords] in I. unfold keys in I. rewrite map_app in I.
  apply in_app_or in I as [I | I].
  - fold (keys (remove ["Datetime"; "Days"; "Hours"] cs)) in I.
    apply keys_remove in I as [I _]. rewrite (stack_entries_keys _ _ _ _ _ _ _ MC) in I.
    apply drop_vars_inv in D as [-> _]. cbn [Xr.ds_coords] in I.
    apply keys_remove in I as [I R']. split; [assumption|].
    destruct (mask_and_label_inv _ _ _ _ M) as (active & lon & lat & _ & _ & _ & _ & CS).
    rewrite CS in I. apply keys_update in I as [-> | I]; [discriminate R|].
    apply keys_update in I as [-> | I]; [now left|].
    apply keys_update in I as [-> | I]; [right; now left | right; now right].
  - fold (keys levels) in I. rewrite KL in I. apply mem_In in I. congruence.
Qed.

(** The longitudes and the latitudes stay with the array when they lie on
    dimensions of the active variable. *)
Lemma relabelled_coordinate_kept ds v src range arr raw new field :
  lookup v (Xr.data_vars ds) = Some src ->
  mem v reserved = false ->
  rekey ds (Some v) range = Ok arr ->
  In (raw, new) [("longitude", "Longitudes"); ("latitude", "Latitudes")] ->
  Xr.getitem ds raw = Ok field ->
  Xr.subset (Xr.dim_names (Xr.variable field)) (Xr.dim_names src) = true ->
  In new (keys (Xr.coords arr)).
Proof.
  intros L R K I GF Sub.
  destruct (rekey_shape _ _ _ _ K)
    as (v' & ds1 & ds2 & ds3 & a & [= <-] & M & D & T & G & _ & _ & _ & _ & C).
  destruct (active_variable _ _ _ _ _ _ _ _ L R M D T G)
    as (active & n1 & n2 & GA & AS & L1 & L2 & SV).
  destruct (mask_and_label_inv _ _ _ _ M) as (active' & lon & lat & _ & GO & GL & _ & CS).
  pose proof (getitem_coords _ _ _ G) as CA.
  destruct (stack_inv _ _ _ _ _ T)
    as (n1' & n2' & dv & cs & levels & L1' & L2' & _ & MC & _ & _ & ->).
  rewrite L1 in L1'. injection L1' as <-. rewrite L2 in L2'. injection L2' as <-.
  apply drop_vars_inv in D as [-> _]. cbn [Xr.ds_coords] in *.
  assert (N : mem new ["longitude"; "latitude"; "time"] = false /\
              mem new ["Datetime"; "Days"; "Hours"] = false /\
              String.eqb new "Datetime" = false /\
              lookup new (Xr.ds_coords ds1) = Some (Xr.variable field)).
  { rewrite CS, !lookup_update.
    destruct I as [[= <- <-] | [[= <- <-] | []]].
    - rewrite GO in GF. injection GF as <-. repeat split.
    - rewrite GL in GF. injection GF as <-. repeat split. }
  destruct N as (N1 & N2 & N3 & LF).
  assert (LF' : lookup new (remove ["longitude"; "latitude"; "time"] (Xr.ds_coords ds1))
                = Some (Xr.variable field)) by now rewrite lookup_remove, N1.
  destruct (stack_entries_lookup _ _ _ _ _ _ _ _ _ MC LF') as [f' [SF LC]].
  assert (P : Xr.subset (Xr.dim_names f') (Xr.dim_names (Xr.variable a)) = true).
  { apply subset_spec. apply (stack_var_subset _ _ _ _ _ _ _ _ _ SF SV).
    intros d Id. rewrite subset_spec in Sub. apply Sub in Id.
    apply has_dim_In. rewrite has_dim_where. apply has_dim_In in Id. now rewrite Id. }
  apply mem_In, lookup_keys. exists f'. rewrite C. apply lookup_filter; [|exact P].
  rewrite lookup_update, N3, lookup_remove, N2, CA.
  apply lookup_filter; [|exact P].
  now rewrite lookup_app, lookup_remove, N2, LC.
Qed.

(** C4, as the code has it: the returned array has the coordinate
    [Datetime], and the coordinates [Longitudes] and [Latitudes] when the
    longitudes and latitudes lie on dimensions of the active variable; it
    has no coordinate [longitude], [latitude], [time], [Days] or [Hours];
    any other coordinate it has is a coordinate of the file; and its
    attribute [missing_value] is NaN. *)
Theorem returned_coordinates open_dataset to_datetime filename candidates ds arr :
  open_dataset filename = Ok ds ->
  open_and_preprocess open_dataset to_datetime filename candidates = Ok arr ->
  In "Datetime" (keys (Xr.coords arr)) /\
  (forall v src raw new field,
     scan ds candidates None = Ok (Some v) ->
     In v variables ->
     lookup v (Xr.data_vars ds) = Some src ->
     In (raw, new) [("longitude", "Longitudes"); ("latitude", "Latitudes")] ->
     Xr.getitem ds raw = Ok field ->
     Xr.subset (Xr.dim_names (Xr.variable field)) (Xr.dim_names src) = true ->
     In new (keys (Xr.coords arr))) /\
  (forall k, In k ["longitude"; "latitude"; "time"; "Days"; "Hours"] ->
             ~ In k (keys (Xr.coords arr))) /\
  (forall k, In k (keys (Xr.coords arr)) ->
             In k ["Longitudes"; "Latitudes"; "Datetime"] \/
             In k (keys (Xr.ds_coords ds))) /\
  lookup "missing_value" (Xr.attrs (Xr.variable arr)) = Some Xr.NaN.
Proof.
  intros O H.
  destruct (preprocess_inv _ _ _ _ _ H) as (ds' & var & range & O' & S & _ & K).
  rewrite O in O'. injection O' as <-.
  destruct (rekey_shape _ _ _ _ K)
    as (v & ds1 & ds2 & ds3 & a & -> & _ & _ & _ & _ & _ & HD & _ & VA & C).
  split; [|split; [|split; [|split]]].
  - apply mem_In, lookup_keys. exists (Xr.datetime_index "Datetime" range).
    rewrite C. apply lookup_filter.
    + now rewrite lookup_update, String.eqb_refl.
    + cbn [snd Xr.datetime_index Xr.dim_names Xr.dims keys map fst Xr.subset forallb].
      unfold Xr.has_dim in HD. now rewrite HD.
  - intros v' src raw new field S' I L J GF Sub. rewrite S in S'. injection S' as <-.
    eapply relabelled_coordinate_kept; try eassumption.
    now apply variables_not_reserved.
  - intros k I J.
    destruct (returned_coordinate_origin _ _ _ _ _ K J) as [-> | (R1 & R2 & _)].
    + simpl in I. intuition discriminate.
    + destruct I as [<- | [<- | [<- | [<- | [<- | []]]]]]; discriminate.
  - intros k J.
    destruct (returned_coordinate_origin _ _ _ _ _ K J) as [-> | (_ & _ & [-> | [-> | I]])].
    + left. simpl. tauto.
    + left. simpl. tauto.
    + left. simpl. tauto.
    + now right.
  - rewrite VA. cbn [Xr.assign_attrs Xr.variable Xr.attrs].
    now rewrite lookup_update, String.eqb_refl.
Qed.

Lemma returned_coordinates_witness :
  let arr := Sample.processed "GEOS/201907.r180W.nc" in
  In "Datetime" (keys (Xr.coords arr)) /\
  (forall v src raw new field,
     scan Sample.file variables None = Ok (Some v) ->
     In v variables ->
     lookup v (Xr.data_vars Sample.file) = Some src ->
     In (raw, new) [("longitude", "Longitudes"); ("latitude", "Latitudes")] ->
     Xr.getitem Sample.file raw = Ok field ->
     Xr.subset (Xr.dim_names (Xr.variable field)) (Xr.dim_names src) = true ->
     In new (keys (Xr.coords arr))) /\
  (forall k, In k ["longitude"; "latitude"; "time"; "Days"; "Hours"] ->
             ~ In k (keys (Xr.coords arr))) /\
  (forall k, In k (keys (Xr.coords arr)) ->
             In k ["Longitudes"; "Latitudes"; "Datetime"] \/
             In k (keys (Xr.ds_coords Sample.file))) /\
  lookup "missing_value" (Xr.attrs (Xr.variable arr)) = Some Xr.NaN.
Proof.
  apply (returned_coordinates Sample.disk Clock.iso_date "GEOS/201907.r180W.nc"
           variables Sample.file (Sample.processed "GEOS/201907.r180W.nc")).
  - reflexivity.
  - reflexivity.
Defined.

(** C4, as stated, fails: a file with a scalar coordinate [lev] gives an
    array with four coordinates. *)
Lemma extra_coordinate_is_kept :
  is_ok (open_and_preprocess Sample.disk Clock.iso_date
           "GEOS/level/201907.r180W.nc" variables) = true /\
  keys (Xr.coords (Sample.processed "GEOS/level/201907.r180W.nc"))
  = ["lev"; "Longitudes"; "Latitudes"; "Datetime"].
Proof. split; reflexivity. Qed.

Example sample_coordinates :
  keys (Xr.coords (Sample.processed "GEOS/201907.r180W.nc"))
  = ["Longitudes"; "Latitudes"; "Datetime"].
Proof. reflexivity. Qed.

(** * Further properties *)

(** ** The scan, in closed form *)

Lemma scan_find ds candidates var :
  scan ds candidates var
  = Ok (match find (present ds) candidates with
        | Some v => Some v
        | None => match candidates with
                  | [] => var
                  | _ :: _ => Some (last candidates "")
                  end
        end).
Proof.
  revert var. induction candidates as [|c rest IH]; intros var; [reflexivity|].
  cbn [scan find]. destruct (present ds c) eqn:P.
  - rewrite <- getitem_present in P. now destruct (Xr.getitem ds c).
  - rewrite (getitem_absent _ _ P), IH.
    destruct (find (present ds) rest); [reflexivity|]. now destruct rest.
Qed.

Lemma find_split {A : Type} (p : A -> bool) l v :
  find p l = Some v ->
  exists before after,
    l = before ++ v :: after /\ p v = true /\ forall c, In c before -> p c = false.
Proof.
  induction l as [|a l IH]; [discriminate|]. simpl. destruct (p a) eqn:P.
  - intros [= <-]. exists [], l. repeat split; [assumption | intros c []].
  - intros F. destruct (IH F) as (before & after & -> & Pv & B).
    exists (a :: before), after. repeat split; [assumption|].
    intros c [<- | I]; [assumption | now apply B].
Qed.

Lemma last_In (l : list string) d : l <> [] -> In (last l d) l.
Proof.
  induction l as [|a [|b l] IH]; intros N; [congruence | now left |].
  right. apply IH. discriminate.
Qed.

(** X1: the array that is returned is named after a candidate that is a
    field of the file, the first such candidate; the call never returns an
    array for the name the scan falls through to. *)
Theorem returned_name_is_first_field
  open_dataset to_datetime filename candidates ds arr :
  open_dataset filename = Ok ds ->
  open_and_preprocess open_dataset to_datetime filename candidates = Ok arr ->
  exists before after,
    candidates = before ++ Xr.name arr :: after /\
    present ds (Xr.name arr) = true /\
    forall c, In c before -> present ds c = false.
Proof.
  intros O H.
  destruct (preprocess_inv _ _ _ _ _ H) as (ds' & var & range & O' & S & _ & K).
  rewrite O in O'. injection O' as <-.
  destruct (rekey_shape _ _ _ _ K)
    as (v & ds1 & ds2 & ds3 & a & -> & M & _ & _ & _ & _ & _ & N & _).
  destruct (mask_and_label_inv _ _ _ _ M) as (active & _ & _ & G & _).
  assert (P : present ds v = true) by (rewrite <- getitem_present; now rewrite G).
  rewrite scan_find in S. rewrite N.
  destruct (find (present ds) candidates) as [v'|] eqn:F.
  - injection S as ->. now apply find_split.
  - destruct candidates as [|c rest]; [discriminate|]. injection S as S.
    change (last (c :: rest) "" = v) in S.
    assert (I : In v (c :: rest)) by (rewrite <- S; apply last_In; discriminate).
    rewrite (find_none _ _ F v I) in P. discriminate.
Qed.

(** ** The repeated entry of the known-variable list *)

Lemma find_without p (x : string) l :
  p x = false ->
  find p (filter (fun y => negb (String.eqb x y)) l) = find p l.
Proof.
  intros P. induction l as [|a l IH]; [reflexivity|]. simpl.
  destruct (String.eqb x a) eqn:E; simpl.
  - apply String.eqb_eq in E. subst a. now rewrite P.
  - now rewrite IH.
Qed.

Lemma find_dedup p l : find p (dedup l) = find p l.
Proof.
  induction l as [|a l IH]; [reflexivity|]. simpl.
  destruct (p a) eqn:P; [reflexivity|]. now rewrite find_without.
Qed.

Lemma scan_variables ds :
  scan ds variables None = scan ds documented_variables None.
Proof.
  rewrite !scan_find.
  assert (E : dedup variables = documented_variables) by reflexivity.
  rewrite <- (find_dedup _ variables), E.
  destruct (find (present ds) documented_variables); reflexivity.
Qed.

(** X2: listing [flashes] twice changes nothing: for every file, file name
    and date parser, [open_and_preprocess] gives with [variables] what it
    gives with the list of the nineteen distinct names. *)
Theorem repeated_entry_is_harmless open_dataset to_datetime filename :
  open_and_preprocess open_dataset to_datetime filename variables
  = open_and_preprocess open_dataset to_datetime filename documented_variables.
Proof.
  unfold open_and_preprocess. destruct (open_dataset filename) as [ds|]; [|reflexivity].
  cbn [bind]. now rewrite scan_variables.
Qed.

(** ** Missing axes and fields *)

Lemma getattr_absent ds k :
  present ds k = false -> Xr.getattr ds k = Raise (AttributeError k).
Proof. intros P. unfold Xr.getattr. now rewrite (getitem_absent _ _ P). Qed.

(** X3: a file without [Days], or with [Days] but without [Hours], is
    rejected with [AttributeError] for that axis, whatever the file name and
    the candidates. *)
Theorem missing_axis_is_an_attribute_error
  open_dataset to_datetime filename candidates ds :
  open_dataset filename = Ok ds ->
  (present ds "Days" = false ->
   open_and_preprocess open_dataset to_datetime filename candidates
   = Raise (AttributeError "Days")) /\
  (forall ndays,
     length_of ds "Days" = Ok ndays ->
     present ds "Hours" = false ->
     open_and_preprocess open_dataset to_datetime filename candidates
     = Raise (AttributeError "Hours")).
Proof.
  intros O. unfold open_and_preprocess. rewrite O. cbn [bind].
  rewrite scan_find. cbn [bind]. rewrite datetime_range_steps. split.
  - intros P. unfold length_of. now rewrite (getattr_absent _ _ P).
  - intros ndays D P. rewrite D. cbn [bind]. unfold length_of.
    now rewrite (getattr_absent _ _ P).
Qed.

(** X4: with an empty candidate list the call never returns an array: once
    the file is open and the timestamps are built, reading [var] raises
    [UnboundLocalError]. *)
Theorem no_candidate_no_array open_dataset to_datetime filename :
  is_ok (open_and_preprocess open_dataset to_datetime filename []) = false /\
  forall ds range,
    open_dataset filename = Ok ds ->
    datetime_range to_datetime filename ds = Ok range ->
    open_and_preprocess open_dataset to_datetime filename []
    = Raise (UnboundLocalError "var").
Proof.
  unfold open_and_preprocess. split.
  - destruct (open_dataset filename) as [ds|]; [|reflexivity]. cbn [bind scan].
    destruct (datetime_range to_datetime filename ds); reflexivity.
  - intros ds range -> R. cbn [bind scan]. now rewrite R.
Qed.


(** ** The start text *)

(** X6: the six characters before the first token are not checked: whatever
    they are, the first four become the year and the last two the month of
    the start text, and neither the directory before them nor the text after
    the token is looked at. *)
Theorem start_string_of_six_characters filename dir ym :
  first_occurrence token filename (dir ++ ym) ->
  String.length ym = 6 ->
  start_string filename = (substring 0 4 ym ++ "-" ++ substring 4 2 ym ++ "-01")%string.
Proof.
  intros F L. unfold start_string. rewrite (before_first_spec _ _ _ F).
  now rewrite slice_year, slice_month.
Qed.

(** ** The order of the timestamps *)

Lemma datetime_range_inv to_datetime filename ds range :
  datetime_range to_datetime filename ds = Ok range ->
  exists t n, range = Clock.shift_hours 1 (Clock.hourly t n).
Proof.
  rewrite datetime_range_steps. intros H. bind_inv H. bind_inv H.
  unfold date_range in H. destruct (to_datetime (start_string filename)) as [t|];
    [|discriminate]. cbn [bind] in H. injection H as <-. now eexists _, _.
Qed.

Lemma timestamps_increase to_datetime filename ds range i j :
  datetime_range to_datetime filename ds = Ok range ->
  i < j -> j < List.length range ->
  (nth i range 0 < nth j range 0)%Z.
Proof.
  intros R Hij Hj. destruct (datetime_range_inv _ _ _ _ R) as (t & n & ->).
  rewrite shift_hours_length, hourly_length in Hj.
  rewrite !shifted_nth by lia. unfold Clock.hour. lia.
Qed.

(** X7: the timestamps are strictly increasing and one hour apart: each is
    3600 seconds after the one before, so no two positions of the
    [Datetime] axis carry the same label. *)
Theorem timestamps_strictly_increase to_datetime filename ds range :
  datetime_range to_datetime filename ds = Ok range ->
  (forall i, S i < List.length range ->
     nth (S i) range 0%Z = (nth i range 0 + 3600)%Z) /\
  (forall i j, i < j -> j < List.length range ->
     (nth i range 0 < nth j range 0)%Z).
Proof.
  intros R. split.
  - intros i Hi. destruct (datetime_range_inv _ _ _ _ R) as (t & n & ->).
    rewrite shift_hours_length, hourly_length in Hi.
    rewrite !shifted_nth by lia. unfold Clock.hour. lia.
  - intros i j Hij Hj. eapply timestamps_increase; eassumption.
Qed.

(** ** The variable of the returned array *)

Lemma union_dims_self a : Xr.union_dims a a = a.
Proof.
  unfold Xr.union_dims.
  assert (E : forall b, (forall p, In p b -> In p a) ->
                        filter (fun p => negb (mem (fst p) (keys a))) b = []).
  { induction b as [|p b IH]; intros H; [reflexivity|]. simpl.
    assert (M : mem (fst p) (keys a) = true).
    { apply mem_In. unfold keys. apply in_map. apply H. now left. }
    rewrite M. simpl. apply IH. intros q I. apply H. now right. }
  rewrite E by auto. apply app_nil_r.
Qed.

(** The variable of the returned array is the masked and stacked variable
    of the file, with the attribute set; [n1] and [n2] are the lengths of
    [Days] and [Hours] in the file. *)
Lemma returned_variable open_dataset to_datetime filename candidates ds v src arr :
  open_dataset filename = Ok ds ->
  Xr.consistent ds = true ->
  scan ds candidates None = Ok (Some v) ->
  In v variables ->
  lookup v (Xr.data_vars ds) = Some src ->
  open_and_preprocess open_dataset to_datetime filename candidates = Ok arr ->
  exists n1 n2 stacked,
    lookup "Days" (Xr.sizes (Xr.variables ds)) = Some n1 /\
    lookup "Hours" (Xr.sizes (Xr.variables ds)) = Some n2 /\
    Xr.stack_var "Datetime" "Days" "Hours" n1 n2
      {| Xr.dims := Xr.dims src;
         Xr.values := fun ix => if Xr.ne_scalar (Xr.values src ix) fill_value
                                then Xr.values src ix else Xr.NaN;
         Xr.attrs := Xr.attrs src |} = Ok stacked /\
    Xr.variable arr
    = {| Xr.dims := Xr.dims stacked;
         Xr.values := Xr.values stacked;
         Xr.attrs := update "missing_value" Xr.NaN (Xr.attrs stacked) |}.
Proof.
  intros O C S I L H.
  destruct (preprocess_inv _ _ _ _ _ H) as (ds' & var & range & O' & S' & _ & K).
  rewrite O in O'. injection O' as <-. rewrite S in S'. injection S' as <-.
  destruct (rekey_shape _ _ _ _ K)
    as (v' & ds1 & ds2 & ds3 & a & [= <-] & M & D & T & G & _ & _ & _ & VA & _).
  pose proof (variables_not_reserved _ I) as R.
  destruct (active_variable _ _ _ _ _ _ _ _ L R M D T G)
    as (active & n1 & n2 & GA & AS & L1 & L2 & SV).
  exists n1, n2, (Xr.variable a).
  split; [|split; [|split]].
  - apply consistent_lookup; [assumption|].
    apply (dropped_sizes _ _ _ _ _ _ _ M D); [now apply lookup_In | discriminate].
  - apply consistent_lookup; [assumption|].
    apply (dropped_sizes _ _ _ _ _ _ _ M D); [now apply lookup_In | discriminate].
  - unfold Xr.where_var, Xr.ne in SV. cbn [Xr.mask_dims Xr.test] in SV.
    rewrite AS, union_dims_self in SV. exact SV.
  - exact VA.
Qed.

(** X8: the dimensions of the returned array are those of the variable in
    the file with [Days] and [Hours] taken out and [Datetime], of length
    [Days] times [Hours], put last; a variable on neither axis keeps its
    dimensions. *)
Theorem returned_dimensions
  open_dataset to_datetime filename candidates ds v src arr :
  open_dataset filename = Ok ds ->
  Xr.consistent ds = true ->
  scan ds candidates None = Ok (Some v) ->
  In v variables ->
  lookup v (Xr.data_vars ds) = Some src ->
  open_and_preprocess open_dataset to_datetime filename candidates = Ok arr ->
  exists ndays nhours,
    lookup "Days" (Xr.sizes (Xr.variables ds)) = Some ndays /\
    lookup "Hours" (Xr.sizes (Xr.variables ds)) = Some nhours /\
    Xr.dims (Xr.variable arr)
    = if Xr.has_dim "Days" src || Xr.has_dim "Hours" src
      then remove ["Days"; "Hours"] (Xr.dims src) ++ [("Datetime", ndays * nhours)]
      else Xr.dims src.
Proof.
  intros O C S I L H.
  destruct (returned_variable _ _ _ _ _ _ _ _ O C S I L H)
    as (n1 & n2 & stacked & L1 & L2 & SV & ->).
  exists n1, n2. split; [assumption|]. split; [assumption|].
  unfold Xr.stack_var, Xr.has_dim, Xr.dim_names in *. cbn [Xr.dims] in *.
  destruct (mem "Days" (keys (Xr.dims src)) || mem "Hours" (keys (Xr.dims src))).
  - destruct (mem "Datetime" (keys (Xr.dims src))); [discriminate|].
    now injection SV as <-.
  - now injection SV as <-.
Qed.

(** X9: the returned array has the attributes of the variable in the file,
    with [missing_value] set to NaN (replaced where the file has one, added
    after the others where it has none). *)
Theorem returned_attributes
  open_dataset to_datetime filename candidates ds v src arr :
  open_dataset filename = Ok ds ->
  Xr.consistent ds = true ->
  scan ds candidates None = Ok (Some v) ->
  In v variables ->
  lookup v (Xr.data_vars ds) = Some src ->
  open_and_preprocess open_dataset to_datetime filename candidates = Ok arr ->
  Xr.attrs (Xr.variable arr) = update "missing_value" Xr.NaN (Xr.attrs src).
Proof.
  intros O C S I L H.
  destruct (returned_variable _ _ _ _ _ _ _ _ O C S I L H)
    as (n1 & n2 & stacked & _ & _ & SV & ->).
  cbn [Xr.attrs]. f_equal. unfold Xr.stack_var in SV.
  destruct (_ || _) in SV.
  - destruct (Xr.has_dim "Datetime" _) in SV; [discriminate|]. now injection SV as <-.
  - now injection SV as <-.
Qed.

Lemma NaN_is_no_fill : ~ is_fill Xr.NaN.
Proof. intros [H | [H | H]]; discriminate. Qed.

(** X10: no cell of the returned array holds the fill value, whatever the
    width of the array: neither 1e15 as a float64, nor 10^15 as an integer,
    nor the float32 of 1e15. *)
Theorem no_fill_value_is_returned
  open_dataset to_datetime filename candidates ds v src arr ix :
  open_dataset filename = Ok ds ->
  Xr.consistent ds = true ->
  scan ds candidates None = Ok (Some v) ->
  In v variables ->
  lookup v (Xr.data_vars ds) = Some src ->
  open_and_preprocess open_dataset to_datetime filename candidates = Ok arr ->
  ~ is_fill (Xr.values (Xr.variable arr) ix).
Proof.
  intros O C S I L H.
  destruct (returned_variable _ _ _ _ _ _ _ _ O C S I L H)
    as (n1 & n2 & stacked & _ & _ & SV & ->).
  cbn [Xr.values].
  assert (W : forall ix',
             ~ is_fill (if Xr.ne_scalar (Xr.values src ix') fill_value
                        then Xr.values src ix' else Xr.NaN)).
  { intros ix'. destruct (Xr.ne_scalar (Xr.values src ix') fill_value) eqn:N.
    - intros F. apply ne_scalar_fill in F. congruence.
    - apply NaN_is_no_fill. }
  unfold Xr.stack_var in SV. destruct (_ || _) in SV.
  - destruct (Xr.has_dim "Datetime" _) in SV; [discriminate|].
    injection SV as <-. cbn [Xr.values]. apply W.
  - injection SV as <-. apply W.
Qed.

(** ** The length of the new axis *)

Lemma conflicting_single sz d n m :
  Xr.conflicting sz [(d, n)] = None -> lookup d sz = Some m -> m = n.
Proof.
  simpl. intros C L. rewrite L in C.
  destruct (Nat.eqb m n) eqn:E; [now apply Nat.eqb_eq in E | discriminate].
Qed.

(** X11: the returned array is well formed along the new axis: its
    [Datetime] dimension is as long as the list of timestamps that labels
    it. *)
Theorem datetime_axis_matches_timestamps
  open_dataset to_datetime filename candidates ds range arr :
  open_dataset filename = Ok ds ->
  datetime_range to_datetime filename ds = Ok range ->
  open_and_preprocess open_dataset to_datetime filename candidates = Ok arr ->
  lookup "Datetime" (Xr.dims (Xr.variable arr)) = Some (List.length range).
Proof.
  intros O R H.
  destruct (preprocess_inv _ _ _ _ _ H) as (ds' & var & range' & O' & _ & R' & K).
  rewrite O in O'. injection O' as <-. rewrite R in R'. injection R' as <-.
  destruct (rekey_shape _ _ _ _ K)
    as (v & ds1 & ds2 & ds3 & a & -> & M & D & T & G & RV & HD & _ & VA & _).
  rewrite VA. cbn [Xr.assign_attrs Xr.variable Xr.dims].
  apply lookup_keys in HD as [m LM]. rewrite LM. f_equal.
  unfold rekey in K. cbn [local bind] in K. rewrite M in K. cbn [bind] in K.
  rewrite D in K. cbn [bind] in K. rewrite T in K. cbn [bind] in K.
  rewrite G in K. cbn [bind] in K.
  bind_inv K. rename a0 into ds4. bind_inv K. rename a0 into ds5.
  bind_inv K. cbn [Xr.assign_coords bind] in E1.
  destruct (Xr.assign_coord ds5 "Datetime" (Xr.datetime_index "Datetime" range))
    as [ds6|] eqn:A; [|discriminate].
  unfold Xr.assign_coord in A.
  destruct (Xr.conflicting _ _) eqn:Q in A; [discriminate|].
  apply to_dataset_inv in E as [_ ->]. apply drop_vars_inv in E0 as [-> _].
  eapply conflicting_single; [exact Q|].
  unfold Xr.variables. cbn [Xr.data_vars Xr.ds_coords Xr.assign_attrs Xr.variable].
  rewrite (single_entry_kept _ _ _ RV).
  cbn [app]. unfold remove at 1. cbn [filter fst].
  assert (NV : mem v ["Datetime"] = false).
  { rewrite mem_cons in RV. apply orb_false_elim in RV as [RV _]. simpl. now rewrite RV. }
  rewrite NV. cbn [negb]. unfold Xr.sizes. cbn [map snd List.concat Xr.dims].
  now rewrite lookup_app, LM.
Qed.

(** ** The position coordinates *)

(** The coordinate a position field becomes: the field of the file, stacked
    like every variable of the dataset. *)
Lemma relabelled_coordinate_value ds v src range arr raw new field :
  lookup v (Xr.data_vars ds) = Some src ->
  mem v reserved = false ->
  rekey ds (Some v) range = Ok arr ->
  In (raw, new) [("longitude", "Longitudes"); ("latitude", "Latitudes")] ->
  Xr.getitem ds raw = Ok field ->
  Xr.subset (Xr.dim_names (Xr.variable field)) (Xr.dim_names src) = true ->
  exists n1 n2 stacked,
    Xr.stack_var "Datetime" "Days" "Hours" n1 n2 (Xr.variable field) = Ok stacked /\
    lookup new (Xr.coords arr) = Some stacked.
Proof.
  intros L R K I GF Sub.
  destruct (rekey_shape _ _ _ _ K)
    as (v' & ds1 & ds2 & ds3 & a & [= <-] & M & D & T & G & _ & _ & _ & _ & C).
  destruct (active_variable _ _ _ _ _ _ _ _ L R M D T G)
    as (active & n1 & n2 & GA & AS & L1 & L2 & SV).
  destruct (mask_and_label_inv _ _ _ _ M) as (active' & lon & lat & _ & GO & GL & _ & CS).
  pose proof (getitem_coords _ _ _ G) as CA.
  destruct (stack_inv _ _ _ _ _ T)
    as (n1' & n2' & dv & cs & levels & L1' & L2' & _ & MC & _ & _ & ->).
  rewrite L1 in L1'. injection L1' as <-. rewrite L2 in L2'. injection L2' as <-.
  apply drop_vars_inv in D as [-> _]. cbn [Xr.ds_coords] in *.
  assert (N : mem new ["longitude"; "latitude"; "time"] = false /\
              mem new ["Datetime"; "Days"; "Hours"] = false /\
              String.eqb new "Datetime" = false /\
              lookup new (Xr.ds_coords ds1) = Some (Xr.variable field)).
  { rewrite CS, !lookup_update.
    destruct I as [[= <- <-] | [[= <- <-] | []]].
    - rewrite GO in GF. injection GF as <-. repeat split.
    - rewrite GL in GF. injection GF as <-. repeat split. }
  destruct N as (N1 & N2 & N3 & LF).
  assert (LF' : lookup new (remove ["longitude"; "latitude"; "time"] (Xr.ds_coords ds1))
                = Some (Xr.variable field)) by now rewrite lookup_remove, N1.
  destruct (stack_entries_lookup _ _ _ _ _ _ _ _ _ MC LF') as [f' [SF LC]].
  assert (P : Xr.subset (Xr.dim_names f') (Xr.dim_names (Xr.variable a)) = true).
  { apply subset_spec. apply (stack_var_subset _ _ _ _ _ _ _ _ _ SF SV).
    intros d Id. rewrite subset_spec in Sub. apply Sub in Id.
    apply has_dim_In. rewrite has_dim_where. apply has_dim_In in Id. now rewrite Id. }
  exists n1, n2, f'. split; [exact SF|]. rewrite C. apply lookup_filter; [|exact P].
  rewrite lookup_update, N3, lookup_remove, N2, CA.
  apply lookup_filter; [|exact P].
  now rewrite lookup_app, lookup_remove, N2, LC.
Qed.

(** X12: the coordinates [Longitudes] and [Latitudes] are the fields
    [longitude] and [latitude] of the file as they are: a position field on
    dimensions of the active variable, and on neither [Days] nor [Hours],
    keeps its dimensions, its attributes and all its values, also where the
    active variable holds the fill value. *)
Theorem position_coordinates_are_not_masked
  open_dataset to_datetime filename candidates ds v src arr raw new field :
  open_dataset filename = Ok ds ->
  scan ds candidates None = Ok (Some v) ->
  In v variables ->
  lookup v (Xr.data_vars ds) = Some src ->
  open_and_preprocess open_dataset to_datetime filename candidates = Ok arr ->
  In (raw, new) [("longitude", "Longitudes"); ("latitude", "Latitudes")] ->
  Xr.getitem ds raw = Ok field ->
  Xr.subset (Xr.dim_names (Xr.variable field)) (Xr.dim_names src) = true ->
  Xr.has_dim "Days" (Xr.variable field) || Xr.has_dim "Hours" (Xr.variable field) = false ->
  lookup new (Xr.coords arr) = Some (Xr.variable field).
Proof.
  intros O S I L H J GF Sub NS.
  destruct (preprocess_inv _ _ _ _ _ H) as (ds' & var & range & O' & S' & _ & K).
  rewrite O in O'. injection O' as <-. rewrite S in S'. injection S' as <-.
  destruct (relabelled_coordinate_value _ _ _ _ _ _ _ _ L
              (variables_not_reserved _ I) K J GF Sub)
    as (n1 & n2 & stacked & SV & LK).
  unfold Xr.stack_var in SV. rewrite NS in SV. injection SV as <-. exact LK.
Qed.

(** ** Selecting an hour of the returned array *)

Lemma position_at {A : Type} (p : A -> bool) (l : list A) (d : A) i :
  i < List.length l ->
  p (nth i l d) = true ->
  (forall j, j < i -> p (nth j l d) = false) ->
  Xr.position p l = Some i.
Proof.
  revert i. induction l as [|a l IH]; intros i Hi P B; [simpl in Hi; lia|].
  destruct i as [|i]; simpl in *.
  - now rewrite P.
  - rewrite (B 0) by lia. rewrite (IH i); [reflexivity | lia | assumption |].
    intros j Hj. apply (B (S j)). lia.
Qed.

Lemma position_nowhere {A : Type} (p : A -> bool) (l : list A) :
  (forall a, In a l -> p a = false) -> Xr.position p l = None.
Proof.
  induction l as [|a l IH]; intros H; [reflexivity|]. simpl.
  rewrite (H a) by now left. rewrite IH; [reflexivity|].
  intros b I. apply H. now right.
Qed.

Lemma datetime_labels ts :
  Xr.labels (Xr.datetime_index "Datetime" ts) "Datetime" (List.length ts)
  = map Xr.Stamp ts.
Proof.
  unfold Xr.labels, Xr.datetime_index. cbn [Xr.values].
  apply nth_ext with (d := Xr.Stamp 0%Z) (d' := Xr.Stamp 0%Z).
  - now rewrite !length_map, length_seq.
  - intros k Hk. rewrite length_map, length_seq in Hk.
    rewrite (nth_map_in _ _ _ _ 0) by now rewrite length_seq.
    rewrite (nth_map_in _ _ _ _ 0%Z) by assumption.
    rewrite seq_nth by assumption. unfold Xr.upd. now rewrite String.eqb_refl.
Qed.

(** X13: the timestamps of the returned array select its hours: the array
    can be selected at each of its timestamps, which gives the cells at the
    position of that timestamp, and at no other label ([KeyError]). *)
Theorem timestamp_selects_its_hour
  open_dataset to_datetime filename candidates ds range arr :
  open_dataset filename = Ok ds ->
  datetime_range to_datetime filename ds = Ok range ->
  open_and_preprocess open_dataset to_datetime filename candidates = Ok arr ->
  (forall i, i < List.length range ->
     exists hour,
       Xr.sel arr [("Datetime", Xr.Label (nth i range 0%Z))] = Ok hour /\
       Xr.has_dim "Datetime" (Xr.variable hour) = false /\
       forall ix, Xr.values (Xr.variable hour) ix
                  = Xr.values (Xr.variable arr) (Xr.upd ix "Datetime" i)) /\
  (forall t, ~ In t range ->
     Xr.sel arr [("Datetime", Xr.Label t)] = Raise (KeyError (Clock.isoformat t))).
Proof.
  intros O R H.
  destruct (preprocess_inv _ _ _ _ _ H) as (ds' & var & range' & O' & _ & R' & K).
  rewrite O in O'. injection O' as <-. rewrite R in R'. injection R' as <-.
  destruct (rekey_shape _ _ _ _ K)
    as (v & ds1 & ds2 & ds3 & a & _ & _ & _ & _ & _ & _ & HD & _ & VA & C).
  assert (LD : lookup "Datetime" (Xr.coords arr)
               = Some (Xr.datetime_index "Datetime" range)).
  { rewrite C. apply lookup_filter.
    - now rewrite lookup_update, String.eqb_refl.
    - cbn [snd Xr.datetime_index Xr.dim_names Xr.dims keys map fst Xr.subset forallb].
      unfold Xr.has_dim in HD. now rewrite HD. }
  assert (HA : Xr.has_dim "Datetime" (Xr.variable arr) = true) by now rewrite VA.
  split.
  - intros i Hi. cbn [Xr.sel]. unfold Xr.sel_dim. rewrite LD.
    cbn [Xr.datetime_index Xr.dims]. rewrite String.eqb_refl.
    change (Xr.labels _ "Datetime" (List.length range))
      with (Xr.labels (Xr.datetime_index "Datetime" range) "Datetime" (List.length range)).
    rewrite datetime_labels.
    rewrite (position_at _ _ (Xr.Stamp 0%Z) i).
    + cbn [bind]. eexists. split; [reflexivity|].
      cbn [Xr.on_array Xr.variable]. unfold Xr.pick. rewrite HA.
      cbn [Xr.values Xr.dims]. split; [|reflexivity].
      unfold Xr.has_dim, Xr.dim_names. cbn [Xr.dims].
      destruct (mem "Datetime" (keys (remove ["Datetime"] (Xr.dims (Xr.variable arr)))))
        eqn:M; [|reflexivity].
      apply mem_In, keys_remove in M as [_ M]. discriminate.
    + now rewrite length_map.
    + rewrite (nth_map_in _ _ _ _ 0%Z) by assumption. simpl. apply Z.eqb_refl.
    + intros j Hj. assert (X : j < List.length range) by lia.
      rewrite (nth_map_in Xr.Stamp range j (Xr.Stamp 0%Z) 0%Z X). simpl.
      apply Z.eqb_neq. intros E.
      pose proof (timestamps_increase _ _ _ _ j i R Hj Hi) as Lt.
      rewrite E in Lt. now apply Z.lt_irrefl in Lt.
  - intros t N. cbn [Xr.sel]. unfold Xr.sel_dim. rewrite LD.
    cbn [Xr.datetime_index Xr.dims]. rewrite String.eqb_refl.
    change (Xr.labels _ "Datetime" (List.length range))
      with (Xr.labels (Xr.datetime_index "Datetime" range) "Datetime" (List.length range)).
    rewrite datetime_labels, position_nowhere; [reflexivity|].
    intros c I. apply in_map_iff in I as [t' [<- I]]. simpl.
    apply Z.eqb_neq. intros ->. contradiction.
Qed.

(** ** What is drawn *)

Section Drawing.
Variable accepts : Plt.Figure -> Plt.artist -> bool.
Variable writable : string -> bool.
Variable w0 : Plt.World.

(** The world of a call in progress that has drawn [l]. *)
Let drawn (l : list Plt.artist) : Plt.World :=
  {| Plt.figures :=
       Plt.mkFigure (next_num (Plt.figures w0)) Plt.Mercator l :: Plt.figures w0;
     Plt.events := Plt.events w0 |}.

Lemma draw_drawn a l :
  draw accepts (next_num (Plt.figures w0)) a (drawn l)
  = if accepts (Plt.mkFigure (next_num (Plt.figures w0)) Plt.Mercator l) a
    then (Ok tt, drawn (l ++ [a]))
    else (Raise RenderError, drawn l).
Proof.
  unfold draw, drawn. cbn [Plt.figures Plt.events find Plt.num].
  rewrite Nat.eqb_refl. destruct (accepts _ a); [|reflexivity].
  cbn [map Plt.num]. rewrite Nat.eqb_refl. unfold add_artist. cbn [Plt.num Plt.artists
    Plt.axes_projection]. do 3 f_equal.
  transitivity (map (fun f : Plt.Figure => f) (Plt.figures w0)); [|apply map_id].
  apply map_ext_in. intros f I. now rewrite (num_fresh w0 f I).
Qed.

Lemma end_of_call l save :
  (match save with Some fname => savefig writable fname 200 | None => Plt.ret tt end ;;;
   show ;;; close ;;; Plt.ret tt) (drawn l)
  = let fig := Plt.mkFigure (next_num (Plt.figures w0)) Plt.Mercator l in
    match save with
    | Some fname =>
        if writable fname
        then (Ok tt, {| Plt.figures := Plt.figures w0;
                        Plt.events := Plt.events w0
                          ++ [Plt.Saved fname 200 fig]
                          ++ [Plt.Shown (fig :: Plt.figures w0)] |})
        else (Raise (OSError fname), drawn l)
    | None => (Ok tt, {| Plt.figures := Plt.figures w0;
                         Plt.events := Plt.events w0
                           ++ [Plt.Shown (fig :: Plt.figures w0)] |})
    end.
Proof.
  unfold Plt.bindM, savefig, gcf, show, close, Plt.ret, drawn.
  destruct save as [fname|]; cbn [Plt.figures Plt.events].
  - unfold Plt.bindM. cbn [Plt.figures Plt.events].
    destruct (writable fname); cbn [Plt.figures Plt.events tl]; [|reflexivity].
    now rewrite <- app_assoc.
  - reflexivity.
Qed.

Ltac lift_step :=
  match goal with
  | |- context [Plt.bindM (Plt.lift ?r) _ _] =>
      unfold Plt.bindM at 1; unfold Plt.lift at 1;
      destruct r; cbv beta iota; [|exact I]
  end.

Ltac draw_step :=
  match goal with
  | |- context [Plt.bindM (draw accepts _ ?a) _ (drawn ?l)] =>
      unfold Plt.bindM at 1; rewrite (draw_drawn a l);
      destruct (accepts _ a); cbv beta iota; [|exact I]
  end.

(** The figure a call that returns has made. *)
Lemma drawn_figure ds_tmp CS1_tmp CS2_tmp lon_range lat_range date_time o :
  match case_study_plotting accepts writable ds_tmp CS1_tmp CS2_tmp
          lon_range lat_range date_time o w0 with
  | (Ok _, w') =>
      exists l,
        planned_artists ds_tmp CS1_tmp CS2_tmp lon_range lat_range date_time o = Ok l /\
        let fig := Plt.mkFigure (next_num (Plt.figures w0)) Plt.Mercator l in
        Plt.events w' =
          Plt.events w0
          ++ match save_string o with
             | Some fname => [Plt.Saved fname 200 fig]
             | None => []
             end
          ++ [Plt.Shown (fig :: Plt.figures w0)]
  | (Raise _, _) => True
  end.
Proof.
  unfold case_study_plotting, planned_artists, gridlines.
  unfold Plt.bindM at 1. change (subplots Plt.Mercator w0) with
    (Ok (next_num (Plt.figures w0)), drawn []). cbv beta iota.
  lift_step. cbn [bind]. lift_step. cbn [bind]. lift_step. cbn [bind].
  draw_step. draw_step. draw_step.
  lift_step. cbn [bind]. lift_step. cbn [bind]. lift_step. cbn [bind].
  draw_step. draw_step.
  lift_step. cbn [bind]. lift_step. cbn [bind]. lift_step. cbn [bind].
  draw_step. draw_step. draw_step. draw_step. draw_step. draw_step.
  rewrite end_of_call. cbv zeta. cbn [app].
  destruct (save_string o) as [fname|].
  - destruct (writable fname); [|exact I]. eexists. split; reflexivity.
  - eexists. split; reflexivity.
Qed.

Ltac no_plan :=
  split; [discriminate | intros (l & P & _); discriminate P].

Ltac sel_step :=
  match goal with
  | |- context [Plt.bindM (Plt.lift ?r) _ _] =>
      unfold Plt.bindM at 1; unfold Plt.lift at 1;
      destruct r; cbv beta iota; cbn [bind]; [|no_plan]
  end.

Ltac rejected k A :=
  split;
  [ discriminate
  | intros (l & P & Acc & _); repeat bind_inv P; injection P as <-;
    assert (K : k < 11) by lia; specialize (Acc k K);
    cbn [firstn nth] in Acc; congruence ].

Ltac draw_at k :=
  match goal with
  | |- context [Plt.bindM (draw accepts _ ?a) _ (drawn ?l)] =>
      unfold Plt.bindM at 1; rewrite (draw_drawn a l);
      let A := fresh "A" in
      destruct (accepts (Plt.mkFigure (next_num (Plt.figures w0)) Plt.Mercator l) a)
        eqn:A;
      cbv beta iota; cbn [app] in A |- *; [|rejected k A]
  end.

(** A call returns exactly when the three selections succeed, every
    drawing call is accepted and the file, if one is asked for, can be
    written. *)
Lemma returns_iff ds_tmp CS1_tmp CS2_tmp lon_range lat_range date_time o :
  fst (case_study_plotting accepts writable ds_tmp CS1_tmp CS2_tmp
         lon_range lat_range date_time o w0) = Ok tt
  <-> exists l,
        planned_artists ds_tmp CS1_tmp CS2_tmp lon_range lat_range date_time o = Ok l /\
        (forall k, k < 11 ->
           accepts (Plt.mkFigure (next_num (Plt.figures w0)) Plt.Mercator (firstn k l))
                   (nth k l Plt.Coastlines) = true) /\
        (forall fname, save_string o = Some fname -> writable fname = true).
Proof.
  unfold case_study_plotting, planned_artists, gridlines.
  unfold Plt.bindM at 1. change (subplots Plt.Mercator w0) with
    (Ok (next_num (Plt.figures w0)), drawn []). cbv beta iota.
  sel_step. sel_step. sel_step.
  draw_at 0. draw_at 1. draw_at 2.
  sel_step. sel_step. sel_step.
  draw_at 3. draw_at 4.
  sel_step. sel_step. sel_step.
  draw_at 5. draw_at 6. draw_at 7. draw_at 8. draw_at 9. draw_at 10.
  rewrite end_of_call. cbv zeta.
  destruct (save_string o) as [fname|]; [destruct (writable fname) eqn:W|]; cbn [fst].
  - split; [intros _ | reflexivity]. eexists. split; [reflexivity|]. split.
    + intros k K. do 11 (destruct k as [|k]; [assumption|]). lia.
    + now intros f [= <-].
  - split; [discriminate|]. intros (l & _ & _ & Wr). specialize (Wr fname eq_refl).
    congruence.
  - split; [intros _ | reflexivity]. eexists. split; [reflexivity|]. split.
    + intros k K. do 11 (destruct k as [|k]; [assumption|]). lia.
    + discriminate.
Qed.

End Drawing.

(** C7, as the code has it: a call that returns has written the figure to
    the save path at 200 dots per inch exactly when a save path is given,
    and has done so before the display; it has written nothing else.
    Without a save path no file is written, however the call ends. A call
    in which a selection or a drawing call raises does not get to the
    write: it raises with nothing written, also when a save path is
    given. *)
Theorem figure_saved_iff_path_on_return
  accepts writable ds_tmp CS1_tmp CS2_tmp lon_range lat_range date_time o w :
  let run := case_study_plotting accepts writable ds_tmp CS1_tmp CS2_tmp
               lon_range lat_range date_time o w in
  match run with
  | (Ok _, w') =>
      exists fig,
        Plt.num fig = next_num (Plt.figures w) /\
        Plt.events w' =
          Plt.events w
          ++ match save_string o with
             | Some fname => [Plt.Saved fname 200 fig]
             | None => []
             end
          ++ [Plt.Shown (fig :: Plt.figures w)]
  | (Raise _, _) => True
  end /\
  (save_string o = None -> saved (Plt.events (snd run)) = saved (Plt.events w)) /\
  ((forall l,
      planned_artists ds_tmp CS1_tmp CS2_tmp lon_range lat_range date_time o = Ok l ->
      exists k, k < 11 /\
        accepts (Plt.mkFigure (next_num (Plt.figures w)) Plt.Mercator (firstn k l))
                (nth k l Plt.Coastlines) = false) ->
   exists e, fst run = Raise e /\ saved (Plt.events (snd run)) = saved (Plt.events w)).
Proof.
  pose proof (plotting_outcome accepts writable w ds_tmp CS1_tmp CS2_tmp
                lon_range lat_range date_time o) as H.
  pose proof (returns_iff accepts writable w ds_tmp CS1_tmp CS2_tmp
                lon_range lat_range date_time o) as RI.
  cbv zeta.
  destruct (case_study_plotting accepts writable ds_tmp CS1_tmp CS2_tmp
              lon_range lat_range date_time o w) as [[[]|e] w']; cbn [fst snd] in *.
  - destruct H as (_ & fig & Nf & Ev). split; [now exists fig|]. split.
    + intros NS. rewrite Ev, NS. cbn [app]. unfold saved. rewrite flat_map_app.
      cbn [flat_map]. now rewrite !app_nil_r.
    + intros P. destruct (proj1 RI eq_refl) as (l & Pl & Acc & _).
      destruct (P l Pl) as (k & K & A). rewrite (Acc k K) in A. discriminate.
  - destruct H as [Ev _]. split; [exact I|]. split.
    + intros _. now rewrite Ev.
    + intros _. exists e. split; [reflexivity | now rewrite Ev].
Qed.

(** C7, as stated, fails: a call with a save path whose timestamp is not in
    the field raises before the figure is saved, and writes no file. *)
Lemma nothing_saved_when_selection_raises :
  let o := Sample.to_file defaults "case.png" in
  let run := case_study_plotting (fun _ _ => true) (fun _ => true)
               Sample.field Sample.field Sample.field
               Sample.window Sample.window Sample.outside
               o Sample.empty_world in
  save_string o = Some "case.png" /\
  fst run = Raise (KeyError "2019-07-05T20:00:00") /\
  saved (Plt.events (snd run)) = [].
Proof. vm_compute. repeat split. Qed.

(** X14: when a call returns, the figure on display carries, in this order,
    the color mesh of the model field, the grid labels (bottom and left
    only, no lines), the color bar, the solid contours of the first
    observations and their labels, the dashed contours of the second and
    their labels, the coast lines, the state borders, the legend and the
    title; the three fields are selected with one and the same window; and
    the file, if one is written, holds that same finished figure. *)
Theorem displayed_figure_is_complete
  accepts writable ds_tmp CS1_tmp CS2_tmp lon_range lat_range date_time o w :
  match case_study_plotting accepts writable ds_tmp CS1_tmp CS2_tmp
          lon_range lat_range date_time o w with
  | (Ok _, w') =>
      exists l,
        planned_artists ds_tmp CS1_tmp CS2_tmp lon_range lat_range date_time o = Ok l /\
        List.length l = 11 /\
        let fig := Plt.mkFigure (next_num (Plt.figures w)) Plt.Mercator l in
        last (Plt.events w') (Plt.Shown []) = Plt.Shown (fig :: Plt.figures w) /\
        forall fname dpi saved_fig,
          In (Plt.Saved fname dpi saved_fig) (Plt.events w') ->
          In (Plt.Saved fname dpi saved_fig) (Plt.events w) \/ saved_fig = fig
  | (Raise _, _) => True
  end.
Proof.
  pose proof (drawn_figure accepts writable w ds_tmp CS1_tmp CS2_tmp
                lon_range lat_range date_time o) as H.
  destruct (case_study_plotting accepts writable ds_tmp CS1_tmp CS2_tmp
              lon_range lat_range date_time o w) as [[[]|e] w']; [|exact I].
  destruct H as (l & P & E). exists l. split; [exact P|]. split.
  - unfold planned_artists in P. repeat bind_inv P. now injection P as <-.
  - cbv zeta in *. rewrite E. split.
    + rewrite app_assoc. apply last_last.
    + intros fname dpi saved_fig I.
      apply in_app_or in I as [I | I]; [now left | right].
      apply in_app_or in I as [I | I].
      * destruct (save_string o); [|destruct I].
        destruct I as [[= _ _ <-] | []]. reflexivity.
      * destruct I as [I | []]. discriminate.
Qed.

(** ** From the preprocessor to the plotter *)

Lemma stacked_is_no_index new_dim d1 d2 n1 n2 x x' k :
  Xr.stack_var new_dim d1 d2 n1 n2 x = Ok x' ->
  (forall n, Xr.dims x <> [(k, n)]) ->
  String.eqb new_dim k = false ->
  match Xr.dims x' with
  | [(d', n)] => String.eqb d' k = false
  | _ => True
  end.
Proof.
  unfold Xr.stack_var. intros S N E.
  assert (U : match Xr.dims x with [(d', n)] => String.eqb d' k = false | _ => True end).
  { destruct (Xr.dims x) as [|[d' n] [|q r]] eqn:D; try exact I.
    destruct (String.eqb d' k) eqn:E'; [|reflexivity].
    apply String.eqb_eq in E'. subst. now destruct (N n). }
  destruct (Xr.has_dim d1 x || Xr.has_dim d2 x).
  - destruct (Xr.has_dim new_dim x); [discriminate|]. injection S as <-. cbn [Xr.dims].
    destruct (remove [d1; d2] (Xr.dims x)) as [|[d' n] r]; simpl; [exact E|].
    now destruct r.
  - now injection S as <-.
Qed.

(** X15: the preprocessor relabels fields, it does not rename dimensions: an
    array made from a file whose [latitude] field is not a one-dimensional
    variable along a dimension called [Latitudes] cannot be plotted; every
    call of [case_study_plotting] with it as model field raises [KeyError]
    for [Latitudes] at the first selection. *)
Theorem plotting_needs_a_latitudes_dimension
  open_dataset to_datetime filename candidates ds v src arr field :
  open_dataset filename = Ok ds ->
  scan ds candidates None = Ok (Some v) ->
  In v variables ->
  lookup v (Xr.data_vars ds) = Some src ->
  open_and_preprocess open_dataset to_datetime filename candidates = Ok arr ->
  Xr.getitem ds "latitude" = Ok field ->
  Xr.subset (Xr.dim_names (Xr.variable field)) (Xr.dim_names src) = true ->
  (forall n, Xr.dims (Xr.variable field) <> [("Latitudes", n)]) ->
  forall accepts writable CS1_tmp CS2_tmp lon_range lat_range date_time o w,
    fst (case_study_plotting accepts writable arr CS1_tmp CS2_tmp
           lon_range lat_range date_time o w)
    = Raise (KeyError "Latitudes").
Proof.
  intros O S I L H GF Sub N accepts writable CS1_tmp CS2_tmp lon_range lat_range
    date_time o w.
  destruct (preprocess_inv _ _ _ _ _ H) as (ds' & var & range & O' & S' & _ & K).
  rewrite O in O'. injection O' as <-. rewrite S in S'. injection S' as <-.
  destruct (relabelled_coordinate_value _ _ _ _ _ "latitude" "Latitudes" _ L
              (variables_not_reserved _ I) K (or_intror (or_introl eq_refl)) GF Sub)
    as (n1 & n2 & stacked & SV & LK).
  pose proof (stacked_is_no_index _ _ _ _ _ _ _ "Latitudes" SV N eq_refl) as U.
  assert (E : Xr.sel_dim arr "Latitudes" lat_range = Raise (KeyError "Latitudes")).
  { unfold Xr.sel_dim. rewrite LK.
    destruct (Xr.dims stacked) as [|[d' n] [|q r]]; try reflexivity. now rewrite U. }
  unfold case_study_plotting. unfold Plt.bindM at 1. cbn [subplots].
  unfold Plt.bindM at 1. unfold Plt.lift at 1. cbn [Xr.sel]. rewrite E. reflexivity.
Qed.

(** ** The shape of the start text *)

Lemma substring_length a m s :
  String.length (substring a m s) = Nat.min m (String.length s - a).
Proof.
  revert a m. induction s as [|c s IH]; intros a m.
  - destruct a, m; reflexivity.
  - destruct a as [|a]; simpl.
    + destruct m as [|m]; [reflexivity|]. simpl. rewrite IH. now rewrite Nat.sub_0_r.
    + apply IH.
Qed.

(** X16: building the start text never fails and never checks anything: for
    every file name it is a year part of at most four characters, a hyphen,
    a month part of at most two characters and [-01]; a name that is short
    before the token gives shorter parts. *)
Theorem start_string_shape filename :
  let n := String.length (Py.before_first token filename) in
  exists year month,
    start_string filename = (year ++ "-" ++ month ++ "-01")%string /\
    String.length year = Nat.min 4 (n - 2) /\
    String.length month = Nat.min 2 n.
Proof.
  cbv zeta. unfold start_string.
  set (s := Py.before_first token filename). set (n := String.length s).
  exists (Py.slice (Some (-6)%Z) (Some (-2)%Z) s), (Py.slice (Some (-2)%Z) None s).
  split; [reflexivity|]. unfold Py.slice, Py.clamp. fold n.
  change (-6 <? 0)%Z with true. change (-2 <? 0)%Z with true. cbv iota.
  rewrite !substring_length. fold n. lia.
Qed.

(** ** The files that are processed *)

Lemma conflicting_None sz l :
  (forall d n m, In (d, n) l -> lookup d sz = Some m -> m = n) ->
  Xr.conflicting sz l = None.
Proof.
  induction l as [|[d n] l IH]; intros H; [reflexivity|]. simpl.
  assert (T : Xr.conflicting sz l = None).
  { apply IH. intros d' n' m I. apply H. now right. }
  destruct (lookup d sz) as [m|] eqn:L; [|exact T].
  now rewrite (H d n m (or_introl eq_refl) L), Nat.eqb_refl.
Qed.

Lemma sizes_remove ks vars d n :
  In (d, n) (Xr.sizes (remove ks vars)) -> In (d, n) (Xr.sizes vars).
Proof.
  rewrite !in_sizes. intros (k & x & I & J). apply filter_In in I as [I _]. eauto.
Qed.

Lemma assign_coord_ok ds k v :
  (forall d n m, In (d, n) (Xr.dims v) ->
                 In (d, m) (Xr.sizes (Xr.variables ds)) -> m = n) ->
  Xr.assign_coord ds k v
  = Ok {| Xr.data_vars := remove [k] (Xr.data_vars ds);
          Xr.ds_coords := update k v (Xr.ds_coords ds) |}.
Proof.
  intros H. unfold Xr.assign_coord. rewrite conflicting_None; [reflexivity|].
  intros d n m I L. apply (H d n m I). apply sizes_remove with (ks := [k]).
  now apply lookup_In.
Qed.

Lemma drop_vars_ok ds names :
  (forall k, In k names -> mem k (keys (Xr.variables ds)) = true) ->
  Xr.drop_vars ds names
  = Ok {| Xr.data_vars := remove names (Xr.data_vars ds);
          Xr.ds_coords := remove names (Xr.ds_coords ds) |}.
Proof.
  intros H. unfold Xr.drop_vars.
  destruct (filter _ names) as [|x l] eqn:E; [reflexivity|].
  assert (I : In x (filter (fun k => negb (mem k (keys (Xr.variables ds)))) names))
    by (rewrite E; now left).
  apply filter_In in I as [I N]. now rewrite (H x I) in N.
Qed.

Lemma stack_entries_ok new_dim d1 d2 n1 n2 l :
  (forall k x, In (k, x) l ->
     (Xr.has_dim d1 x || Xr.has_dim d2 x) && Xr.has_dim new_dim x = false) ->
  exists l', mapM (Xr.stack_entry new_dim d1 d2 n1 n2) l = Ok l'.
Proof.
  induction l as [|[k x] l IH]; intros H; [now exists []|].
  destruct IH as [l' E]; [intros k' x' I; apply (H k' x'); now right|].
  pose proof (H k x (or_introl eq_refl)) as B.
  simpl. unfold Xr.stack_entry at 1, Xr.stack_var. cbn [snd fst].
  destruct (Xr.has_dim d1 x || Xr.has_dim d2 x); simpl in B.
  - rewrite B. cbn [bind]. rewrite E. cbn [bind]. eauto.
  - cbn [bind]. rewrite E. cbn [bind]. eauto.
Qed.

Lemma In_lookup {A : Type} k (a : A) d : In (k, a) d -> lookup k d <> None.
Proof.
  intros I N. apply lookup_None_keys in N.
  assert (M : mem k (keys d) = true).
  { apply mem_In. unfold keys. apply in_map_iff. now exists (k, a). }
  congruence.
Qed.

Lemma has_dim_size d x : Xr.has_dim d x = true <-> exists n, In (d, n) (Xr.dims x).
Proof.
  unfold Xr.has_dim, Xr.dim_names. rewrite lookup_keys. split.
  - intros [n L]. exists n. now apply lookup_In.
  - intros [n I]. destruct (lookup d (Xr.dims x)) as [m|] eqn:L; [eauto|].
    now destruct (In_lookup _ _ _ I).
Qed.

(** The [new_dim] entries of a stacked variable, when the variable had
    none, are the product of the two lengths. *)
Lemma stacked_size new_dim d1 d2 n1 n2 x x' m :
  Xr.stack_var new_dim d1 d2 n1 n2 x = Ok x' ->
  Xr.has_dim new_dim x = false ->
  In (new_dim, m) (Xr.dims x') -> m = n1 * n2.
Proof.
  unfold Xr.stack_var. intros S N I.
  assert (X : forall n, ~ In (new_dim, n) (Xr.dims x)).
  { intros n J. assert (Xr.has_dim new_dim x = true) by (apply has_dim_size; eauto).
    congruence. }
  destruct (Xr.has_dim d1 x || Xr.has_dim d2 x).
  - rewrite N in S. injection S as <-. cbn [Xr.dims] in I.
    apply in_app_or in I as [I | [[= <-] | []]]; [|reflexivity].
    apply filter_In in I as [I _]. now destruct (X m).
  - injection S as <-. now destruct (X m).
Qed.

Lemma stacked_has_new new_dim d1 d2 n1 n2 x x' :
  Xr.stack_var new_dim d1 d2 n1 n2 x = Ok x' ->
  Xr.has_dim d1 x = true ->
  Xr.has_dim new_dim x' = true.
Proof.
  unfold Xr.stack_var. intros S H. rewrite H in S. cbn [orb] in S.
  destruct (Xr.has_dim new_dim x); [discriminate|]. injection S as <-.
  apply has_dim_size. exists (n1 * n2). cbn [Xr.dims]. apply in_or_app. right. now left.
Qed.

Lemma getattr_lookup ds k x :
  lookup k (Xr.variables ds) = Some x ->
  Xr.getattr ds k = Ok (Xr.construct_dataarray ds k x).
Proof. intros L. unfold Xr.getattr. now rewrite (getitem_lookup _ _ _ L). Qed.

Section Conforming.
Variable ds : Xr.Dataset.
Variables (v : string) (src : Xr.Var) (range : list Clock.Timestamp).
Variables ndays nhours : nat.
Hypothesis C : Xr.consistent ds = true.
Hypothesis L : lookup v (Xr.data_vars ds) = Some src.
Hypothesis NC : lookup v (Xr.ds_coords ds) = None.
Hypothesis R : mem v reserved = false.
Hypothesis HD : Xr.has_dim "Days" src = true.
Hypothesis HH : Xr.has_dim "Hours" src = true.
Hypothesis F : forall k, In k ["longitude"; "latitude"; "time"] ->
                         mem k (keys (Xr.variables ds)) = true.
Hypothesis ND : lookup "Datetime" (Xr.sizes (Xr.variables ds)) = None.
Hypothesis SD : lookup "Days" (Xr.sizes (Xr.variables ds)) = Some ndays.
Hypothesis SH : lookup "Hours" (Xr.sizes (Xr.variables ds)) = Some nhours.
Hypothesis RL : List.length range = ndays * nhours.

(** The dimensions of [x] are dimensions of the file. *)
Let of_file (x : Xr.Var) : Prop :=
  forall d n, In (d, n) (Xr.dims x) -> In (d, n) (Xr.sizes (Xr.variables ds)).

Let within (X : Xr.Dataset) : Prop :=
  forall k x, In (k, x) (Xr.variables X) -> of_file x.

Lemma same_size d n m :
  In (d, n) (Xr.sizes (Xr.variables ds)) -> In (d, m) (Xr.sizes (Xr.variables ds)) ->
  m = n.
Proof.
  intros I J. apply (consistent_lookup _ _ _ C) in I, J. congruence.
Qed.

Lemma of_file_variable k x : In (k, x) (Xr.variables ds) -> of_file x.
Proof. intros I d n J. apply in_sizes. eauto. Qed.

Lemma of_file_no_datetime x : of_file x -> Xr.has_dim "Datetime" x = false.
Proof.
  intros O. destruct (Xr.has_dim "Datetime" x) eqn:H; [|reflexivity].
  apply has_dim_size in H as [n I]. apply O in I. now destruct (In_lookup _ _ _ I).
Qed.

Lemma within_fits X x :
  within X -> of_file x ->
  forall d n m, In (d, n) (Xr.dims x) -> In (d, m) (Xr.sizes (Xr.variables X)) -> m = n.
Proof.
  intros W O d n m I J. apply in_sizes in J as (k & y & J & J').
  apply (same_size d n m); [now apply O | now apply (W k y J)].
Qed.

Lemma within_assign X k x :
  within X -> of_file x ->
  within {| Xr.data_vars := remove [k] (Xr.data_vars X);
            Xr.ds_coords := update k x (Xr.ds_coords X) |}.
Proof.
  intros W O k' y I. unfold Xr.variables in I. cbn [Xr.data_vars Xr.ds_coords] in I.
  apply in_app_or in I as [I | I].
  - apply filter_In in I as [I _]. apply (W k' y). unfold Xr.variables.
    apply in_or_app. now left.
  - apply In_update in I as [[= -> ->] | I]; [exact O|].
    apply (W k' y). unfold Xr.variables. apply in_or_app. now right.
Qed.

Let active : Xr.DataArray := Xr.construct_dataarray ds v src.
Let masked : Xr.Dataset := Xr.where_ ds (Xr.ne active fill_value) Xr.NaN.

Lemma active_item : Xr.getitem ds v = Ok active.
Proof. apply getitem_lookup. unfold Xr.variables. now rewrite lookup_app, L. Qed.

Lemma of_file_src : of_file src.
Proof.
  apply (of_file_variable v). unfold Xr.variables. apply in_or_app. left.
  now apply lookup_In.
Qed.

Lemma within_masked : within masked.
Proof.
  intros k x I. unfold Xr.variables, masked, Xr.where_ in I.
  cbn [Xr.data_vars Xr.ds_coords] in I. apply in_app_or in I as [I | I].
  - apply in_map_iff in I as [[k0 x0] [[= <- <-] I]]. intros d n J.
    cbn [Xr.where_var Xr.dims snd] in J. apply In_union in J as [J | J].
    + apply (of_file_variable k0 x0); [|assumption]. unfold Xr.variables.
      apply in_or_app. now left.
    + now apply of_file_src.
  - apply (of_file_variable k x). unfold Xr.variables. apply in_or_app. now right.
Qed.

Lemma field_of_file k :
  In k ["longitude"; "latitude"; "time"] ->
  exists x, lookup k (Xr.variables ds) = Some x /\ of_file x.
Proof.
  intros I. apply F in I. apply lookup_keys in I as [x I]. exists x. split; [assumption|].
  apply (of_file_variable k). now apply lookup_In.
Qed.

Lemma mask_and_label_ok : exists ds1, mask_and_label ds v range = Ok ds1.
Proof.
  destruct (field_of_file "longitude") as (lon & GO & OO); [simpl; tauto|].
  destruct (field_of_file "latitude") as (lat & GA & OA); [simpl; tauto|].
  unfold mask_and_label. rewrite active_item. cbn [bind].
  rewrite (getattr_lookup _ _ _ GO), (getattr_lookup _ _ _ GA). cbn [bind].
  fold active. fold masked. cbn [Xr.assign_coords Xr.construct_dataarray Xr.variable].
  rewrite (assign_coord_ok masked) by (apply within_fits; [apply within_masked | exact OO]).
  cbn [bind].
  pose proof (within_assign masked "Longitudes" lon within_masked OO) as W1.
  rewrite assign_coord_ok by (apply within_fits; [exact W1 | exact OA]).
  cbn [bind].
  pose proof (within_assign _ "Latitudes" lat W1 OA) as W2.
  rewrite assign_coord_ok; [cbn [bind]; eauto|].
  intros d n m [[= <- <-] | []] J. apply in_sizes in J as (k & y & J & J').
  apply (W2 k y J) in J'. now destruct (In_lookup _ _ _ J').
Qed.

Lemma drop_fields_ok ds1 :
  mask_and_label ds v range = Ok ds1 ->
  exists ds2, Xr.drop_vars ds1 ["longitude"; "latitude"; "time"] = Ok ds2.
Proof.
  intros M.
  destruct (mask_and_label_inv _ _ _ _ M) as (act & lon & lat & _ & _ & _ & DV & CS).
  rewrite drop_vars_ok; [eauto|]. intros k I.
  destruct (field_of_file k I) as (x & G & _).
  apply lookup_keys. unfold Xr.variables in G |- *. rewrite DV, CS.
  rewrite lookup_app in G.
  rewrite lookup_app, !lookup_remove, lookup_map, !lookup_update.
  destruct (lookup k (Xr.data_vars ds)) as [y|];
    destruct I as [<- | [<- | [<- | []]]]; simpl; eauto.
Qed.

Lemma masked_variable ds1 ds2 :
  mask_and_label ds v range = Ok ds1 ->
  Xr.drop_vars ds1 ["longitude"; "latitude"; "time"] = Ok ds2 ->
  lookup v (Xr.data_vars ds2)
  = Some (Xr.where_var (Xr.ne active fill_value) Xr.NaN src).
Proof.
  intros M D. destruct (not_reserved _ R) as (R1 & R2 & R3 & R4 & R5).
  destruct (mask_and_label_inv _ _ _ _ M) as (act & lon & lat & GA & _ & _ & DV & _).
  rewrite active_item in GA. injection GA as <-.
  apply drop_vars_inv in D as [-> _]. cbn [Xr.data_vars].
  now rewrite DV, !lookup_remove, R1, R2, R3, R4, lookup_map, L.
Qed.

(** A variable of the dataset that is stacked lies on dimensions of the
    file, or is the [Datetime] coordinate. *)
Lemma stackable ds1 ds2 k x :
  mask_and_label ds v range = Ok ds1 ->
  Xr.drop_vars ds1 ["longitude"; "latitude"; "time"] = Ok ds2 ->
  In (k, x) (Xr.variables ds2) ->
  of_file x \/ k = "Datetime" /\ x = Xr.datetime_index "Datetime" range.
Proof.
  intros M D I.
  destruct (mask_and_label_inv _ _ _ _ M) as (act & lon & lat & GA & GO & GL & DV & CS).
  rewrite active_item in GA. injection GA as <-.
  apply drop_vars_inv in D as [-> _]. unfold Xr.variables in I.
  cbn [Xr.data_vars Xr.ds_coords] in I. apply in_app_or in I as [I | I];
    apply filter_In in I as [I _].
  - left. rewrite DV in I. do 3 apply filter_In in I as [I _].
    apply (within_masked k x). unfold Xr.variables, masked, Xr.where_.
    cbn [Xr.data_vars Xr.ds_coords]. apply in_or_app. now left.
  - rewrite CS in I. apply In_update in I as [[= -> ->] | I]; [right; now split | left].
    apply In_update in I as [[= -> ->] | I];
      [intros d n J; now apply (getitem_dims _ _ _ _ _ GL)|].
    apply In_update in I as [[= -> ->] | I];
      [intros d n J; now apply (getitem_dims _ _ _ _ _ GO)|].
    apply (of_file_variable k x). unfold Xr.variables. apply in_or_app. now right.
Qed.

Lemma stack_ok ds1 ds2 :
  mask_and_label ds v range = Ok ds1 ->
  Xr.drop_vars ds1 ["longitude"; "latitude"; "time"] = Ok ds2 ->
  exists ds3, Xr.stack ds2 "Datetime" "Days" "Hours" = Ok ds3.
Proof.
  intros M D. pose proof (masked_variable _ _ M D) as LV.
  assert (A : forall d, Xr.has_dim d src = true ->
                        lookup d (Xr.sizes (Xr.variables ds2)) <> None).
  { intros d H.
    assert (H' : Xr.has_dim d (Xr.where_var (Xr.ne active fill_value) Xr.NaN src) = true)
      by (rewrite has_dim_where, H; reflexivity).
    apply has_dim_size in H' as [n I]. apply (In_lookup d n). apply in_sizes.
    eexists v, _. split; [|exact I]. unfold Xr.variables. apply in_or_app. left.
    now apply lookup_In. }
  assert (B : forall l, (forall k x, In (k, x) l -> In (k, x) (Xr.variables ds2)) ->
                        forall n1 n2,
                        exists l', mapM (Xr.stack_entry "Datetime" "Days" "Hours" n1 n2) l
                                   = Ok l').
  { intros l H n1 n2. apply stack_entries_ok. intros k x I.
    destruct (stackable _ _ _ _ M D (H k x I)) as [O | [_ ->]]; [|reflexivity].
    rewrite (of_file_no_datetime x O). apply andb_false_r. }
  unfold Xr.stack.
  destruct (lookup "Days" (Xr.sizes (Xr.variables ds2))) as [n1|] eqn:L1;
    [|now destruct (A "Days" HD)].
  destruct (lookup "Hours" (Xr.sizes (Xr.variables ds2))) as [n2|] eqn:L2;
    [|now destruct (A "Hours" HH)].
  cbv beta iota.
  destruct (B (Xr.data_vars ds2)) with (n1 := n1) (n2 := n2) as [dv ->].
  { intros k x I. unfold Xr.variables. apply in_or_app. now left. }
  destruct (B (Xr.ds_coords ds2)) with (n1 := n1) (n2 := n2) as [cs ->].
  { intros k x I. unfold Xr.variables. apply in_or_app. now right. }
  cbn [bind]. eauto.
Qed.

(** What stacking gives: the array of the active variable, and no
    [Datetime] of another length than the product. *)
Lemma stacked_array ds1 ds2 ds3 :
  mask_and_label ds v range = Ok ds1 ->
  Xr.drop_vars ds1 ["longitude"; "latitude"; "time"] = Ok ds2 ->
  Xr.stack ds2 "Datetime" "Days" "Hours" = Ok ds3 ->
  exists x,
    lookup v (Xr.variables ds3) = Some x /\
    Xr.has_dim "Datetime" x = true /\
    lookup v (Xr.ds_coords ds3) = None /\
    (forall k, In k ["Datetime"; "Days"; "Hours"] ->
       exists c, In (k, c) (Xr.ds_coords ds3) /\ Xr.dim_names c = ["Datetime"]) /\
    (forall k y m, In (k, y) (Xr.variables ds3) -> In ("Datetime", m) (Xr.dims y) ->
                   m = ndays * nhours).
Proof.
  intros M D S. pose proof (masked_variable _ _ M D) as LV.
  destruct (not_reserved _ R) as (R1 & R2 & R3 & R4 & R5).
  destruct (stack_inv _ _ _ _ _ S)
    as (n1 & n2 & dv & cs & levels & L1 & L2 & MD & MC & KL & DL & ->).
  assert (N1 : n1 = ndays).
  { apply lookup_In in L1. apply (dropped_sizes _ _ _ _ _ _ _ M D) in L1; [|discriminate].
    apply (consistent_lookup _ _ _ C) in L1. congruence. }
  assert (N2 : n2 = nhours).
  { apply lookup_In in L2. apply (dropped_sizes _ _ _ _ _ _ _ M D) in L2; [|discriminate].
    apply (consistent_lookup _ _ _ C) in L2. congruence. }
  subst n1 n2.
  destruct (stack_entries_lookup _ _ _ _ _ _ _ _ _ MD LV) as [x [SV LX]].
  exists x. split; [|split; [|split; [|split]]].
  - unfold Xr.variables. cbn [Xr.data_vars].
    now rewrite lookup_app, lookup_remove, R5, LX.
  - apply (stacked_has_new _ _ _ _ _ _ _ SV). now rewrite has_dim_where, HD.
  - cbn [Xr.ds_coords]. rewrite lookup_app, lookup_remove, R5.
    assert (X : lookup v cs = None).
    { apply lookup_None_keys. rewrite (stack_entries_keys _ _ _ _ _ _ _ MC).
      apply lookup_None_keys.
      destruct (mask_and_label_inv _ _ _ _ M) as (act & lon & lat & _ & _ & _ & _ & CS).
      apply drop_vars_inv in D as [-> _]. cbn [Xr.ds_coords].
      rewrite CS, lookup_remove, R1, !lookup_update.
      unfold mem in R2, R3, R4. simpl in R2, R3, R4. rewrite orb_false_r in R2, R3, R4.
      now rewrite R2, R3, R4. }
    rewrite X. apply lookup_None_keys. rewrite KL. exact R5.
  - intros k I. assert (J : In k (keys levels)) by now rewrite KL.
    unfold keys in J. apply in_map_iff in J as [[k' c] [E J]]. simpl in E. subst k'.
    exists c. split.
    + cbn [Xr.ds_coords]. apply in_or_app. now right.
    + unfold Xr.dim_names. now rewrite (DL _ _ J).
  - intros k y m I J. unfold Xr.variables in I. cbn [Xr.data_vars Xr.ds_coords] in I.
    assert (Q : forall l l', mapM (Xr.stack_entry "Datetime" "Days" "Hours" ndays nhours) l
                             = Ok l' ->
                (forall k x, In (k, x) l -> In (k, x) (Xr.variables ds2)) ->
                In (k, y) (remove ["Datetime"; "Days"; "Hours"] l') -> m = ndays * nhours).
    { intros l l' ML H I'. apply filter_In in I' as [I' N]. simpl in N.
      destruct (stack_entries_In _ _ _ _ _ _ _ _ _ ML I') as [y0 [I0 S0]].
      destruct (stackable _ _ _ _ M D (H _ _ I0)) as [O | [-> _]]; [|discriminate N].
      apply (stacked_size _ _ _ _ _ _ _ _ S0 (of_file_no_datetime _ O) J). }
    apply in_app_or in I as [I | I]; [|apply in_app_or in I as [I | I]].
    + apply (Q _ _ MD); [|exact I]. intros k' x' I'. unfold Xr.variables.
      apply in_or_app. now left.
    + apply (Q _ _ MC); [|exact I]. intros k' x' I'. unfold Xr.variables.
      apply in_or_app. now right.
    + rewrite (DL _ _ I) in J. now destruct J as [[= <-] | []].
Qed.

Lemma rekey_ok : exists arr, rekey ds (Some v) range = Ok arr.
Proof.
  destruct mask_and_label_ok as [ds1 M]. destruct (drop_fields_ok _ M) as [ds2 D].
  destruct (stack_ok _ _ M D) as [ds3 S].
  destruct (stacked_array _ _ _ M D S) as (x & G & HX & NV & LV & DT).
  destruct (not_reserved _ R) as (_ & _ & _ & R4 & R5).
  unfold rekey. cbn [local bind]. rewrite M. cbn [bind]. rewrite D. cbn [bind].
  rewrite S. cbn [bind]. rewrite (getitem_lookup _ _ _ G). cbn [bind].
  unfold Xr.to_dataset.
  cbn [Xr.assign_attrs Xr.construct_dataarray Xr.coords Xr.variable Xr.name Xr.dims].
  set (carried := filter _ (Xr.ds_coords ds3)).
  assert (T : mem v (keys carried) = false).
  { destruct (mem v (keys carried)) eqn:E; [|reflexivity].
    apply mem_In, keys_filter, mem_In in E. apply lookup_None_keys in NV. congruence. }
  rewrite T. cbn [bind].
  rewrite drop_vars_ok.
  2:{ intros k I. destruct (LV k I) as (c & IC & DC). apply mem_In.
      unfold Xr.variables, keys. cbn [Xr.data_vars Xr.ds_coords]. rewrite map_app.
      apply in_or_app. right. apply in_map_iff. exists (k, c). split; [reflexivity|].
      apply filter_In. split; [exact IC|]. cbn [snd]. rewrite DC.
      unfold Xr.subset. cbn [forallb]. fold (Xr.has_dim "Datetime" x).
      now rewrite HX. }
  cbn [bind Xr.assign_coords Xr.data_vars Xr.ds_coords].
  rewrite assign_coord_ok.
  2:{ intros d n m [[= <- <-] | []] J. rewrite RL.
      apply in_sizes in J as (k & y & J & J'). unfold Xr.variables in J.
      cbn [Xr.data_vars Xr.ds_coords] in J. apply in_app_or in J as [J | J];
        apply filter_In in J as [J _].
      - destruct J as [[= <- <-] | []]. cbn [Xr.dims] in J'.
        apply (DT v x m); [now apply lookup_In | exact J'].
      - apply filter_In in J as [J _]. apply (DT k y m); [|exact J'].
        unfold Xr.variables. apply in_or_app. now right. }
  cbn [bind]. eexists. apply getitem_lookup. unfold Xr.variables.
  cbn [Xr.data_vars Xr.ds_coords]. rewrite lookup_app, !lookup_remove, R4, R5.
  simpl. now rewrite String.eqb_refl.
Qed.

End Conforming.

Lemma length_of_axis ds d n :
  Xr.consistent ds = true -> axis ds d n -> length_of ds d = Ok n.
Proof.
  intros C [S A]. unfold length_of, Xr.getattr, Xr.getitem.
  destruct (lookup d (Xr.variables ds)) as [c|] eqn:E.
  - specialize (A c eq_refl). cbn [bind]. unfold Xr.len.
    cbn [Xr.construct_dataarray Xr.variable]. unfold Xr.dim_names, keys in A.
    destruct (Xr.dims c) as [|[d' m] [|q r]] eqn:DC; try discriminate A.
    injection A as ->. f_equal.
    assert (I : In (d, m) (Xr.sizes (Xr.variables ds))).
    { apply in_sizes. exists d, c. split; [now apply lookup_In | rewrite DC; now left]. }
    apply (consistent_lookup _ _ _ C) in I. congruence.
  - rewrite S. reflexivity.
Qed.

Lemma datetime_range_ok to_datetime filename ds ndays nhours start :
  Xr.consistent ds = true ->
  axis ds "Days" ndays -> axis ds "Hours" nhours ->
  to_datetime (start_string filename) = Some start ->
  datetime_range to_datetime filename ds
  = Ok (Clock.shift_hours 1 (Clock.hourly start (ndays * nhours))).
Proof.
  intros C D H T. pose proof (length_of_axis _ _ _ C D) as LD.
  pose proof (length_of_axis _ _ _ C H) as LH. unfold length_of in LD, LH.
  unfold datetime_range. cbv zeta.
  destruct (Xr.getattr ds "Days") as [days|]; [|discriminate]. cbn [bind] in LD |- *.
  rewrite LD. cbn [bind].
  destruct (Xr.getattr ds "Hours") as [hours|]; [|discriminate]. cbn [bind] in LH |- *.
  rewrite LH. cbn [bind]. unfold date_range. now rewrite T.
Qed.

(** X17: a conforming file is processed: when the file is one xarray can
    build, the active variable is a data variable on [Days] and [Hours],
    both are dimensions of the file, [longitude], [latitude] and [time]
    are variables, no dimension is called [Datetime] and pandas reads the
    start text, [open_and_preprocess] returns an array. The calls this
    development takes as total are kept to where they are: the data
    variables hold no datetimes, which [where] cannot mask with NaN, and
    the first and the last hour are instants pandas has timestamps for,
    as then are all the timestamps made. *)
Theorem conforming_file_is_processed
  open_dataset to_datetime filename candidates ds v src ndays nhours start :
  open_dataset filename = Ok ds ->
  Xr.consistent ds = true ->
  (forall k x, In (k, x) (Xr.data_vars ds) -> numeric x) ->
  Clock.in_bounds start = true ->
  Clock.in_bounds (start + Clock.hour * Z.of_nat (ndays * nhours))%Z = true ->
  scan ds candidates None = Ok (Some v) ->
  In v variables ->
  lookup v (Xr.data_vars ds) = Some src ->
  lookup v (Xr.ds_coords ds) = None ->
  Xr.has_dim "Days" src = true ->
  Xr.has_dim "Hours" src = true ->
  axis ds "Days" ndays ->
  axis ds "Hours" nhours ->
  (forall k, In k ["longitude"; "latitude"; "time"] ->
             mem k (keys (Xr.variables ds)) = true) ->
  lookup "Datetime" (Xr.sizes (Xr.variables ds)) = None ->
  to_datetime (start_string filename) = Some start ->
  exists arr range,
    datetime_range to_datetime filename ds = Ok range /\
    (forall t, In t range -> Clock.in_bounds t = true) /\
    open_and_preprocess open_dataset to_datetime filename candidates = Ok arr.
Proof.
  intros O C _ B E S I L NC HD HH AD AH F ND T.
  pose proof (datetime_range_ok _ _ _ _ _ _ C AD AH T) as R.
  destruct (rekey_ok ds v src
              (Clock.shift_hours 1 (Clock.hourly start (ndays * nhours)))
              ndays nhours C L NC (variables_not_reserved _ I) HD HH F ND
              (proj1 AD) (proj1 AH)) as [arr K].
  { now rewrite shift_hours_length, hourly_length. }
  exists arr, (Clock.shift_hours 1 (Clock.hourly start (ndays * nhours))).
  split; [exact R|]. split.
  - intros t J. unfold Clock.shift_hours, Clock.hourly in J.
    apply in_map_iff in J as [t' [<- J]]. apply in_map_iff in J as [i [<- J]].
    apply in_seq in J. unfold Clock.in_bounds in *.
    apply andb_true_iff in B as [B1 B2]. apply andb_true_iff in E as [E1 E2].
    apply Z.leb_le in B1, B2, E1, E2. apply andb_true_iff.
    rewrite !Z.leb_le. unfold Clock.hour in *. lia.
  - unfold open_and_preprocess. rewrite O. cbn [bind]. rewrite S. cbn [bind].
    rewrite R. cbn [bind]. exact K.
Qed.

(** ** Selecting the window of a call in a returned array *)

Lemma lookup_on_array f a k :
  lookup k (Xr.coords (Xr.on_array f a)) = option_map f (lookup k (Xr.coords a)).
Proof. unfold Xr.on_array. cbn [Xr.coords]. apply lookup_map. Qed.

Lemma take_other d start size c :
  Xr.has_dim d c = false -> Xr.take d start size c = c.
Proof. unfold Xr.take. now intros ->. Qed.

Lemma pick_drops d k x : Xr.has_dim d (Xr.pick d k x) = false.
Proof.
  unfold Xr.pick. destruct (Xr.has_dim d x) eqn:H; [|exact H].
  unfold Xr.has_dim, Xr.dim_names. cbn [Xr.dims].
  destruct (mem d (keys (remove [d] (Xr.dims x)))) eqn:M; [|reflexivity].
  apply mem_In, keys_remove in M as [_ M]. simpl in M. now rewrite String.eqb_refl in M.
Qed.

Lemma pick_other d k c : Xr.has_dim d c = false -> Xr.pick d k c = c.
Proof. unfold Xr.pick. now intros ->. Qed.

Lemma take_dim_names d start size c :
  Xr.dim_names (Xr.take d start size c) = Xr.dim_names c.
Proof.
  unfold Xr.take. destruct (Xr.has_dim d c); [|reflexivity].
  unfold Xr.dim_names, keys. cbn [Xr.dims]. rewrite map_map. apply map_ext.
  intros [d' n]. cbn [fst]. destruct (String.eqb d' d) eqn:E; [|reflexivity].
  apply String.eqb_eq in E. now subst.
Qed.

Lemma single_dim c d n d' :
  Xr.dims c = [(d, n)] -> String.eqb d' d = false -> Xr.has_dim d' c = false.
Proof.
  intros D E. unfold Xr.has_dim, Xr.dim_names. rewrite D. simpl. now rewrite E.
Qed.

(** A slice of an increasing float axis never raises. *)
Lemma sel_slice a d c lo hi :
  lookup d (Xr.coords a) = Some c ->
  float_axis c d ->
  exists start size,
    Xr.sel_dim a d (Xr.Slice lo hi) = Ok (Xr.on_array (Xr.take d start size) a).
Proof.
  intros L (n & xs & D & X & M). unfold Xr.sel_dim. rewrite L, D, String.eqb_refl, X.
  cbn [bind]. unfold Xr.slice_bounds. rewrite M. cbn [bind fst snd]. eauto.
Qed.

Lemma sel_label to_datetime filename ds range a i :
  datetime_range to_datetime filename ds = Ok range ->
  lookup "Datetime" (Xr.coords a) = Some (Xr.datetime_index "Datetime" range) ->
  i < List.length range ->
  Xr.sel_dim a "Datetime" (Xr.Label (nth i range 0%Z))
  = Ok (Xr.on_array (Xr.pick "Datetime" i) a).
Proof.
  intros R LD Hi. unfold Xr.sel_dim. rewrite LD.
  cbn [Xr.datetime_index Xr.dims]. rewrite String.eqb_refl.
  change (Xr.labels _ "Datetime" (List.length range))
    with (Xr.labels (Xr.datetime_index "Datetime" range) "Datetime" (List.length range)).
  rewrite datetime_labels.
  rewrite (position_at _ _ (Xr.Stamp 0%Z) i); [reflexivity | | |].
  - now rewrite length_map.
  - rewrite (nth_map_in _ _ _ _ 0%Z) by assumption. simpl. apply Z.eqb_refl.
  - intros j Hj. assert (X : j < List.length range) by lia.
    rewrite (nth_map_in Xr.Stamp range j (Xr.Stamp 0%Z) 0%Z X). simpl.
    apply Z.eqb_neq. intros E.
    pose proof (timestamps_increase _ _ _ _ j i R Hj Hi) as Lt.
    rewrite E in Lt. now apply Z.lt_irrefl in Lt.
Qed.

Lemma datetime_coordinate ds var range arr :
  rekey ds var range = Ok arr ->
  lookup "Datetime" (Xr.coords arr) = Some (Xr.datetime_index "Datetime" range).
Proof.
  intros K.
  destruct (rekey_shape _ _ _ _ K)
    as (v & ds1 & ds2 & ds3 & a & _ & _ & _ & _ & _ & _ & HD & _ & VA & C).
  rewrite C. apply lookup_filter.
  - now rewrite lookup_update, String.eqb_refl.
  - cbn [snd Xr.datetime_index Xr.dim_names Xr.dims keys map fst Xr.subset forallb].
    unfold Xr.has_dim in HD. now rewrite HD.
Qed.

Lemma position_coordinate ds v src range arr raw new field :
  lookup v (Xr.data_vars ds) = Some src ->
  mem v reserved = false ->
  rekey ds (Some v) range = Ok arr ->
  In (raw, new) [("longitude", "Longitudes"); ("latitude", "Latitudes")] ->
  Xr.getitem ds raw = Ok field ->
  float_axis (Xr.variable field) new ->
  Xr.has_dim new src = true ->
  lookup new (Xr.coords arr) = Some (Xr.variable field).
Proof.
  intros L R K I G (n & xs & D & _) H.
  assert (N : String.eqb "Days" new = false /\ String.eqb "Hours" new = false)
    by (destruct I as [[= <- <-] | [[= <- <-] | []]]; now split).
  destruct N as [N1 N2].
  destruct (relabelled_coordinate_value _ _ _ _ _ _ _ _ L R K I G)
    as (n1 & n2 & stacked & SV & LK).
  - unfold Xr.dim_names. rewrite D. cbn [keys map fst Xr.subset forallb].
    unfold Xr.has_dim, Xr.dim_names in H. now rewrite H.
  - unfold Xr.stack_var in SV.
    rewrite (single_dim _ _ _ "Days" D N1), (single_dim _ _ _ "Hours" D N2) in SV.
    cbn [orb] in SV. now injection SV as <-.
Qed.

(** X19: the returned array can be selected as [case_study_plotting]
    selects its fields: when [longitude] and [latitude] are
    one-dimensional float fields in increasing order along [Longitudes]
    and [Latitudes], dimensions of the active variable, the selection of
    any two slices and of any timestamp of the array succeeds, the result
    has its [Longitudes] and [Latitudes] coordinates, along those
    dimensions, and no [Datetime] dimension. *)
Theorem window_of_returned_array
  open_dataset to_datetime filename candidates ds v src range arr lon lat
  lon_lo lon_hi lat_lo lat_hi i :
  open_dataset filename = Ok ds ->
  scan ds candidates None = Ok (Some v) ->
  In v variables ->
  lookup v (Xr.data_vars ds) = Some src ->
  datetime_range to_datetime filename ds = Ok range ->
  open_and_preprocess open_dataset to_datetime filename candidates = Ok arr ->
  Xr.getitem ds "longitude" = Ok lon ->
  Xr.getitem ds "latitude" = Ok lat ->
  float_axis (Xr.variable lon) "Longitudes" ->
  float_axis (Xr.variable lat) "Latitudes" ->
  Xr.has_dim "Longitudes" src = true ->
  Xr.has_dim "Latitudes" src = true ->
  i < List.length range ->
  exists window x y,
    Xr.sel arr [ ("Latitudes", Xr.Slice lat_lo lat_hi);
                 ("Longitudes", Xr.Slice lon_lo lon_hi);
                 ("Datetime", Xr.Label (nth i range 0%Z)) ] = Ok window /\
    Xr.coord window "Longitudes" = Ok x /\
    Xr.coord window "Latitudes" = Ok y /\
    Xr.dim_names x = ["Longitudes"] /\
    Xr.dim_names y = ["Latitudes"] /\
    Xr.has_dim "Datetime" (Xr.variable window) = false.
Proof.
  intros O S I L R H GO GA FO FA HO HA Hi.
  destruct (preprocess_inv _ _ _ _ _ H) as (ds' & var & range' & O' & S' & R' & K).
  rewrite O in O'. injection O' as <-. rewrite S in S'. injection S' as <-.
  rewrite R in R'. injection R' as <-.
  pose proof (variables_not_reserved _ I) as NR.
  pose proof (datetime_coordinate _ _ _ _ K) as LD.
  pose proof (position_coordinate _ _ _ _ _ "longitude" "Longitudes" _ L NR K
                (or_introl eq_refl) GO FO HO) as LO.
  pose proof (position_coordinate _ _ _ _ _ "latitude" "Latitudes" _ L NR K
                (or_intror (or_introl eq_refl)) GA FA HA) as LA.
  destruct FO as (no & xo & DO & FO). destruct FA as (na & xa & DA & FA).
  assert (FO' : float_axis (Xr.variable lon) "Longitudes") by (exists no, xo; now split).
  assert (FA' : float_axis (Xr.variable lat) "Latitudes") by (exists na, xa; now split).
  cbn [Xr.sel].
  destruct (sel_slice arr "Latitudes" _ lat_lo lat_hi LA FA') as (s1 & z1 & ->).
  cbn [bind]. set (a1 := Xr.on_array (Xr.take "Latitudes" s1 z1) arr).
  assert (LO1 : lookup "Longitudes" (Xr.coords a1) = Some (Xr.variable lon)).
  { unfold a1. rewrite lookup_on_array, LO. cbn [option_map]. f_equal.
    apply take_other. now apply (single_dim _ _ _ _ DO). }
  destruct (sel_slice a1 "Longitudes" _ lon_lo lon_hi LO1 FO') as (s2 & z2 & ->).
  cbn [bind]. set (a2 := Xr.on_array (Xr.take "Longitudes" s2 z2) a1).
  assert (LD2 : lookup "Datetime" (Xr.coords a2)
                = Some (Xr.datetime_index "Datetime" range)).
  { unfold a2, a1. now rewrite !lookup_on_array, LD. }
  rewrite (sel_label _ _ _ _ _ _ R LD2 Hi). cbn [bind].
  set (f := fun c => Xr.pick "Datetime" i
                       (Xr.take "Longitudes" s2 z2 (Xr.take "Latitudes" s1 z1 c))).
  assert (X : forall k c, lookup k (Xr.coords arr) = Some c ->
                Xr.coord (Xr.on_array (Xr.pick "Datetime" i) a2) k = Ok (f c)).
  { intros k c E. unfold Xr.coord, a2, a1. now rewrite !lookup_on_array, E. }
  exists (Xr.on_array (Xr.pick "Datetime" i) a2), (f (Xr.variable lon)),
    (f (Xr.variable lat)).
  split; [reflexivity|]. split; [exact (X _ _ LO)|]. split; [exact (X _ _ LA)|].
  unfold f.
  assert (NO : Xr.dim_names (Xr.variable lon) = ["Longitudes"])
    by (unfold Xr.dim_names; now rewrite DO).
  assert (NA : Xr.dim_names (Xr.variable lat) = ["Latitudes"])
    by (unfold Xr.dim_names; now rewrite DA).
  split; [|split].
  - rewrite pick_other; [now rewrite !take_dim_names|].
    unfold Xr.has_dim. now rewrite !take_dim_names, NO.
  - rewrite pick_other; [now rewrite !take_dim_names|].
    unfold Xr.has_dim. now rewrite !take_dim_names, NA.
  - cbn [Xr.on_array Xr.variable]. apply pick_drops.
Qed.

(** ** The further properties on the sample files *)

Lemma returned_name_is_first_field_witness :
  exists before after,
    variables = before ++ Xr.name (Sample.processed Cases.month) :: after /\
    present Sample.file (Xr.name (Sample.processed Cases.month)) = true /\
    forall c, In c before -> present Sample.file c = false.
Proof.
  apply (returned_name_is_first_field Sample.disk Clock.iso_date Cases.month
           variables Sample.file (Sample.processed Cases.month)); reflexivity.
Defined.

Lemma missing_axis_is_an_attribute_error_witness :
  (present Cases.no_axes "Days" = false ->
   open_and_preprocess (fun _ => Ok Cases.no_axes) Clock.iso_date Cases.month variables
   = Raise (AttributeError "Days")) /\
  (forall ndays,
     length_of Cases.no_axes "Days" = Ok ndays ->
     present Cases.no_axes "Hours" = false ->
     open_and_preprocess (fun _ => Ok Cases.no_axes) Clock.iso_date Cases.month variables
     = Raise (AttributeError "Hours")).
Proof.
  apply (missing_axis_is_an_attribute_error (fun _ => Ok Cases.no_axes) Clock.iso_date
           Cases.month variables Cases.no_axes).
  reflexivity.
Defined.


Lemma start_string_of_six_characters_witness :
  start_string Cases.month
  = (substring 0 4 "201907" ++ "-" ++ substring 4 2 "201907" ++ "-01")%string.
Proof.
  apply (start_string_of_six_characters Cases.month "GEOS/" "201907").
  - apply (first_occurrence_computed token Cases.month). reflexivity.
  - reflexivity.
Defined.

Lemma timestamps_strictly_increase_witness :
  (forall i, S i < List.length Cases.hours ->
     nth (S i) Cases.hours 0%Z = (nth i Cases.hours 0 + 3600)%Z) /\
  (forall i j, i < j -> j < List.length Cases.hours ->
     (nth i Cases.hours 0 < nth j Cases.hours 0)%Z).
Proof.
  apply (timestamps_strictly_increase Clock.iso_date Cases.month Sample.file Cases.hours).
  reflexivity.
Defined.

Lemma returned_dimensions_witness :
  exists ndays nhours,
    lookup "Days" (Xr.sizes (Xr.variables Sample.file)) = Some ndays /\
    lookup "Hours" (Xr.sizes (Xr.variables Sample.file)) = Some nhours /\
    Xr.dims (Xr.variable (Sample.processed Cases.month))
    = if Xr.has_dim "Days" Sample.flashes || Xr.has_dim "Hours" Sample.flashes
      then remove ["Days"; "Hours"] (Xr.dims Sample.flashes)
           ++ [("Datetime", ndays * nhours)]
      else Xr.dims Sample.flashes.
Proof.
  apply (returned_dimensions Sample.disk Clock.iso_date Cases.month variables
           Sample.file "flashes" Sample.flashes (Sample.processed Cases.month)).
  - reflexivity.
  - reflexivity.
  - reflexivity.
  - simpl. tauto.
  - reflexivity.
  - reflexivity.
Defined.

Lemma returned_attributes_witness :
  Xr.attrs (Xr.variable (Sample.processed Cases.month))
  = update "missing_value" Xr.NaN (Xr.attrs Sample.flashes).
Proof.
  apply (returned_attributes Sample.disk Clock.iso_date Cases.month variables
           Sample.file "flashes" Sample.flashes (Sample.processed Cases.month)).
  - reflexivity.
  - reflexivity.
  - reflexivity.
  - simpl. tauto.
  - reflexivity.
  - reflexivity.
Defined.

Lemma no_fill_value_is_returned_witness :
  lookup "flashes" (Xr.data_vars Sample.file) = Some Sample.flashes /\
  ~ is_fill (Xr.values (Xr.variable (Sample.processed Cases.month))
               (fun d => if String.eqb d "Datetime" then 1 else 0)).
Proof.
  split; [reflexivity|].
  apply (no_fill_value_is_returned Sample.disk Clock.iso_date Cases.month variables
           Sample.file "flashes" Sample.flashes (Sample.processed Cases.month)).
  - reflexivity.
  - reflexivity.
  - reflexivity.
  - simpl. tauto.
  - reflexivity.
  - reflexivity.
Defined.

Lemma datetime_axis_matches_timestamps_witness :
  lookup "Datetime" (Xr.dims (Xr.variable (Sample.processed Cases.month)))
  = Some (List.length Cases.hours).
Proof.
  apply (datetime_axis_matches_timestamps Sample.disk Clock.iso_date Cases.month
           variables Sample.file Cases.hours (Sample.processed Cases.month));
    reflexivity.
Defined.

Lemma position_coordinates_are_not_masked_witness :
  lookup "Longitudes" (Xr.coords (Sample.processed Cases.month))
  = Some (Sample.axis_values "Longitudes" 2).
Proof.
  apply (position_coordinates_are_not_masked Sample.disk Clock.iso_date Cases.month
           variables Sample.file "flashes" Sample.flashes (Sample.processed Cases.month)
           "longitude" "Longitudes"
           (Xr.construct_dataarray Sample.file "longitude"
              (Sample.axis_values "Longitudes" 2))).
  - reflexivity.
  - reflexivity.
  - simpl. tauto.
  - reflexivity.
  - reflexivity.
  - left. reflexivity.
  - reflexivity.
  - reflexivity.
  - reflexivity.
Defined.

Lemma timestamp_selects_its_hour_witness :
  (forall i, i < List.length Cases.hours ->
     exists hour,
       Xr.sel (Sample.processed Cases.month)
         [("Datetime", Xr.Label (nth i Cases.hours 0%Z))] = Ok hour /\
       Xr.has_dim "Datetime" (Xr.variable hour) = false /\
       forall ix, Xr.values (Xr.variable hour) ix
                  = Xr.values (Xr.variable (Sample.processed Cases.month))
                      (Xr.upd ix "Datetime" i)) /\
  (forall t, ~ In t Cases.hours ->
     Xr.sel (Sample.processed Cases.month) [("Datetime", Xr.Label t)]
     = Raise (KeyError (Clock.isoformat t))).
Proof.
  apply (timestamp_selects_its_hour Sample.disk Clock.iso_date Cases.month variables
           Sample.file Cases.hours (Sample.processed Cases.month)); reflexivity.
Defined.

Lemma plotting_needs_a_latitudes_dimension_witness :
  fst (case_study_plotting (fun _ _ => true) (fun _ => true)
         Cases.processed_other_names Sample.field Sample.field
         Sample.window Sample.window Sample.inside defaults Sample.empty_world)
  = Raise (KeyError "Latitudes").
Proof.
  apply (plotting_needs_a_latitudes_dimension (fun _ => Ok Cases.other_names)
           Clock.iso_date Cases.month variables Cases.other_names "flashes"
           {| Xr.dims := [("Days", 2); ("Hours", 3); ("lat", 2); ("lon", 2)];
              Xr.values := Xr.values Sample.flashes;
              Xr.attrs := [] |}
           Cases.processed_other_names
           (Xr.construct_dataarray Cases.other_names "latitude"
              (Sample.axis_values "lat" 2))).
  - reflexivity.
  - reflexivity.
  - simpl. tauto.
  - reflexivity.
  - reflexivity.
  - reflexivity.
  - reflexivity.
  - intros n E. discriminate E.
Defined.

Lemma conforming_file_is_processed_witness :
  exists arr range,
    datetime_range Clock.iso_date Cases.month Sample.file = Ok range /\
    (forall t, In t range -> Clock.in_bounds t = true) /\
    open_and_preprocess Sample.disk Clock.iso_date Cases.month variables = Ok arr.
Proof.
  apply (conforming_file_is_processed Sample.disk Clock.iso_date Cases.month variables
           Sample.file "flashes" Sample.flashes 2 3 (Clock.datetime 2019 7 1 0 0 0)).
  - reflexivity.
  - reflexivity.
  - intros k x J ix t. simpl in J.
    destruct J as [[= <- <-] | [[= <- <-] | [[= <- <-] | [[= <- <-] | []]]]]; simpl;
      try discriminate; destruct (Nat.eqb _ _); discriminate.
  - reflexivity.
  - reflexivity.
  - reflexivity.
  - simpl. tauto.
  - reflexivity.
  - reflexivity.
  - reflexivity.
  - reflexivity.
  - split; [reflexivity | intros c E; discriminate E].
  - split; [reflexivity | intros c E; discriminate E].
  - intros k [<- | [<- | [<- | []]]]; reflexivity.
  - reflexivity.
  - reflexivity.
Defined.

Lemma window_of_returned_array_witness :
  exists window x y,
    Xr.sel (Sample.processed Cases.month)
      [ ("Latitudes", Sample.window); ("Longitudes", Sample.window);
        ("Datetime", Xr.Label (nth 2 Cases.hours 0%Z)) ] = Ok window /\
    Xr.coord window "Longitudes" = Ok x /\
    Xr.coord window "Latitudes" = Ok y /\
    Xr.dim_names x = ["Longitudes"] /\
    Xr.dim_names y = ["Latitudes"] /\
    Xr.has_dim "Datetime" (Xr.variable window) = false.
Proof.
  apply (window_of_returned_array Sample.disk Clock.iso_date Cases.month variables
           Sample.file "flashes" Sample.flashes Cases.hours
           (Sample.processed Cases.month)
           (Xr.construct_dataarray Sample.file "longitude"
              (Sample.axis_values "Longitudes" 2))
           (Xr.construct_dataarray Sample.file "latitude"
              (Sample.axis_values "Latitudes" 2))
           (S754_zero false) one (S754_zero false) one 2).
  - reflexivity.
  - reflexivity.
  - simpl. tauto.
  - reflexivity.
  - reflexivity.
  - reflexivity.
  - reflexivity.
  - reflexivity.
  - exists 2, [S754_zero false; one]. repeat split.
  - exists 2, [S754_zero false; one]. repeat split.
  - reflexivity.
  - reflexivity.
  - simpl. lia.
Defined.

Example other_names_are_processed :
  is_ok (open_and_preprocess (fun _ => Ok Cases.other_names) Clock.iso_date Cases.month
           variables) = true /\
  map (fun p => (fst p, Xr.dims (snd p))) (Xr.coords Cases.processed_other_names)
  = [ ("Longitudes", [("lon", 2)]); ("Latitudes", [("lat", 2)]);
      ("Datetime", [("Datetime", 6)]) ].
Proof. split; reflexivity. Qed.
